(** * SeaCat Auth: authorization-code flow, cookie introspection, sessions

  A shallow embedding of the parts of [seacatauth] that the specification's
  testable properties talk about:

  - [seacatauth/openidconnect/handler/authorize.py]  (module [authorize])
  - [seacatauth/openidconnect/service.py]            (module [oidc])
  - [seacatauth/cookie/handler.py], [cookie/service.py] (module [cookie])
  - [seacatauth/credentials/providers/ldap.py]       (module [ldap])
  - [seacatauth/tenant/service.py]                   ([tenant_get_tenants])

  Python [str] values are byte strings (the UTF-8 encoding of the text),
  dictionaries that are iterated keep their insertion order and are
  association lists, stores that are only looked up are [gmap]s, and every
  awaited collaborator call is a pure function of an explicit [World]. *)

From Stdlib Require Import Ascii String ZifyNat.
From stdpp Require Import base option list strings gmap.

Local Open Scope string_scope.

(** ** Python run-time helpers *)

Module py.

(** [s1 + s2] on [str]. *)
Definition cat (s1 s2 : string) : string := String.append s1 s2.

(** [s.startswith(p)]. *)
Definition startswith (s p : string) : bool := String.prefix p s.

(** [s[n:]]. *)
Fixpoint drop (n : nat) (s : string) : string :=
  match n, s with
  | O, _ => s
  | S _, EmptyString => EmptyString
  | S k, String _ t => drop k t
  end.

(** [sep.join(l)]. *)
Definition join (sep : string) (l : list string) : string := String.concat sep l.

(** [s.split(c)] for a one-character separator: always at least one piece. *)
Fixpoint split_aux (c : ascii) (s : string) (cur : string) : list string :=
  match s with
  | EmptyString => [cur]
  | String a t =>
      if Ascii.eqb a c then cur :: split_aux c t EmptyString
      else split_aux c t (cat cur (String a EmptyString))
  end.

Definition split (c : ascii) (s : string) : list string := split_aux c s EmptyString.

(** [x in l] for a list (or set) of strings. *)
Definition mem (x : string) (l : list string) : bool := bool_decide (x ∈ l).

(** A [dict] whose iteration order matters: insertion-ordered association
    list.  [d[k] = v] overwrites in place when [k] is present and appends
    otherwise, as CPython's dict does. *)
Definition dict (V : Type) : Type := list (string * V).

Fixpoint dict_get {V} (d : dict V) (k : string) : option V :=
  match d with
  | [] => None
  | (k', v) :: t => if String.eqb k' k then Some v else dict_get t k
  end.

Fixpoint dict_set {V} (d : dict V) (k : string) (v : V) : dict V :=
  match d with
  | [] => [(k, v)]
  | (k', v') :: t =>
      if String.eqb k' k then (k', v) :: t else (k', v') :: dict_set t k v
  end.

(** Every value of a dictionary satisfies [P]. *)
Definition all_values {V : Type} (P : V -> Prop) (d : dict V) : Prop :=
  forall k v, (k, v) ∈ d -> P v.

(** [list.remove(x)]: drop the first occurrence (the callers test
    membership first, so the [ValueError] case never arises). *)
Fixpoint list_remove (x : string) (l : list string) : list string :=
  match l with
  | [] => []
  | y :: t => if String.eqb y x then t else y :: list_remove x t
  end.

(** [set(l)] followed by iteration: every element once.  CPython does not
    fix the iteration order of a set of strings; the model iterates in
    order of first occurrence, and no theorem below depends on the order
    beyond what it states. *)
Fixpoint set_of (l : list string) : list string :=
  match l with
  | [] => []
  | x :: t => if mem x t then set_of t else x :: set_of t
  end.

(** [s.add(x)] on a set kept as a duplicate-free list. *)
Definition set_add (x : string) (s : list string) : list string :=
  if mem x s then s else s ++ [x].

(** [s.update(l)]. *)
Definition set_update (s l : list string) : list string :=
  foldl (fun acc x => set_add x acc) s l.

(** The Python values that travel through untyped parameters of the
    modelled code.  [PyObject r] is an arbitrary object whose [str()] is
    [r]. *)
Inductive value :=
| PyNone
| PyStr (s : string)
| PyInt (z : Z)
| PyStrs (l : list string)
| PyObject (repr : string).

(** Exceptions raised by the modelled code or by its collaborators. *)
Inductive exn :=
| KeyError (msg : string)
| ValueError (msg : string)
| TypeError (msg : string)
| AssertionError
| AttributeError (msg : string)
| SessionNotFoundError (msg : string)
| AccessDeniedError (subject : string)
| LDAPError (name : string).

Inductive result (A : Type) :=
| Ok (a : A)
| Raise (e : exn).
Arguments Ok {A} a.
Arguments Raise {A} e.

Definition bind {A B} (r : result A) (k : A -> result B) : result B :=
  match r with
  | Ok a => k a
  | Raise e => Raise e
  end.

Definition is_space (c : ascii) : bool :=
  let n := nat_of_ascii c in
  Nat.eqb n 32 || (Nat.leb 9 n && Nat.leb n 13).

Fixpoint lstrip (s : string) : string :=
  match s with
  | String c t => if is_space c then lstrip t else s
  | EmptyString => EmptyString
  end.

Definition digit_value (c : ascii) : option Z :=
  let n := nat_of_ascii c in
  if Nat.leb 48 n && Nat.leb n 57 then Some (Z.of_nat (n - 48)) else None.

(** The digits of a decimal literal: one or more digits, single
    underscores allowed between digits.  [acc] is the value read so far,
    [count] the number of digits read, [after_digit] tells whether the
    previous character was a digit.  The result is the value, the number
    of digits and the text that follows the digits. *)
Fixpoint scan_digits (s : string) (acc : Z) (count : nat) (after_digit : bool)
    : option (Z * nat * string) :=
  match s with
  | EmptyString => if after_digit then Some (acc, count, EmptyString) else None
  | String c t =>
      match digit_value c with
      | Some d => scan_digits t (10 * acc + d)%Z (S count) true
      | None =>
          if Ascii.eqb c "_"%char then
            if after_digit then
              match t with
              | String c' _ => if digit_value c' is Some _ then scan_digits t acc count false else None
              | EmptyString => None
              end
            else None
          else if after_digit then Some (acc, count, s) else None
      end
  end.

(** [sys.get_int_max_str_digits()], as CPython sets it by default. *)
Definition int_max_str_digits : nat := 4300.

(** [int(s)] on ASCII text: surrounding blanks, an optional sign, decimal
    digits; [ValueError] otherwise, and also for a literal of more than
    [int_max_str_digits] digits (leading zeros count). *)
Definition int (s : string) : result Z :=
  let invalid := Raise (ValueError "invalid literal for int() with base 10") in
  let body (negative : bool) (t : string) : result Z :=
    match scan_digits t 0 0 false with
    | Some (z, count, rest) =>
        if Nat.ltb int_max_str_digits count
        then Raise (ValueError "Exceeds the limit (4300 digits) for integer string conversion")
        else
          match lstrip rest with
          | EmptyString => Ok (if negative then Z.opp z else z)
          | String _ _ => invalid
          end
    | None => invalid
    end in
  match lstrip s with
  | String c t =>
      if Ascii.eqb c "-"%char then body true t
      else if Ascii.eqb c "+"%char then body false t
      else body false (String c t)
  | EmptyString => invalid
  end.

End py.

Notation "x <-? r ;; k" := (py.bind r (fun x => k))
(at level 100, r at next level, right associativity).

(** ** [urllib.parse] as the handlers use it *)

Module urllib.

(** *** Percent-encoding ([quote], [quote_plus], [urlencode]) *)

(** [_ALWAYS_SAFE]: ASCII letters, digits and [_.-~]. *)
Definition always_safe (c : ascii) : bool :=
  let n := nat_of_ascii c in
  (Nat.leb 65 n && Nat.leb n 90) || (Nat.leb 97 n && Nat.leb n 122)
  || (Nat.leb 48 n && Nat.leb n 57)
  || Nat.eqb n 95 || Nat.eqb n 46 || Nat.eqb n 45 || Nat.eqb n 126.

Definition hex_digit (n : nat) : ascii :=
  match String.get n "0123456789ABCDEF" with
  | Some c => c
  | None => "0"%char
  end.

(** ['%{:02X}'.format(b)]. *)
Definition percent (c : ascii) : string :=
  let n := nat_of_ascii c in
  String "%"%char (String (hex_digit (n / 16)) (String (hex_digit (n mod 16)) EmptyString)).

(** [quote_from_bytes(bs, safe)]: bytes in [_ALWAYS_SAFE + safe] stay, every
    other byte becomes [%XX]. *)
Fixpoint quote_with (safe : ascii -> bool) (s : string) : string :=
  match s with
  | EmptyString => EmptyString
  | String c t =>
      if always_safe c || safe c then String c (quote_with safe t)
      else py.cat (percent c) (quote_with safe t)
  end.

(** [quote(s)] with its default [safe='/']. *)
Definition quote (s : string) : string :=
  quote_with (fun c => Ascii.eqb c "/"%char) s.

Fixpoint has_space (s : string) : bool :=
  match s with
  | EmptyString => false
  | String c t => Ascii.eqb c " "%char || has_space t
  end.

(** [s.replace(' ', '+')]. *)
Fixpoint space_to_plus (s : string) : string :=
  match s with
  | EmptyString => EmptyString
  | String c t =>
      String (if Ascii.eqb c " "%char then "+"%char else c) (space_to_plus t)
  end.

(** [quote_plus(s)] with its default [safe='']. *)
Definition quote_plus (s : string) : string :=
  if has_space s
  then space_to_plus (quote_with (fun c => Ascii.eqb c " "%char) s)
  else quote_with (fun _ => false) s.

(** A value that [urlencode] turns into text with [str(v)]: a [str], or
    any other object, whose [str()] is [repr]. *)
Inductive scalar :=
| Str (s : string)
| Obj (repr : string).

Definition str_of (v : scalar) : string :=
  match v with
  | Str s => s
  | Obj r => r
  end.

(** What [urlencode(doseq=True)] finds as a value of the mapping: a scalar
    or a list of [str] (as [parse_qs] builds them). *)
Inductive qs_value :=
| QScalar (v : scalar)
| QList (l : list string).

Definition pair_text (k v : string) : string :=
  py.cat (quote_plus k) (py.cat "=" (quote_plus v)).

(** [urlencode(query)]: [quote_plus(str(k)) + '=' + quote_plus(str(v))]
    joined by [&]. *)
Definition urlencode (query : py.dict scalar) : string :=
  py.join "&" (map (fun kv => pair_text (fst kv) (str_of (snd kv))) query).

(** [urlencode(query, doseq=True)]: a sequence value contributes one
    [k=elt] pair per element (none when empty). *)
Definition urlencode_doseq (query : py.dict qs_value) : string :=
  py.join "&"
    (concat (map (fun kv =>
       match snd kv with
       | QScalar v => [pair_text (fst kv) (str_of v)]
       | QList l => map (pair_text (fst kv)) l
       end) query)).

(** *** URL splitting

    [urlparse], [parse_qs] and [urlunparse] are CPython library code.  The
    handlers are modelled over any implementation of the three; [basic]
    below is the reference behaviour on plain URLs, used to run the
    handlers on concrete requests. *)

Record ParseResult := {
  scheme : string; netloc : string; path : string;
  params : string; query : string; fragment : string }.

Class UrlParser := {
  urlparse : string -> py.result ParseResult;   (* may raise ValueError *)
  parse_qs : string -> py.dict (list string);
  urlunparse : ParseResult -> string }.

(** *** The reference parser

    [urlsplit]/[urlparse], [urlunparse] and [parse_qs] of CPython 3.11 on
    [str] URLs that carry no leading blanks or control characters, no tab
    or newline, an ASCII host without brackets, and percent-escapes that
    decode to valid UTF-8.  A bracketed host is answered with the
    [ValueError] that CPython raises for a malformed one. *)

(** [s.split(c, 1)] when [c] occurs in [s]. *)
Fixpoint split_first (c : ascii) (s : string) : option (string * string) :=
  match s with
  | EmptyString => None
  | String a t =>
      if Ascii.eqb a c then Some (EmptyString, t)
      else match split_first c t with
           | Some (l, r) => Some (String a l, r)
           | None => None
           end
  end.

Definition is_alpha (c : ascii) : bool :=
  let n := nat_of_ascii c in
  (Nat.leb 65 n && Nat.leb n 90) || (Nat.leb 97 n && Nat.leb n 122).

Definition is_digit (c : ascii) : bool :=
  let n := nat_of_ascii c in Nat.leb 48 n && Nat.leb n 57.

(** [scheme_chars]: letters, digits and [+-.]. *)
Definition scheme_char (c : ascii) : bool :=
  is_alpha c || is_digit c
  || Ascii.eqb c "+"%char || Ascii.eqb c "-"%char || Ascii.eqb c "."%char.

Fixpoint all_chars (p : ascii -> bool) (s : string) : bool :=
  match s with
  | EmptyString => true
  | String c t => p c && all_chars p t
  end.

Definition lower_char (c : ascii) : ascii :=
  let n := nat_of_ascii c in
  if Nat.leb 65 n && Nat.leb n 90 then ascii_of_nat (n + 32) else c.

Fixpoint lower (s : string) : string :=
  match s with
  | EmptyString => EmptyString
  | String c t => String (lower_char c) (lower t)
  end.

(** The scheme, when the text before the first [:] is one. *)
Definition split_scheme (url : string) : string * string :=
  match split_first ":" url with
  | Some (String c0 rest as sch, url') =>
      if is_alpha c0 && all_chars scheme_char sch then (lower sch, url')
      else (EmptyString, url)
  | _ => (EmptyString, url)
  end.

(** [_splitnetloc(url, 2)]: the host part runs to the first of [/?#]. *)
Fixpoint span_netloc (s : string) : string * string :=
  match s with
  | EmptyString => (EmptyString, EmptyString)
  | String c t =>
      if Ascii.eqb c "/"%char || Ascii.eqb c "?"%char || Ascii.eqb c "#"%char
      then (EmptyString, s)
      else let '(n, r) := span_netloc t in (String c n, r)
  end.

Fixpoint has_char (c : ascii) (s : string) : bool :=
  match s with
  | EmptyString => false
  | String a t => Ascii.eqb a c || has_char c t
  end.

Definition uses_params : list string :=
  [""; "ftp"; "hdl"; "prospero"; "http"; "imap"; "https"; "shttp"; "rtsp";
   "rtspu"; "sip"; "sips"; "mms"; "sftp"; "tel"].

Definition uses_netloc : list string :=
  [""; "ftp"; "http"; "gopher"; "nntp"; "telnet"; "imap"; "wais"; "file";
   "mms"; "https"; "shttp"; "snews"; "prospero"; "rtsp"; "rtspu"; "rsync";
   "svn"; "svn+ssh"; "sftp"; "nfs"; "git"; "git+ssh"; "ws"; "wss"].

(** [_splitparams]: the parameters follow the first [;] of the last path
    segment. *)
Fixpoint last_segment_params (p : string) : string * string :=
  match p with
  | EmptyString => (EmptyString, EmptyString)
  | String c t =>
      if Ascii.eqb c ";"%char && negb (has_char "/" t) then (EmptyString, t)
      else let '(l, r) := last_segment_params t in (String c l, r)
  end.

Definition basic_urlparse (url0 : string) : py.result ParseResult :=
  let '(sch, url1) := split_scheme url0 in
  let '(nl, url2) :=
    if py.startswith url1 "//" then span_netloc (py.drop 2 url1)
    else (EmptyString, url1) in
  if has_char "[" nl || has_char "]" nl then py.Raise (py.ValueError "Invalid IPv6 URL")
  else
    let '(url3, frag) :=
      match split_first "#" url2 with Some lr => lr | None => (url2, EmptyString) end in
    let '(url4, q) :=
      match split_first "?" url3 with Some lr => lr | None => (url3, EmptyString) end in
    let '(url5, prm) :=
      if py.mem sch uses_params && has_char ";" url4 then last_segment_params url4
      else (url4, EmptyString) in
    py.Ok {| scheme := sch; netloc := nl; path := url5;
             params := prm; query := q; fragment := frag |}.

Definition nonempty (s : string) : bool :=
  match s with EmptyString => false | _ => true end.

Definition basic_urlunparse (r : ParseResult) : string :=
  let url := if nonempty (params r) then py.cat (path r) (py.cat ";" (params r)) else path r in
  let url :=
    if nonempty (netloc r)
       || (nonempty (scheme r) && py.mem (scheme r) uses_netloc
           && negb (py.startswith url "//"))
    then py.cat "//" (py.cat (netloc r)
           (if nonempty url && negb (py.startswith url "/") then py.cat "/" url else url))
    else url in
  let url := if nonempty (scheme r) then py.cat (scheme r) (py.cat ":" url) else url in
  let url := if nonempty (query r) then py.cat url (py.cat "?" (query r)) else url in
  if nonempty (fragment r) then py.cat url (py.cat "#" (fragment r)) else url.

Definition hex_value (c : ascii) : option nat :=
  let n := nat_of_ascii c in
  if is_digit c then Some (n - 48)
  else if Nat.leb 65 n && Nat.leb n 70 then Some (n - 55)
  else if Nat.leb 97 n && Nat.leb n 102 then Some (n - 87)
  else None.

(** [unquote(s.replace('+', ' '))]. *)
Fixpoint unquote_plus (s : string) : string :=
  match s with
  | EmptyString => EmptyString
  | String c t =>
      if Ascii.eqb c "+"%char then String " "%char (unquote_plus t)
      else if Ascii.eqb c "%"%char then
        match t with
        | String h (String l t') =>
            match hex_value h, hex_value l with
            | Some a, Some b => String (ascii_of_nat (16 * a + b)) (unquote_plus t')
            | _, _ => String c (unquote_plus t)
            end
        | _ => String c (unquote_plus t)
        end
      else String c (unquote_plus t)
  end.

(** [parse_qs(qs)]: fields without [=] or with a blank value are dropped
    ([keep_blank_values=False]); repeated names collect their values. *)
Definition basic_parse_qs (qs : string) : py.dict (list string) :=
  foldl (fun acc field =>
           match split_first "=" field with
           | Some (n, v) =>
               if nonempty v then
                 let name := unquote_plus n in
                 match py.dict_get acc name with
                 | Some vs => py.dict_set acc name (vs ++ [unquote_plus v])%list
                 | None => py.dict_set acc name [unquote_plus v]
                 end
               else acc
           | None => acc
           end)
        [] (py.split "&" qs).

Definition basic : UrlParser :=
  {| urlparse := basic_urlparse;
     parse_qs := basic_parse_qs;
     urlunparse := basic_urlunparse |}.

End urllib.

(** ** [yarl.URL] as aiohttp uses it *)

Module yarl.

(** [str(yarl.URL(location))] is what [aiohttp.web.HTTPFound] puts into
    the [Location] header: the URL with its parts quoted anew, or the
    [ValueError] that yarl raises for a URL it rejects.  yarl is library
    code; the handlers are modelled over any implementation, and [basic]
    below is the reference behaviour on plain URLs, used to run the
    handlers on concrete requests.  Releases of yarl differ in details
    that the samples stay clear of (such as whether the default port of a
    scheme is written out). *)
Class Url := {
  URL_str : string -> py.result string }.

(** *** The reference implementation

    [str(yarl.URL(url))] for a [str] that [urlsplit] takes as the
    reference parser of [urllib] describes it, with an ASCII host that is
    written without brackets and without [%]. *)

(** [UNRESERVED] and [SUB_DELIMS_WITHOUT_QS]: the characters every quoter
    leaves alone. *)
Definition allowed (c : ascii) : bool :=
  urllib.always_safe c || urllib.has_char c "!$'()*,".

(** [_Quoter(safe=..., protected=..., qs=...)(val)] with [requote=True]:
    an escape [%XX] is kept (in upper case) when it stands for a protected
    character or for one that is not safe, and replaced by the character
    when that is safe; a [%] that begins no escape becomes [%25]; a blank
    becomes [+] in a query string; every other character that is not safe
    is escaped. *)
Fixpoint requote (safe protected : string) (qs : bool) (s : string) : string :=
  let is_safe (c : ascii) : bool :=
    urllib.has_char c safe || allowed c
    || (negb qs && urllib.has_char c "+&=;") || urllib.has_char c protected in
  match s with
  | EmptyString => EmptyString
  | String c t =>
      if Ascii.eqb c "%"%char then
        match t with
        | String h (String l t') =>
            match urllib.hex_value h, urllib.hex_value l with
            | Some a, Some b =>
                let unquoted := ascii_of_nat (16 * a + b) in
                if urllib.has_char unquoted protected
                then py.cat (urllib.percent unquoted) (requote safe protected qs t')
                else if is_safe unquoted
                then String unquoted (requote safe protected qs t')
                else py.cat (urllib.percent unquoted) (requote safe protected qs t')
            | _, _ => py.cat "%25" (requote safe protected qs t)
            end
        | _ => py.cat "%25" (requote safe protected qs t)
        end
      else if qs && Ascii.eqb c " "%char then String "+"%char (requote safe protected qs t)
      else if is_safe c then String c (requote safe protected qs t)
      else py.cat (urllib.percent c) (requote safe protected qs t)
  end.

(** [_REQUOTER], [_PATH_REQUOTER], [_QUERY_REQUOTER] and
    [_FRAGMENT_REQUOTER]. *)
Definition requote_user : string -> string := requote "" "" false.
Definition requote_path : string -> string := requote "@:" "/+" false.
Definition requote_query : string -> string := requote "?/:@" "=+&;" true.
Definition requote_fragment : string -> string := requote "?/:@" "" false.

(** [urlsplit(url)]: as [urlparse], without the split of the path
    parameters. *)
Definition urlsplit (url0 : string) : py.result urllib.ParseResult :=
  let '(sch, url1) := urllib.split_scheme url0 in
  let '(nl, url2) :=
    if py.startswith url1 "//" then urllib.span_netloc (py.drop 2 url1)
    else (EmptyString, url1) in
  if urllib.has_char "[" nl || urllib.has_char "]" nl
  then py.Raise (py.ValueError "Invalid IPv6 URL")
  else
    let '(url3, frag) :=
      match urllib.split_first "#" url2 with
      | Some lr => lr
      | None => (url2, EmptyString)
      end in
    let '(url4, q) :=
      match urllib.split_first "?" url3 with
      | Some lr => lr
      | None => (url3, EmptyString)
      end in
    py.Ok {| urllib.scheme := sch; urllib.netloc := nl; urllib.path := url4;
             urllib.params := EmptyString; urllib.query := q;
             urllib.fragment := frag |}.

(** [s.rpartition(c)]: the text before and after the last [c]. *)
Fixpoint split_last (c : ascii) (s : string) : option (string * string) :=
  match s with
  | EmptyString => None
  | String a t =>
      match split_last c t with
      | Some (l, r) => Some (String a l, r)
      | None => if Ascii.eqb a c then Some (EmptyString, t) else None
      end
  end.

(** The value of a run of decimal digits. *)
Fixpoint digits_value (s : string) (acc : N) : N :=
  match s with
  | EmptyString => acc
  | String c t => digits_value t (10 * acc + N.of_nat (nat_of_ascii c - 48))%N
  end.

(** [str(n)] of the number a run of decimal digits stands for: the run
    without its leading zeros. *)
Fixpoint strip_zeros (s : string) : string :=
  match s with
  | String c (String _ _ as t) => if Ascii.eqb c "0"%char then strip_zeros t else s
  | _ => s
  end.

(** [SplitResult.port] and [str(port)]: no port, or a number up to
    65535; anything else is a [ValueError]. *)
Definition port_text (port : string) : py.result string :=
  match port with
  | EmptyString => py.Ok EmptyString
  | String _ _ =>
      if urllib.all_chars urllib.is_digit port
      then if (digits_value port 0 <=? 65535)%N
           then py.Ok (py.cat ":" (strip_zeros port))
           else py.Raise (py.ValueError "Invalid URL: port can't be converted to integer")
      else py.Raise (py.ValueError "Invalid URL: port can't be converted to integer")
  end.

(** [SplitResult.username] and [.password], put back by [_make_netloc]:
    the quoted user and password and the [@], when there is a user. *)
Definition user_text (netloc : string) : string :=
  match split_last "@" netloc with
  | None => EmptyString
  | Some (userinfo, _) =>
      let user :=
        match urllib.split_first ":" userinfo with
        | Some (username, password) =>
            py.cat (requote_user username) (py.cat ":" (requote_user password))
        | None => requote_user userinfo
        end in
      match user with
      | EmptyString => EmptyString
      | String _ _ => py.cat user "@"
      end
  end.

(** The authority as [URL.__new__] rebuilds it: the host in lower case,
    the port as a number; a missing host and a port that is no number up
    to 65535 are refused. *)
Definition make_netloc (netloc : string) : py.result string :=
  let hostinfo :=
    match split_last "@" netloc with
    | Some (_, h) => h
    | None => netloc
    end in
  let '(hostname, port) :=
    match urllib.split_first ":" hostinfo with
    | Some hp => hp
    | None => (hostinfo, EmptyString)
    end in
  match hostname with
  | EmptyString => py.Raise (py.ValueError "Invalid URL: host is required for absolute urls")
  | String _ _ =>
      port <-? port_text port ;;
      py.Ok (py.cat (user_text netloc) (py.cat (urllib.lower hostname) port))
  end.

(** [_normalize_path]: the segments [.] and [..] are resolved. *)
Definition normalize_path (path : string) : string :=
  let segments := py.split "/" path in
  let resolved :=
    foldl (fun acc seg =>
             if String.eqb seg ".." then removelast acc
             else if String.eqb seg "." then acc
             else (acc ++ [seg])%list)
          [] segments in
  let resolved :=
    match last segments with
    | Some seg =>
        if String.eqb seg "." || String.eqb seg ".." then (resolved ++ [EmptyString])%list
        else resolved
    | None => resolved
    end in
  py.join "/" resolved.

Definition basic_URL_str (url : string) : py.result string :=
  val <-? urlsplit url ;;
  netloc <-? (if urllib.nonempty (urllib.netloc val) then make_netloc (urllib.netloc val)
              else py.Ok EmptyString) ;;
  let path := requote_path (urllib.path val) in
  let path := if urllib.nonempty netloc then normalize_path path else path in
  if urllib.nonempty netloc && urllib.nonempty path && negb (py.startswith path "/")
  then py.Raise (py.ValueError
         "Path in a URL with authority should start with a slash ('/') if set")
  else
  let query := requote_query (urllib.query val) in
  let fragment := requote_fragment (urllib.fragment val) in
  let path :=
    if negb (urllib.nonempty path) && urllib.nonempty netloc
       && (urllib.nonempty query || urllib.nonempty fragment)
    then "/" else path in
  py.Ok (urllib.basic_urlunparse
           {| urllib.scheme := urllib.scheme val; urllib.netloc := netloc;
              urllib.path := path; urllib.params := EmptyString;
              urllib.query := query; urllib.fragment := fragment |}).

Definition basic : Url := {| URL_str := basic_URL_str |}.

End yarl.

(** ** [base64.urlsafe_b64decode] *)

Module base64.

(** The value of a character in the URL-safe alphabet; [+] and [/] keep
    their standard values, as [urlsafe_b64decode] only translates [-_]
    before it calls the standard decoder. *)
Definition sextet (c : ascii) : option nat :=
  let n := nat_of_ascii c in
  if Nat.leb 65 n && Nat.leb n 90 then Some (n - 65)
  else if Nat.leb 97 n && Nat.leb n 122 then Some (n - 71)
  else if Nat.leb 48 n && Nat.leb n 57 then Some (n + 4)
  else if Nat.eqb n 45 || Nat.eqb n 43 then Some 62
  else if Nat.eqb n 95 || Nat.eqb n 47 then Some 63
  else None.

(** The decoder's registers: position in the current quad, bits left over
    from the previous character, pad characters seen in a row. *)
Record decoder := { quad_pos : nat; leftchar : nat; pads : nat }.

(** [binascii.a2b_base64] (non-strict): characters outside the alphabet
    are skipped, a completed pad sequence ends the input, and a trailing
    partial quad is an error. *)
Fixpoint a2b (s : string) (d : decoder) : option string :=
  match s with
  | EmptyString => if Nat.eqb (quad_pos d) 0 then Some EmptyString else None
  | String c t =>
      if Ascii.eqb c "="%char then
        if Nat.leb 2 (quad_pos d) && Nat.leb 4 (quad_pos d + S (pads d))
        then Some EmptyString
        else a2b t {| quad_pos := quad_pos d; leftchar := leftchar d;
                      pads := if Nat.leb 2 (quad_pos d) then S (pads d) else pads d |}
      else
        match sextet c with
        | None => a2b t d
        | Some v =>
            match quad_pos d with
            | 0 => a2b t {| quad_pos := 1; leftchar := v; pads := 0 |}
            | 1 => option_map (String (ascii_of_nat (leftchar d * 4 + v / 16)))
                     (a2b t {| quad_pos := 2; leftchar := v mod 16; pads := 0 |})
            | 2 => option_map (String (ascii_of_nat (leftchar d * 16 + v / 4)))
                     (a2b t {| quad_pos := 3; leftchar := v mod 4; pads := 0 |})
            | _ => option_map (String (ascii_of_nat (leftchar d * 64 + v)))
                     (a2b t {| quad_pos := 0; leftchar := 0; pads := 0 |})
            end
        end
  end.

Definition is_ascii (s : string) : bool :=
  urllib.all_chars (fun c => Nat.ltb (nat_of_ascii c) 128) s.

(** [base64.urlsafe_b64decode(s)] on a [str] (or on [s.encode("ascii")]):
    [ValueError] for non-ASCII text and for incorrect padding. *)
Definition urlsafe_b64decode (s : string) : py.result string :=
  if is_ascii s then
    match a2b s {| quad_pos := 0; leftchar := 0; pads := 0 |} with
    | Some b => py.Ok b
    | None => py.Raise (py.ValueError "Incorrect padding")
    end
  else py.Raise (py.ValueError "string argument should contain only ASCII characters").

(** The [n]-th character of the alphabet; [c62] and [c63] are [+/] or
    [-_]. *)
Definition alphabet_char (c62 c63 : ascii) (n : nat) : ascii :=
  if Nat.ltb n 26 then ascii_of_nat (n + 65)
  else if Nat.ltb n 52 then ascii_of_nat (n + 71)
  else if Nat.ltb n 62 then ascii_of_nat (n - 4)
  else if Nat.eqb n 62 then c62 else c63.

(** [binascii.b2a_base64] without the newline: three bytes give four
    characters, a shorter tail is padded with [=]. *)
Fixpoint b2a (c62 c63 : ascii) (s : string) : string :=
  let ch := alphabet_char c62 c63 in
  match s with
  | EmptyString => EmptyString
  | String x EmptyString =>
      let a := nat_of_ascii x in
      String (ch (a / 4)) (String (ch (a mod 4 * 16)) "==")
  | String x (String y EmptyString) =>
      let a := nat_of_ascii x in
      let b := nat_of_ascii y in
      String (ch (a / 4)) (String (ch (a mod 4 * 16 + b / 16))
        (String (ch (b mod 16 * 4)) "="))
  | String x (String y (String z t)) =>
      let a := nat_of_ascii x in
      let b := nat_of_ascii y in
      let c := nat_of_ascii z in
      String (ch (a / 4)) (String (ch (a mod 4 * 16 + b / 16))
        (String (ch (b mod 16 * 4 + c / 64)) (String (ch (c mod 64)) (b2a c62 c63 t))))
  end.

(** [base64.b64encode(b)] and [base64.urlsafe_b64encode(b)], decoded as
    ASCII text. *)
Definition b64encode (b : string) : string := b2a "+"%char "/"%char b.
Definition urlsafe_b64encode (b : string) : string := b2a "-"%char "_"%char b.

End base64.

(** ** Sessions ([SessionAdapter]) and session builders *)

Module session.

(** One entry of a login descriptor's ["factors"] list. *)
Record Factor := { factor_id : string; factor_type : string }.

Record LoginDescriptorT := { ld_id : string; ld_factors : list Factor }.

(** [session.Credentials]. *)
Record CredentialsT := {
  Id : string;
  Username : option string;
  Email : option string;
  Phone : option string }.

(** [session.Authentication]. *)
Record AuthenticationT := {
  LoginDescriptor : option LoginDescriptorT;
  LoginFactors : option (list string);
  AvailableFactors : option (list string);
  ExternalLoginOptions : option (py.dict string);
  ImpersonatorSessionId : option string;
  ImpersonatorCredentialsId : option string }.

(** [session.Authorization]: [Authz] maps a tenant or ["*"] to resources. *)
Record AuthorizationT := {
  Authz : py.dict (list string);
  AssignedTenants : list string }.

(** [session.OAuth2].  [Nonce] and [RedirectUri] hold whatever the caller
    of [create_oidc_session] passed in those positions. *)
Record OAuth2T := {
  ClientId : option string;
  Scope : list string;
  Nonce : py.value;
  RedirectUri : py.value;
  AccessToken : option string }.

Record SessionAdapter := {
  SessionId : string;
  Type_ : string;                       (* [session.Session.Type] *)
  ParentSessionId : option string;      (* [session.Session.ParentSessionId] *)
  Expiration : option Z;
  TrackId : option string;
  Credentials : CredentialsT;
  Authentication : AuthenticationT;
  Authorization : AuthorizationT;
  OAuth2 : OAuth2T;
  CookieId : option string;             (* [cookie.session_cookie_id] *)
  BatmanToken : option string }.

Definition with_Authentication (f : AuthenticationT -> AuthenticationT)
    (s : SessionAdapter) : SessionAdapter :=
  {| SessionId := SessionId s; Type_ := Type_ s;
     ParentSessionId := ParentSessionId s; Expiration := Expiration s;
     TrackId := TrackId s; Credentials := Credentials s;
     Authentication := f (Authentication s);
     Authorization := Authorization s; OAuth2 := OAuth2 s;
     CookieId := CookieId s; BatmanToken := BatmanToken s |}.

Definition with_Authorization (f : AuthorizationT -> AuthorizationT)
    (s : SessionAdapter) : SessionAdapter :=
  {| SessionId := SessionId s; Type_ := Type_ s;
     ParentSessionId := ParentSessionId s; Expiration := Expiration s;
     TrackId := TrackId s; Credentials := Credentials s;
     Authentication := Authentication s;
     Authorization := f (Authorization s); OAuth2 := OAuth2 s;
     CookieId := CookieId s; BatmanToken := BatmanToken s |}.

Definition with_OAuth2 (f : OAuth2T -> OAuth2T)
    (s : SessionAdapter) : SessionAdapter :=
  {| SessionId := SessionId s; Type_ := Type_ s;
     ParentSessionId := ParentSessionId s; Expiration := Expiration s;
     TrackId := TrackId s; Credentials := Credentials s;
     Authentication := Authentication s;
     Authorization := Authorization s; OAuth2 := f (OAuth2 s);
     CookieId := CookieId s; BatmanToken := BatmanToken s |}.

Definition with_Credentials (c : CredentialsT) (s : SessionAdapter) : SessionAdapter :=
  {| SessionId := SessionId s; Type_ := Type_ s;
     ParentSessionId := ParentSessionId s; Expiration := Expiration s;
     TrackId := TrackId s; Credentials := c;
     Authentication := Authentication s;
     Authorization := Authorization s; OAuth2 := OAuth2 s;
     CookieId := CookieId s; BatmanToken := BatmanToken s |}.

Definition with_TrackId (t : option string) (s : SessionAdapter) : SessionAdapter :=
  {| SessionId := SessionId s; Type_ := Type_ s;
     ParentSessionId := ParentSessionId s; Expiration := Expiration s;
     TrackId := t; Credentials := Credentials s;
     Authentication := Authentication s;
     Authorization := Authorization s; OAuth2 := OAuth2 s;
     CookieId := CookieId s; BatmanToken := BatmanToken s |}.

Definition with_BatmanToken (t : option string) (s : SessionAdapter) : SessionAdapter :=
  {| SessionId := SessionId s; Type_ := Type_ s;
     ParentSessionId := ParentSessionId s; Expiration := Expiration s;
     TrackId := TrackId s; Credentials := Credentials s;
     Authentication := Authentication s;
     Authorization := Authorization s; OAuth2 := OAuth2 s;
     CookieId := CookieId s; BatmanToken := t |}.

Definition with_Expiration (e : option Z) (s : SessionAdapter) : SessionAdapter :=
  {| SessionId := SessionId s; Type_ := Type_ s;
     ParentSessionId := ParentSessionId s; Expiration := e;
     TrackId := TrackId s; Credentials := Credentials s;
     Authentication := Authentication s;
     Authorization := Authorization s; OAuth2 := OAuth2 s;
     CookieId := CookieId s; BatmanToken := BatmanToken s |}.

(** A session builder entry [(field, value)]: the field path of
    [SessionAdapter.FN] with the value written to it. *)
Inductive builder_item :=
| FN_Credentials (c : CredentialsT)
| FN_Authorization_Authz (a : py.dict (list string))
| FN_Authorization_AssignedTenants (l : list string)
| FN_Authentication_LoginDescriptor (v : option LoginDescriptorT)
| FN_Authentication_LoginFactors (v : option (list string))
| FN_Authentication_AvailableFactors (v : list string)
| FN_Authentication_ExternalLoginOptions (v : py.dict string)
| FN_Authentication_ImpersonatorSessionId (v : option string)
| FN_Authentication_ImpersonatorCredentialsId (v : option string)
| FN_Batman_Token (v : string)
| FN_OAuth2_ClientId (v : string)
| FN_OAuth2_Scope (v : list string)
| FN_OAuth2_Nonce (v : py.value)
| FN_OAuth2_RedirectUri (v : py.value)
| FN_Session_TrackId (v : string).

(** Writing one builder entry into a session. *)
Definition apply_item (s : SessionAdapter) (b : builder_item) : SessionAdapter :=
  match b with
  | FN_Credentials c => with_Credentials c s
  | FN_Authorization_Authz a =>
      with_Authorization (fun z => {| Authz := a; AssignedTenants := AssignedTenants z |}) s
  | FN_Authorization_AssignedTenants l =>
      with_Authorization (fun z => {| Authz := Authz z; AssignedTenants := l |}) s
  | FN_Authentication_LoginDescriptor v =>
      with_Authentication (fun a =>
        {| LoginDescriptor := v; LoginFactors := LoginFactors a;
           AvailableFactors := AvailableFactors a;
           ExternalLoginOptions := ExternalLoginOptions a;
           ImpersonatorSessionId := ImpersonatorSessionId a;
           ImpersonatorCredentialsId := ImpersonatorCredentialsId a |}) s
  | FN_Authentication_LoginFactors v =>
      with_Authentication (fun a =>
        {| LoginDescriptor := LoginDescriptor a; LoginFactors := v;
           AvailableFactors := AvailableFactors a;
           ExternalLoginOptions := ExternalLoginOptions a;
           ImpersonatorSessionId := ImpersonatorSessionId a;
           ImpersonatorCredentialsId := ImpersonatorCredentialsId a |}) s
  | FN_Authentication_AvailableFactors v =>
      with_Authentication (fun a =>
        {| LoginDescriptor := LoginDescriptor a; LoginFactors := LoginFactors a;
           AvailableFactors := Some v;
           ExternalLoginOptions := ExternalLoginOptions a;
           ImpersonatorSessionId := ImpersonatorSessionId a;
           ImpersonatorCredentialsId := ImpersonatorCredentialsId a |}) s
  | FN_Authentication_ExternalLoginOptions v =>
      with_Authentication (fun a =>
        {| LoginDescriptor := LoginDescriptor a; LoginFactors := LoginFactors a;
           AvailableFactors := AvailableFactors a;
           ExternalLoginOptions := Some v;
           ImpersonatorSessionId := ImpersonatorSessionId a;
           ImpersonatorCredentialsId := ImpersonatorCredentialsId a |}) s
  | FN_Authentication_ImpersonatorSessionId v =>
      with_Authentication (fun a =>
        {| LoginDescriptor := LoginDescriptor a; LoginFactors := LoginFactors a;
           AvailableFactors := AvailableFactors a;
           ExternalLoginOptions := ExternalLoginOptions a;
           ImpersonatorSessionId := v;
           ImpersonatorCredentialsId := ImpersonatorCredentialsId a |}) s
  | FN_Authentication_ImpersonatorCredentialsId v =>
      with_Authentication (fun a =>
        {| LoginDescriptor := LoginDescriptor a; LoginFactors := LoginFactors a;
           AvailableFactors := AvailableFactors a;
           ExternalLoginOptions := ExternalLoginOptions a;
           ImpersonatorSessionId := ImpersonatorSessionId a;
           ImpersonatorCredentialsId := v |}) s
  | FN_Batman_Token v => with_BatmanToken (Some v) s
  | FN_OAuth2_ClientId v =>
      with_OAuth2 (fun o =>
        {| ClientId := Some v; Scope := Scope o; Nonce := Nonce o;
           RedirectUri := RedirectUri o; AccessToken := AccessToken o |}) s
  | FN_OAuth2_Scope v =>
      with_OAuth2 (fun o =>
        {| ClientId := ClientId o; Scope := v; Nonce := Nonce o;
           RedirectUri := RedirectUri o; AccessToken := AccessToken o |}) s
  | FN_OAuth2_Nonce v =>
      with_OAuth2 (fun o =>
        {| ClientId := ClientId o; Scope := Scope o; Nonce := v;
           RedirectUri := RedirectUri o; AccessToken := AccessToken o |}) s
  | FN_OAuth2_RedirectUri v =>
      with_OAuth2 (fun o =>
        {| ClientId := ClientId o; Scope := Scope o; Nonce := Nonce o;
           RedirectUri := v; AccessToken := AccessToken o |}) s
  | FN_Session_TrackId v => with_TrackId (Some v) s
  end.

(** The entry writes some field other than [authz]. *)
Definition keeps_authz (b : builder_item) : bool :=
  match b with
  | FN_Authorization_Authz _ => false
  | _ => true
  end.

(** [session_builders] is a list of builders, each a sequence of entries;
    they are written in order, so the last write to a field wins. *)
Definition apply_builders (s : SessionAdapter) (builders : list (list builder_item))
    : SessionAdapter :=
  foldl apply_item s (concat builders).

(** A session document before any builder has written to it. *)
Definition blank (sid type : string) (parent : option string) (exp : option Z)
    : SessionAdapter :=
  {| SessionId := sid; Type_ := type; ParentSessionId := parent;
     Expiration := exp; TrackId := None;
     Credentials := {| Id := ""; Username := None; Email := None; Phone := None |};
     Authentication :=
       {| LoginDescriptor := None; LoginFactors := None; AvailableFactors := None;
          ExternalLoginOptions := None; ImpersonatorSessionId := None;
          ImpersonatorCredentialsId := None |};
     Authorization := {| Authz := []; AssignedTenants := [] |};
     OAuth2 := {| ClientId := None; Scope := []; Nonce := py.PyNone;
                  RedirectUri := py.PyNone; AccessToken := None |};
     CookieId := None; BatmanToken := None |}.

End session.

(** ** The application: configuration, collaborators and stored state *)

Module app.
Import session.

(** *** Token records (Token Store) *)

Inductive token_type := oac | oat | ort | sci.

Definition token_type_eqb (a b : token_type) : bool :=
  match a, b with
  | oac, oac | oat, oat | ort, ort | sci, sci => true
  | _, _ => false
  end.

Record Token := {
  tk_type : token_type;
  tk_sid : string;
  tk_expires_at : Z;
  tk_cc : option string;        (* PKCE code challenge *)
  tk_ccm : option string;
  tk_sa : bool }.               (* session is algorithmic *)

(** *** The audit trail *)

Inductive audit_code := AUTHORIZE_SUCCESS | AUTHORIZE_ERROR.

(** *** Everything the services persist, and the clock *)

Record World := {
  sessions : gmap string SessionAdapter;   (* by session id *)
  tokens : gmap string Token;              (* by raw token bytes *)
  audit : list (audit_code * py.dict py.value);
  now : Z;
  minted : nat }.                          (* random values drawn so far *)

Definition with_sessions (m : gmap string SessionAdapter) (w : World) : World :=
  {| sessions := m; tokens := tokens w; audit := audit w; now := now w;
     minted := minted w |}.

Definition with_tokens (m : gmap string Token) (w : World) : World :=
  {| sessions := sessions w; tokens := m; audit := audit w; now := now w;
     minted := minted w |}.

Definition with_audit (l : list (audit_code * py.dict py.value)) (w : World) : World :=
  {| sessions := sessions w; tokens := tokens w; audit := l; now := now w;
     minted := minted w |}.

Definition with_minted (n : nat) (w : World) : World :=
  {| sessions := sessions w; tokens := tokens w; audit := audit w; now := now w;
     minted := n |}.

(** *** Collaborators that are not part of the modelled files *)

(** How [ClientService.authorize_client] ends: normally, or with one of the
    exceptions the authorize handler distinguishes. *)
Inductive client_check :=
| ClientAuthorized
| ClientKeyError                          (* [KeyError]: unknown client id *)
| InvalidClientSecret (msg : string)
| InvalidRedirectURI (msg : string)
| ClientError (msg : string).             (* any other [ClientError] *)

(** The document [CredentialsService.get] returns. *)
Record CredentialsDoc := {
  cred_username : option string;
  cred_email : option string;
  cred_phone : option string;
  enforce_factors : option (list string) }.   (* [None]: key absent *)

(** Configuration values and the answers of the services whose code is
    outside the modelled files.  They are read-only during a request. *)
Record App := {
  public_api_base_url : string;
  auth_webui_base_url : string;
  (* list(AuthenticationService.EnforceFactors) *)
  EnforceFactors : option (list string);
  (* the order in which CPython iterates a set with these members *)
  set_iteration : list string -> list string;
  (* CookieService configuration *)
  CookieName : string;
  RootCookieDomain : string;
  ApplicationCookieDomains : list string;
  (* ClientService.authorize_client(client_id, client_secret, redirect_uri, scope) *)
  authorize_client : string -> option string -> string -> list string -> client_check;
  (* TenantService.TenantsProvider: the tenants assigned to a credentials id *)
  TenantsProvider : option (string -> list string);
  (* TenantService.get_tenant succeeds *)
  tenant_exists : string -> bool;
  (* AuditService.get_last_authorized_tenants *)
  get_last_authorized_tenants : string -> list string;
  (* CredentialsService.get *)
  credentials_get : string -> py.result CredentialsDoc;
  (* Role expansion: resources of the roles bound to a credentials id
     under a tenant, or under "*" for global roles *)
  role_resources : string -> string -> list string;
  (* AuthenticationService.get_eligible_factors, ExternalLoginService.list *)
  get_eligible_factors : string -> list string;
  external_logins : string -> py.dict string;
  (* BatmanService.generate_password *)
  batman_password : string -> string;
  (* The random source: the n-th value drawn *)
  entropy : nat -> string;
  (* Configured lifetimes, in seconds *)
  authorization_code_expiration : Z;
  touch_extension : Z;
  (* generic.add_to_header: the X-headers for the requested fields *)
  x_headers : list string -> SessionAdapter -> list (string * string) }.

(** *** Session Store *)

(** Modelled from the spec: [SessionService.get(id)] of §4.2, absent from
    the modelled files; a miss raises [KeyError] (the callers catch
    [KeyError], of which [SessionNotFoundError] is a subclass). *)
Definition SessionService_get (w : World) (sid : string) : py.result SessionAdapter :=
  match sessions w !! sid with
  | Some s => py.Ok s
  | None => py.Raise (py.KeyError sid)
  end.

(** Modelled from the spec: [SessionService.get_by(cookie id)] of §4.2 and
    §4.5: the root session whose [cookie.session_cookie_id] is the given
    one. *)
Definition SessionService_get_by_cookie (w : World) (cookie_id : string)
    : py.result SessionAdapter :=
  match filter (fun kv => CookieId (snd kv) = Some cookie_id) (map_to_list (sessions w)) with
  | kv :: _ => py.Ok (snd kv)
  | [] => py.Raise (py.KeyError cookie_id)
  end.

(** Modelled from the spec: [SessionService.create_session] of §4.2: a new
    record of the given type and parent, written by the builders in order,
    stored under a fresh id. *)
Definition SessionService_create_session (a : App) (w : World)
    (session_type : string) (parent_session_id : option string)
    (expiration : option Z) (session_builders : list (list builder_item))
    : SessionAdapter * World :=
  let sid := entropy a (minted w) in
  let s := apply_builders (blank sid session_type parent_session_id expiration)
             session_builders in
  (s, with_minted (S (minted w)) (with_sessions (<[sid := s]> (sessions w)) w)).

(** Modelled from the spec: [SessionService.update_session] of §4.2: the
    builders are written into the stored record. *)
Definition SessionService_update_session (w : World) (sid : string)
    (session_builders : list (list builder_item)) : py.result (SessionAdapter * World) :=
  match sessions w !! sid with
  | Some s0 =>
      let s := apply_builders s0 session_builders in
      py.Ok (s, with_sessions (<[sid := s]> (sessions w)) w)
  | None => py.Raise (py.KeyError sid)
  end.

(** Modelled from the spec: [SessionService.delete(id)] of §4.2: the
    session goes, with its children and with every token that points at
    one of them. *)
Definition SessionService_delete (w : World) (sid : string) : World :=
  let gone (s : SessionAdapter) : bool :=
    String.eqb (SessionId s) sid
    || match ParentSessionId s with Some p => String.eqb p sid | None => false end in
  let kept := filter (fun kv => gone (snd kv) = false) (sessions w) in
  with_tokens
    (filter (fun kv => is_Some (kept !! tk_sid (snd kv)) \/ tk_sa (snd kv) = true) (tokens w))
    (with_sessions kept w).

(** Modelled from the spec: [SessionService.touch(session)] of §4.2: the
    stored record's expiry slides forward. *)
Definition SessionService_touch (a : App) (w : World) (s : SessionAdapter) : World :=
  with_sessions
    (<[SessionId s := with_Expiration (Some (now w + touch_extension a)%Z) s]> (sessions w)) w.

(** *** Token Store *)

(** Modelled from the spec: [TokenService.get(token_bytes, token_type)] of
    §4.1: [KeyError] when the token is absent, expired, or of another
    type. *)
Definition TokenService_get (w : World) (token_bytes : string) (ty : token_type)
    : py.result Token :=
  match tokens w !! token_bytes with
  | Some t =>
      if token_type_eqb (tk_type t) ty && Z.ltb (now w) (tk_expires_at t)
      then py.Ok t
      else py.Raise (py.KeyError token_bytes)
  | None => py.Raise (py.KeyError token_bytes)
  end.

(** Modelled from the spec: [TokenService.delete_token(token_bytes)] of
    §4.1. *)
Definition TokenService_delete_token (w : World) (token_bytes : string) : World :=
  with_tokens (delete token_bytes (tokens w)) w.

(** Modelled from the spec: [TokenService.create] of §4.1: fresh random
    bytes stored with their metadata and a strict expiry, returned once. *)
Definition TokenService_create (a : App) (w : World) (ty : token_type)
    (session_id : string) (expiration : Z) (is_session_algorithmic : bool)
    (code_challenge code_challenge_method : option string) : string * World :=
  let raw := entropy a (minted w) in
  let t := {| tk_type := ty; tk_sid := session_id;
              tk_expires_at := (now w + expiration)%Z;
              tk_cc := code_challenge; tk_ccm := code_challenge_method;
              tk_sa := is_session_algorithmic |} in
  (raw, with_minted (S (minted w)) (with_tokens (<[raw := t]> (tokens w)) w)).

(** *** Audit *)

(** [AuditService.append(code, data)]. *)
Definition AuditService_append (w : World) (c : audit_code) (d : py.dict py.value)
    : World :=
  with_audit (audit w ++ [(c, d)])%list w.

(** *** Tenants and resources *)

(** [TenantService.get_tenants] (tenant/service.py): the assertion that a
    provider is configured, then the tenant of every assignment. *)
Definition TenantService_get_tenants (a : App) (credentials_id : string)
    : py.result (list string) :=
  match TenantsProvider a with
  | None => py.Raise py.AssertionError
  | Some iterate_assigned => py.Ok (iterate_assigned credentials_id)
  end.

(** Modelled from the spec: [RBACService.has_resource_access(authz, None,
    [resource])] as §4.4 reads it for "access to all tenants": the global
    entry [authz["*"]] contains the resource. *)
Definition has_resource_access (authz : py.dict (list string)) (resource : string) : bool :=
  match py.dict_get authz "*" with
  | Some rs => py.mem resource rs
  | None => false
  end.

End app.

(** ** [OpenIdConnectService] (openidconnect/service.py) *)

Module oidc.
Import session app.

(** The resources kept out of impersonated sessions. *)
Definition impersonation_excluded : list string :=
  ["authz:superuser"; "authz:impersonate"].

(** [exclude_resources] as both [create_oidc_session] and
    [refresh_session] compute it from the root session. *)
Definition exclude_resources_of (root_session : SessionAdapter) : list string :=
  match ImpersonatorSessionId (Authentication root_session) with
  | Some _ => impersonation_excluded
  | None => []
  end.

(** [set(resources) - exclude_resources]. *)
Definition subtract (resources exclude : list string) : list string :=
  filter (fun r => py.mem r exclude = false) resources.

(** Modelled from the spec: [build_credentials_authz] (the Tenant/Authz
    Resolver of §4.4), absent from the modelled files: the resources of the
    global roles under ["*"] and those of each requested tenant under the
    tenant, each minus [exclude_resources]. *)
Definition build_credentials_authz (a : App) (credentials_id : string)
    (tenants : option (list string)) (exclude_resources : list string)
    : py.dict (list string) :=
  foldl (fun authz t =>
           py.dict_set authz t (subtract (role_resources a credentials_id t) exclude_resources))
        [("*", subtract (role_resources a credentials_id "*") exclude_resources)]
        (default [] tenants).

(** Modelled from the spec: [authz_session_builder] (§4.4), absent from
    the modelled files: it writes [authz] and [assigned_tenants]. *)
Definition authz_session_builder (a : App) (credentials_id : string)
    (tenants : option (list string)) (exclude_resources : list string)
    : py.result (list builder_item) :=
  user_tenants <-? TenantService_get_tenants a credentials_id ;;
  py.Ok [FN_Authorization_Authz
           (build_credentials_authz a credentials_id tenants exclude_resources);
         FN_Authorization_AssignedTenants user_tenants].

(** Modelled from the spec: [credentials_session_builder] (the Session
    Builder of §2 for the [credentials] part of §3), absent from the
    modelled files. *)
Definition credentials_session_builder (a : App) (credentials_id : string)
    (scope : list string) : py.result (list builder_item) :=
  doc <-? credentials_get a credentials_id ;;
  py.Ok [FN_Credentials {| Id := credentials_id; Username := cred_username doc;
                           Email := cred_email doc; Phone := cred_phone doc |}].

(** Modelled from the spec: [oauth2_session_builder] (the [oauth2] part of
    §3), absent from the modelled files. *)
Definition oauth2_session_builder (client_id : string) (scope : list string)
    (nonce redirect_uri : py.value) : list builder_item :=
  [FN_OAuth2_ClientId client_id; FN_OAuth2_Scope scope;
   FN_OAuth2_Nonce nonce; FN_OAuth2_RedirectUri redirect_uri].

Definition wants_authn_info (scope : list string) : bool :=
  py.mem "profile" scope || py.mem "userinfo:authn" scope || py.mem "userinfo:*" scope.

(** [base64.b64encode("{}:{}".format(username, password).encode("ascii"))]. *)
Definition basic_auth (a : App) (root_session : SessionAdapter) : py.result string :=
  let username := default "None" (Username (Credentials root_session)) in
  let text := py.cat username (py.cat ":" (batman_password a (Id (Credentials root_session)))) in
  if base64.is_ascii text then py.Ok (base64.b64encode text)
  else py.Raise (py.ValueError "'ascii' codec can't encode character").

(** [OpenIdConnectService.create_oidc_session]. *)
Definition create_oidc_session (a : App) (w : World) (root_session : SessionAdapter)
    (client_id : string) (scope : list string)
    (nonce redirect_uri : py.value) (tenants : option (list string))
    (requested_expiration : option Z) : py.result (SessionAdapter * World) :=
  let cid := Id (Credentials root_session) in
  let exclude_resources := exclude_resources_of root_session in
  b_cred <-? credentials_session_builder a cid scope ;;
  b_authz <-? authz_session_builder a cid tenants exclude_resources ;;
  let builders := [b_cred; b_authz] in
  let builders :=
    if wants_authn_info scope then
      (builders ++ [[
         FN_Authentication_LoginDescriptor (LoginDescriptor (Authentication root_session));
         FN_Authentication_LoginFactors (LoginFactors (Authentication root_session));
         FN_Authentication_AvailableFactors (get_eligible_factors a cid);
         FN_Authentication_ExternalLoginOptions (external_logins a cid)]])%list
    else builders in
  builders <-? (if py.mem "batman" scope then
                  token <-? basic_auth a root_session ;;
                  py.Ok (builders ++ [[FN_Batman_Token token]])%list
                else py.Ok builders) ;;
  let builders :=
    (builders ++ [oauth2_session_builder client_id scope nonce redirect_uri])%list in
  let builders :=
    match TrackId root_session with
    | Some t => (builders ++ [[FN_Session_TrackId t]])%list
    | None => builders
    end in
  let builders :=
    match ImpersonatorSessionId (Authentication root_session) with
    | Some i =>
        (builders ++ [[
           FN_Authentication_ImpersonatorSessionId (Some i);
           FN_Authentication_ImpersonatorCredentialsId
             (ImpersonatorCredentialsId (Authentication root_session))]])%list
    | None => builders
    end in
  py.Ok (SessionService_create_session a w "openidconnect"
           (Some (SessionId root_session)) requested_expiration builders).

(** Modelled from the spec: [RBACService.can_access_all_tenants] (§4.4):
    [authz["*"]] contains [authz:superuser] or [authz:tenant:access]. *)
Definition can_access_all_tenants (authz : py.dict (list string)) : bool :=
  has_resource_access authz "authz:superuser"
  || has_resource_access authz "authz:tenant:access".

(** How one [tenant:...] scope entry resolves (§4.4). *)
Inductive tenant_failure :=
| TenantNotFoundError (tenant : string)
| TenantAccessDeniedError (tenant : string)
| NoTenantsError.

(** Modelled from the spec: [TenantService.get_tenants_by_scope] (the
    scope-to-tenant resolution of §4.4), absent from the modelled files. *)
Definition get_tenants_by_scope (a : App) (scope : list string)
    (user_tenants : list string) (credentials_id : string)
    (has_access_to_all_tenants : bool) : list string + tenant_failure :=
  let step (acc : list string + tenant_failure) (resource : string) :=
    match acc with
    | inr e => inr e
    | inl tenants =>
        if py.startswith resource "tenant:" then
          let tenant := py.drop 7 resource in
          if String.eqb tenant "*" then inl (py.set_update tenants user_tenants)
          else if py.mem tenant user_tenants then inl (py.set_add tenant tenants)
          else if has_access_to_all_tenants then
            if tenant_exists a tenant then inl (py.set_add tenant tenants)
            else inr (TenantNotFoundError tenant)
          else inr (TenantAccessDeniedError tenant)
        else inl tenants
    end in
  match foldl step (inl []) scope with
  | inr e => inr e
  | inl [] =>
      if py.mem "tenant" scope then
        match filter (fun t => py.mem t user_tenants = true)
                     (get_last_authorized_tenants a credentials_id), user_tenants with
        | t :: _, _ => inl [t]
        | [], t :: _ => inl [t]
        | [], [] => inr NoTenantsError
        end
      else inl []
  | inl tenants => inl tenants
  end.

(** [OpenIdConnectService.get_accessible_tenant_from_scope]: every
    resolution failure becomes [AccessDeniedError]; otherwise one of the
    resolved tenants, if any. *)
Definition get_accessible_tenant_from_scope (a : App) (scope : list string)
    (credentials_id : string) (has_access_to_all_tenants : bool)
    : py.result (option string) :=
  user_tenants <-? TenantService_get_tenants a credentials_id ;;
  match get_tenants_by_scope a scope user_tenants credentials_id has_access_to_all_tenants with
  | inr _ => py.Raise (py.AccessDeniedError credentials_id)
  | inl tenants => py.Ok (head tenants)
  end.

(** [OpenIdConnectService.refresh_session]. *)
Definition refresh_session (a : App) (w : World) (s : SessionAdapter)
    (requested_scope : option (list string)) : py.result (SessionAdapter * World) :=
  root_session <-? match ParentSessionId s with
                   | Some p => SessionService_get w p
                   | None => py.Raise (py.KeyError "None")
                   end ;;
  granted_scope <-?
    match requested_scope with
    | Some requested =>
        let requested := py.set_of requested in
        match subtract requested (Scope (OAuth2 s)) with
        | [] => py.Ok requested
        | _ :: _ => py.Raise (py.AccessDeniedError (default "None" (ClientId (OAuth2 s))))
        end
    | None => py.Ok (Scope (OAuth2 s))
    end ;;
  let cid := Id (Credentials root_session) in
  let exclude_resources := exclude_resources_of root_session in
  let authz := build_credentials_authz a cid None exclude_resources in
  authorized_tenant <-?
    get_accessible_tenant_from_scope a granted_scope cid (can_access_all_tenants authz) ;;
  b_cred <-? credentials_session_builder a cid (Scope (OAuth2 s)) ;;
  b_authz <-? authz_session_builder a cid
                (match authorized_tenant with Some t => Some [t] | None => None end)
                exclude_resources ;;
  let builders := [b_cred; b_authz] in
  let builders :=
    if wants_authn_info granted_scope then
      (builders ++ [[
         FN_Authentication_AvailableFactors (get_eligible_factors a cid);
         FN_Authentication_ExternalLoginOptions (external_logins a cid)]])%list
    else builders in
  builders <-? (if py.mem "batman" granted_scope then
                  token <-? basic_auth a root_session ;;
                  py.Ok (builders ++ [[FN_Batman_Token token]])%list
                else py.Ok builders) ;;
  let builders := (builders ++ [[FN_OAuth2_Scope granted_scope]])%list in
  SessionService_update_session w (SessionId s) builders.

(** [OpenIdConnectService.create_authorization_code], the branch for a
    session that is not algorithmic. *)
Definition create_authorization_code (a : App) (w : World) (session_id : string)
    (code_challenge code_challenge_method : option string) : string * World :=
  let '(raw_value, w') :=
    TokenService_create a w oac session_id (authorization_code_expiration a) false
      code_challenge code_challenge_method in
  (base64.urlsafe_b64encode raw_value, w').

(** Modelled from the spec: [generate_authorization_code(session_id)], the
    method the authorize handler calls; the service file holds only its
    successor [create_authorization_code], and this is that method without
    a PKCE binding: the "mint an authorization code" of §4.6. *)
Definition generate_authorization_code (a : App) (w : World) (session_id : string)
    : string * World :=
  create_authorization_code a w session_id None None.

(** [OpenIdConnectService.get_session_by_access_token]. *)
Definition get_session_by_access_token (w : World) (token_value : string)
    : py.result SessionAdapter * World :=
  match base64.urlsafe_b64decode token_value with
  | py.Raise e => (py.Raise e, w)
  | py.Ok token_bytes =>
      match TokenService_get w token_bytes oat with
      | py.Raise (py.KeyError _) =>
          (py.Raise (py.SessionNotFoundError "Invalid or expired access token"), w)
      | py.Raise e => (py.Raise e, w)
      | py.Ok token_data =>
          match SessionService_get w (tk_sid token_data) with
          | py.Raise (py.KeyError _) =>
              (py.Raise (py.SessionNotFoundError
                           "Access token points to a nonexistent session"),
               TokenService_delete_token w token_bytes)
          | py.Raise e => (py.Raise e, w)
          | py.Ok s => (py.Ok s, w)
          end
      end
  end.

(** The session's [authz] map grants neither [authz:superuser] nor
    [authz:impersonate], under any tenant or under ["*"]. *)
Definition no_critical_grants (s : SessionAdapter) : Prop :=
  forall (k : string) (resources : list string),
    (k, resources) ∈ Authz (Authorization s) ->
    ("authz:superuser" ∉ resources) /\ ("authz:impersonate" ∉ resources).

(** [n] lookups of the same access token, one after the other, each on
    the state the previous one left. *)
Fixpoint lookups (n : nat) (w : World) (token_value : string)
    : list (py.result SessionAdapter) :=
  match n with
  | O => []
  | S k =>
      let '(r, w') := get_session_by_access_token w token_value in
      r :: lookups k w' token_value
  end.

End oidc.

(** ** Requests and responses (aiohttp) *)

Module web.

(** What [set_cookie] and [delete_cookie] of [cookie/utils.py] do to a
    response: attach the session cookie of a session, or its past-dated
    deletion. *)
Inductive cookie_op :=
| SetSessionCookie (session_id : string)
| DeleteSessionCookie.

(** A response: status, headers in the order they were set, cookie
    operations.  The fixed HTML body and its content type are left out. *)
Record Response := {
  status : nat;
  headers : py.dict string;
  cookies : list cookie_op }.

(** A request as the handlers read it: the [Cookie] header, the query
    multi-dict, the session the middleware attached, and [str(request)]. *)
Record Request := {
  cookie_header : option string;
  query : list (string * string);
  Session : option session.SessionAdapter;
  repr : string }.

(** [multidict.get(k)]: the first value. *)
Definition get (m : list (string * string)) (k : string) : option string :=
  py.dict_get m k.

(** [multidict.getall(k, [])]. *)
Definition getall (m : list (string * string)) (k : string) : list string :=
  map snd (filter (fun kv => fst kv = k) m).

(** [aiohttp.web.HTTPFound(location, headers=...)]: an empty location is
    refused; the response has the given headers, then [Location], which is
    set to [str(yarl.URL(location))] and so to the location as yarl quotes
    it; a location that yarl rejects is a [ValueError]. *)
Definition HTTPFound `{Y : yarl.Url} (location : string) (hdrs : py.dict string)
    : py.result Response :=
  if urllib.nonempty location
  then
    sent <-? yarl.URL_str location ;;
    py.Ok {| status := 302; headers := py.dict_set hdrs "Location" sent; cookies := [] |}
  else py.Raise (py.ValueError "HTTP redirects need a location to redirect to.").

Definition HTTPNotFound (hdrs : py.dict string) : Response :=
  {| status := 404; headers := hdrs; cookies := [] |}.

Definition HTTPUnauthorized : Response :=
  {| status := 401; headers := []; cookies := [] |}.

Definition HTTPOk (hdrs : py.dict string) : Response :=
  {| status := 200; headers := hdrs; cookies := [] |}.

Definition set_cookie (r : Response) (s : session.SessionAdapter) : Response :=
  {| status := status r; headers := headers r;
     cookies := (cookies r ++ [SetSessionCookie (session.SessionId s)])%list |}.

Definition delete_cookie (r : Response) : Response :=
  {| status := status r; headers := headers r;
     cookies := (cookies r ++ [DeleteSessionCookie])%list |}.

End web.

(** ** [http.cookies.SimpleCookie] *)

Module http_cookies.

(** [SimpleCookie(text)] read as a mapping from cookie name to value. *)
Class CookieParser := { SimpleCookie : string -> py.dict string }.

Definition is_blank (c : ascii) : bool :=
  Ascii.eqb c " "%char || Ascii.eqb c "009"%char.

Fixpoint lstrip (s : string) : string :=
  match s with
  | String c t => if is_blank c then lstrip t else s
  | EmptyString => EmptyString
  end.

(** The reference parser on one piece [name=value] of a [Cookie] header,
    possibly after blanks, where name and value are unquoted words of
    legal cookie characters and the name is no reserved attribute: one
    morsel; a piece without [=] holds none. *)
Definition basic_SimpleCookie (text : string) : py.dict string :=
  match urllib.split_first "=" (lstrip text) with
  | Some (String c n, v) => [(String c n, v)]
  | _ => []
  end.

Definition basic : CookieParser := {| SimpleCookie := basic_SimpleCookie |}.

End http_cookies.

(** ** The session cookie (cookie/service.py, cookie/handler.py) *)

Module cookie.
Import session app web.

(** [CookieService._get_session_cookie_id]. *)
Fixpoint scan_cookies `{http_cookies.CookieParser} (a : App) (pieces : list string)
    : py.result (option string) :=
  match pieces with
  | [] => py.Ok None
  | cookie_string :: rest =>
      match py.dict_get (http_cookies.SimpleCookie cookie_string) (CookieName a) with
      | None => scan_cookies a rest
      | Some value =>
          match urllib.split_first ":" value with
          | None => scan_cookies a rest             (* no domain prefix *)
          | Some (domain, session_cookie_id_encoded) =>
              if String.eqb domain (RootCookieDomain a)
                 || py.mem domain (ApplicationCookieDomains a)
              then session_cookie_id <-? base64.urlsafe_b64decode session_cookie_id_encoded ;;
                   py.Ok (Some session_cookie_id)
              else scan_cookies a rest
          end
      end
  end.

Definition _get_session_cookie_id `{http_cookies.CookieParser} (a : App)
    (request : Request) : py.result (option string) :=
  match cookie_header request with
  | None => py.Ok None
  | Some raw_cookies => scan_cookies a (py.split ";" raw_cookies)
  end.

(** [CookieService.get_session_by_sci]. *)
Definition get_session_by_sci `{http_cookies.CookieParser} (a : App) (w : World)
    (request : Request) : py.result (option SessionAdapter) :=
  session_cookie_id <-? _get_session_cookie_id a request ;;
  match session_cookie_id with
  | None => py.Ok None
  | Some cookie_id =>
      match SessionService_get_by_cookie w cookie_id with
      | py.Ok s => py.Ok (Some s)
      | py.Raise (py.KeyError _) => py.Ok None
      | py.Raise e => py.Raise e
      end
  end.

(** *** [CookieHandler.CookiePattern]

    The pattern has two alternatives around the configured cookie name:
    at the start of the text, the name, [=], any run of characters other
    than [;], then [;] and an optional blank; or, anywhere, [;], an
    optional blank, the name, [=] and any run of characters other than
    [;].  The model is for a cookie name whose characters stand for
    themselves in a regular expression (letters, digits, [_] and [-]). *)

(** The text after the literal [p], when [s] starts with it. *)
Fixpoint after_literal (p s : string) : option string :=
  match p, s with
  | EmptyString, _ => Some s
  | String a p', String b s' => if Ascii.eqb a b then after_literal p' s' else None
  | String _ _, EmptyString => None
  end.

(** [[^;]*], greedy: everything up to the next [;]. *)
Fixpoint after_value (s : string) : string :=
  match s with
  | EmptyString => EmptyString
  | String c t => if Ascii.eqb c ";"%char then s else after_value t
  end.

(** [ ?], greedy, when nothing after it can fail. *)
Definition after_optional_space (s : string) : string :=
  match s with
  | String c t => if Ascii.eqb c " "%char then t else s
  | EmptyString => s
  end.

(** First alternative, [^name=[^;]*; ?]: tried at the start of the header
    only.  The value must be followed by [;]. *)
Definition match_first (name s : string) : option string :=
  match after_literal (py.cat name "=") s with
  | Some v =>
      match after_value v with
      | String _ t => Some (after_optional_space t)     (* the [;], then [ ?] *)
      | EmptyString => None
      end
  | None => None
  end.

(** Second alternative, [; ?name=[^;]*]: the optional blank is tried
    taken first, then skipped. *)
Definition match_second (name s : string) : option string :=
  match s with
  | String c t =>
      if Ascii.eqb c ";"%char then
        let taken :=
          match t with
          | String b t' =>
              if Ascii.eqb b " "%char then after_literal (py.cat name "=") t' else None
          | EmptyString => None
          end in
        match taken with
        | Some v => Some (after_value v)
        | None => option_map after_value (after_literal (py.cat name "=") t)
        end
      else None
  | EmptyString => None
  end.

(** A match of the pattern beginning exactly here: what follows it. *)
Definition match_here (name : string) (at_start : bool) (s : string) : option string :=
  match (if at_start then match_first name s else None) with
  | Some r => Some r
  | None => match_second name s
  end.

(** [CookiePattern.sub] with the empty replacement: every match found scanning left to right
    is deleted; scanning resumes where a match ended.  A match is never
    empty, so [fuel] larger than the length of the text is never used up. *)
Fixpoint sub_scan (fuel : nat) (name : string) (at_start : bool) (s : string) : string :=
  match fuel with
  | O => s
  | S fuel' =>
      match s with
      | EmptyString => EmptyString
      | String c t =>
          match match_here name at_start s with
          | Some rest => sub_scan fuel' name false rest
          | None => String c (sub_scan fuel' name false t)
          end
      end
  end.

Definition CookiePattern_sub (name s : string) : string :=
  sub_scan (S (String.length s)) name true s.

(** [CookieHandler.nginx]. *)
Definition nginx `{http_cookies.CookieParser} (a : App) (w : World) (request : Request)
    : py.result Response * World :=
  match get_session_by_sci a w request with
  | py.Raise e => (py.Raise e, w)
  | py.Ok None => (py.Ok (delete_cookie HTTPUnauthorized), w)
  | py.Ok (Some s) =>
      let w := SessionService_touch a w s in
      match AccessToken (OAuth2 s), cookie_header request with
      | None, _ => (py.Raise (py.KeyError "access_token"), w)
      | Some _, None => (py.Raise (py.TypeError "expected string or bytes-like object"), w)
      | Some access_token, Some cookie_string =>
          let hdrs := [("Authorization", py.cat "Bearer " access_token)] in
          let cookie_string :=
            match web.get (query request) "keepcookie" with
            | None => CookiePattern_sub (CookieName a) cookie_string
            | Some _ => cookie_string
            end in
          let hdrs := py.dict_set hdrs "Cookie" cookie_string in
          let hdrs := (hdrs ++ x_headers a (getall (query request) "add") s)%list in
          (py.Ok (HTTPOk hdrs), w)
      end
  end.

End cookie.

(** ** [bytes.decode("utf-8")] *)

Module utf8.

Definition between (lo hi : nat) (c : ascii) : bool :=
  let n := nat_of_ascii c in Nat.leb lo n && Nat.leb n hi.

(** The well-formed byte sequences of UTF-8 (no overlong forms, no
    surrogates, nothing above U+10FFFF), as the strict decoder checks. *)
Fixpoint valid (s : string) : bool :=
  match s with
  | EmptyString => true
  | String a t =>
      if between 0 127 a then valid t
      else
        match t with
        | String b t1 =>
            if between 194 223 a then between 128 191 b && valid t1
            else
              match t1 with
              | String c t2 =>
                  if between 224 239 a then
                    between (if between 224 224 a then 160 else 128)
                            (if between 237 237 a then 159 else 191) b
                    && between 128 191 c && valid t2
                  else
                    match t2 with
                    | String d t3 =>
                        between 240 244 a
                        && between (if between 240 240 a then 144 else 128)
                                   (if between 244 244 a then 143 else 191) b
                        && between 128 191 c && between 128 191 d && valid t3
                    | EmptyString => false
                    end
              | EmptyString => false
              end
        | EmptyString => false
        end
  end.

(** [b.decode("utf-8")]: the text, kept as its UTF-8 bytes, or
    [UnicodeDecodeError] (a [ValueError]). *)
Definition decode (b : string) : py.result string :=
  if valid b then py.Ok b
  else py.Raise (py.ValueError "'utf-8' codec can't decode byte").

End utf8.

(** ** The LDAP credentials provider (credentials/providers/ldap.py) *)

Module ldap.

(** What the directory answers. *)
Inductive ldap_error := INVALID_CREDENTIALS | NO_SUCH_OBJECT | SERVER_DOWN.

Definition error_name (e : ldap_error) : string :=
  match e with
  | INVALID_CREDENTIALS => "INVALID_CREDENTIALS"
  | NO_SUCH_OBJECT => "NO_SUCH_OBJECT"
  | SERVER_DOWN => "SERVER_DOWN"
  end.

(** The directory server, as python-ldap presents it on one connection:
    [simple_bind_s] fails or not, and a subtree search followed by
    [allresults] yields the [dn]s of the result entries ([None] for a
    referral) or fails. *)
Record Server := {
  simple_bind_s : string -> option string -> option ldap_error;
  search_all : string -> string -> ldap_error + list (option string) }.

(** The provider's configuration section. *)
Record Provider := {
  LdapUri : string;
  Prefix : string;
  cfg_username : string;
  cfg_password : string;
  cfg_base : string;
  cfg_filter : string;
  tls_protocol_min : string;
  tls_protocol_max : string;
  IdentFields : list string }.

(** What happens to the connection a worker opens, in order. *)
Inductive event :=
| Initialize                       (* [_LDAPObject(self.LdapUri)] *)
| Bound (who : string)             (* [simple_bind_s] succeeded *)
| BindFailed (who : string)        (* [simple_bind_s] raised *)
| Searched
| Unbound.                         (* [unbind_s()] *)

Definition _TLS_VERSION : list string := ["1.0"; "1.1"; "1.2"; "1.3"].

(** [_enable_tls]: the options are set on the client object; a protocol
    bound outside [_TLS_VERSION] raises [ValueError]. *)
Definition _enable_tls (p : Provider) : py.result unit :=
  if urllib.nonempty (tls_protocol_min p) && negb (py.mem (tls_protocol_min p) _TLS_VERSION)
  then py.Raise (py.ValueError "'tls_protocol_min' must be one of the known versions or empty.")
  else if urllib.nonempty (tls_protocol_max p) && negb (py.mem (tls_protocol_max p) _TLS_VERSION)
  then py.Raise (py.ValueError "'tls_protocol_max' must be one of the known versions or empty.")
  else py.Ok tt.

Definition tls_setup (p : Provider) : py.result unit :=
  if py.startswith (LdapUri p) "ldaps" then _enable_tls p else py.Ok tt.

(** [with self._ldap_client() as lc: body]: a new client object, bound as
    the configured user; the body runs inside [try ... finally] and
    [unbind_s()] is in the [finally].  The body returns its own events and
    its result or exception. *)
Definition _ldap_client {A} (p : Provider) (srv : Server)
    (body : list event * py.result A) : list event * py.result A :=
  match tls_setup p with
  | py.Raise e => ([Initialize], py.Raise e)
  | py.Ok _ =>
      match simple_bind_s srv (cfg_username p) (Some (cfg_password p)) with
      | Some err => ([Initialize; BindFailed (cfg_username p)],
                     py.Raise (py.LDAPError (error_name err)))
      | None =>
          (([Initialize; Bound (cfg_username p)] ++ fst body ++ [Unbound])%list, snd body)
      end
  end.

(** [_count_worker]. *)
Definition _count_worker (p : Provider) (srv : Server) (filterstr : string)
    : list event * py.result nat :=
  _ldap_client p srv
    (match search_all srv (cfg_base p) filterstr with
     | inl err => ([Searched], py.Raise (py.LDAPError (error_name err)))
     | inr res_data => ([Searched], py.Ok (length (filter is_Some res_data)))
     end).

(** [_format_credentials_id]. *)
Definition _format_credentials_id (p : Provider) (dn : string) : string :=
  py.cat (Prefix p) (base64.urlsafe_b64encode dn).

(** The filter text [ldap.filter.filter_format] builds for [_locate_worker]
    is directory syntax; the server model receives the template fields and
    the identifier as one text. *)
Definition locate_filter (p : Provider) (ident : string) : string :=
  py.cat "(|" (py.cat (py.join ""
    (map (fun field => py.cat "(" (py.cat field (py.cat "=" (py.cat ident ")"))))
         (IdentFields p))) ")").

(** [_locate_worker]: the first entry with a [dn], returned from inside
    the [with] block. *)
Definition _locate_worker (p : Provider) (srv : Server) (ident : string)
    : list event * py.result (option string) :=
  _ldap_client p srv
    (match search_all srv (cfg_base p) (locate_filter p ident) with
     | inl err => ([Searched], py.Raise (py.LDAPError (error_name err)))
     | inr res_data =>
         ([Searched],
          py.Ok (option_map (_format_credentials_id p)
                   (head (omap id res_data))))
     end).

(** [_authenticate_worker]: the [dn] is the base64 part of the id decoded
    as UTF-8; the worker makes its own client object. *)
Definition _authenticate_worker (p : Provider) (srv : Server)
    (credentials_id : string) (password : option string)
    : list event * py.result bool :=
  match dn_bytes <-? base64.urlsafe_b64decode
                       (py.drop (String.length (Prefix p)) credentials_id) ;;
        utf8.decode dn_bytes with
  | py.Raise e => ([], py.Raise e)
  | py.Ok dn =>
      match tls_setup p with
      | py.Raise e => ([Initialize], py.Raise e)
      | py.Ok _ =>
          match simple_bind_s srv dn password with
          | Some INVALID_CREDENTIALS => ([Initialize; BindFailed dn], py.Ok false)
          | Some err => ([Initialize; BindFailed dn], py.Raise (py.LDAPError (error_name err)))
          | None => ([Initialize; Bound dn; Unbound], py.Ok true)
          end
      end
  end.

Definition is_unbound (e : event) : bool :=
  match e with Unbound => true | _ => false end.

(** The worker called [unbind_s()] on its connection. *)
Definition unbinds (t : list event) : bool := existsb is_unbound t.

(** Every successful bind is followed by an [unbind_s()]. *)
Fixpoint closes_after_bind (t : list event) : bool :=
  match t with
  | [] => true
  | Bound _ :: r => unbinds r && closes_after_bind r
  | _ :: r => closes_after_bind r
  end.

End ldap.

(** ** The authorize endpoint (openidconnect/handler/authorize.py) *)

Module authorize.
Import session app web.

Definition AuthorizePath : string := "/openidconnect/authorize".
Definition LoginPath : string := "/#/login".
Definition HomePath : string := "/#/".

(** [url[:-1] if url.endswith("/") else url], from [__init__]. *)
Fixpoint strip_slash (url : string) : string :=
  match url with
  | EmptyString => EmptyString
  | String c EmptyString => if Ascii.eqb c "/"%char then EmptyString else url
  | String c t => String c (strip_slash t)
  end.

Definition PublicApiBaseUrl (a : App) : string := strip_slash (public_api_base_url a).
Definition AuthWebuiBaseUrl (a : App) : string := strip_slash (auth_webui_base_url a).

(** The request parameters: the query (GET) or the form (POST), with the
    text [str()] gives for the multi-dict. *)
Record Parameters := {
  items : list (string * string);
  parameters_repr : string }.

(** [audit_authorize_error(client_id, error, credential_id, **kwargs)]. *)
Definition audit_authorize_error (w : World) (client_id error : string)
    (credential_id : option string) (kwargs : py.dict py.value) : World :=
  let d := [("client_id", py.PyStr client_id); ("error", py.PyStr error)] in
  let d := foldl (fun d kv => py.dict_set d (fst kv) (snd kv)) d kwargs in
  let d := match credential_id with
           | Some cid => py.dict_set d "cid" (py.PyStr cid)
           | None => d
           end in
  AuditService_append w AUTHORIZE_ERROR d.

(** [audit_authorize_success(session)]. *)
Definition audit_authorize_success (w : World) (s : SessionAdapter) : World :=
  AuditService_append w AUTHORIZE_SUCCESS
    [("cid", py.PyStr (Id (Credentials s)));
     ("tenants", py.PyStrs (filter (fun t => t <> "*") (map fst (Authz (Authorization s)))));
     ("client_id", match ClientId (OAuth2 s) with
                   | Some c => py.PyStr c
                   | None => py.PyNone
                   end);
     ("scope", py.PyStrs (Scope (OAuth2 s)))].

(** [reply_with_authentication_error(error, redirect_uri,
    error_description, error_uri, state)].  [error] is whatever the caller
    passed first. *)
Definition reply_with_authentication_error `{urllib.UrlParser} `{Y : yarl.Url} (a : App)
    (error : urllib.scalar) (redirect_uri : option string)
    (error_description error_uri state : option string) : py.result Response :=
  let qs := [("error", error)] in
  let qs := match error_description with
            | Some d => py.dict_set qs "error_description" (urllib.Str d)
            | None => qs
            end in
  let qs := match error_uri with
            | Some u => py.dict_set qs "error_uri" (urllib.Str u)
            | None => qs
            end in
  let qs := match state with
            | Some st => py.dict_set qs "state" (urllib.Str st)
            | None => qs
            end in
  let response_qs := urllib.urlencode qs in
  match redirect_uri with
  | Some uri =>
      parsed <-? urllib.urlparse uri ;;
      let redirect_uri_qs := urllib.query parsed in
      let response_qs :=
        if urllib.nonempty redirect_uri_qs
        then py.cat redirect_uri_qs (py.cat "&" response_qs)
        else response_qs in
      HTTPFound (py.cat uri (py.cat "?" response_qs)) []
  | None =>
      HTTPFound (py.cat (PublicApiBaseUrl a) (py.cat AuthorizePath (py.cat "?" response_qs))) []
  end.

(** The text that the echoed [state] adds to an encoded query that is not
    empty. *)
Definition state_suffix (state : option string) : string :=
  match state with
  | Some st => py.cat "&state=" (urllib.quote_plus st)
  | None => EmptyString
  end.

(** The query that [redirect_uri] already carries, with the [&] that
    separates it from what is appended. *)
Definition query_prefix (parsed : urllib.ParseResult) : string :=
  if urllib.nonempty (urllib.query parsed)
  then py.cat (urllib.query parsed) "&"
  else EmptyString.


(** [_get_factors_to_setup(session)]: the enforced factors that the login
    did not satisfy, in their order, then the factors enforced on the
    credentials, in the order in which the set of them is iterated. *)
Definition _get_factors_to_setup (a : App) (s : SessionAdapter) : py.result (list string) :=
  factors_to_setup <-?
    match EnforceFactors a with
    | None => py.Ok []
    | Some enforced =>
        match LoginDescriptor (Authentication s) with
        | None => py.Raise (py.TypeError "'NoneType' object is not subscriptable")
        | Some ld =>
            py.Ok (foldl (fun fs factor =>
                            if py.mem (factor_type factor) fs
                            then py.list_remove (factor_type factor) fs
                            else fs)
                         enforced (ld_factors ld))
        end
    end ;;
  credentials <-? credentials_get a (Id (Credentials s)) ;;
  let cred_enforce_factors :=
    set_iteration a (py.set_of (default [] (enforce_factors credentials))) in
  py.Ok (foldl (fun fs factor => if py.mem factor fs then fs else (fs ++ [factor])%list)
               factors_to_setup cred_enforce_factors).

(** [reply_with_successful_response(session, scope, redirect_uri, state)]. *)
Definition reply_with_successful_response `{urllib.UrlParser} `{Y : yarl.Url} (a : App) (w : World)
    (s : SessionAdapter) (scope : list string) (redirect_uri : string)
    (state : option string) : py.result Response * World :=
  match urllib.urlparse redirect_uri with
  | py.Raise e => (py.Raise e, w)
  | py.Ok url =>
      let url_qs := map (fun kv => (fst kv, urllib.QList (snd kv)))
                        (urllib.parse_qs (urllib.query url)) in
      let url_qs := match state with
                    | Some st => py.dict_set url_qs "state" (urllib.QScalar (urllib.Str st))
                    | None => url_qs
                    end in
      let '(url_qs, w) :=
        if py.mem "cookie" scope then (url_qs, w)
        else
          let '(code, w') := oidc.generate_authorization_code a w (SessionId s) in
          (py.dict_set url_qs "code" (urllib.QScalar (urllib.Str code)), w') in
      let location :=
        urllib.urlunparse
          {| urllib.scheme := urllib.scheme url; urllib.netloc := urllib.netloc url;
             urllib.path := urllib.path url; urllib.params := urllib.params url;
             urllib.query := urllib.urlencode_doseq url_qs;
             urllib.fragment := urllib.fragment url |} in
      match HTTPFound location [("Refresh", py.cat "0;url=" location)] with
      | py.Raise e => (py.Raise e, w)
      | py.Ok response =>
          (py.Ok (if py.mem "cookie" scope then set_cookie response s else response), w)
      end
  end.

Definition str_items (l : list (string * string)) : py.dict urllib.scalar :=
  map (fun kv => (fst kv, urllib.Str (snd kv))) l.

(** The URL that re-enters the authorize endpoint with the original
    parameters, after [extra] leading parameters. *)
Definition authorize_redirect_uri (a : App) (extra : list (string * string))
    (response_type : string) (scope : list string) (client_id redirect_uri : string)
    (state : option string) : string :=
  let authorize_query_params :=
    (extra ++ [("response_type", response_type); ("scope", py.join " " scope);
               ("client_id", client_id); ("redirect_uri", redirect_uri)])%list in
  let authorize_query_params :=
    match state with
    | Some st => (authorize_query_params ++ [("state", st)])%list
    | None => authorize_query_params
    end in
  py.cat (PublicApiBaseUrl a)
    (py.cat AuthorizePath (py.cat "?" (urllib.urlencode (str_items authorize_query_params)))).

(** [reply_with_redirect_to_login]. *)
Definition reply_with_redirect_to_login (a : App) (response_type : string)
    (scope : list string) (client_id redirect_uri : string) (state : option string)
    (login_parameters : py.dict string) : Response :=
  let login_query_params :=
    (login_parameters ++
     [("redirect_uri",
       authorize_redirect_uri a [] response_type scope client_id redirect_uri state)])%list in
  let login_url :=
    py.cat (AuthWebuiBaseUrl a)
      (py.cat LoginPath (py.cat "?" (urllib.urlencode (str_items login_query_params)))) in
  delete_cookie
    (HTTPNotFound [("Location", login_url); ("Refresh", py.cat "0;url=" login_url)]).

(** [reply_with_factor_setup_redirect].  The query slot of [urlunparse]
    is given [None], which it treats as it treats the empty text. *)
Definition reply_with_factor_setup_redirect `{urllib.UrlParser} `{Y : yarl.Url} (a : App)
    (s : SessionAdapter) (missing_factors : list string) (response_type : string)
    (scope : list string) (client_id redirect_uri : string) (state : option string)
    : py.result Response :=
  sfa_url <-? urllib.urlparse (py.cat (AuthWebuiBaseUrl a) HomePath) ;;
  let back :=
    authorize_redirect_uri a [("prompt", "login")] response_type scope client_id
      redirect_uri state in
  let auth_url_params :=
    [("setup", urllib.QScalar (urllib.Str (py.join " " missing_factors)));
     ("redirect_uri", urllib.QScalar (urllib.Str (urllib.quote back)))] in
  let fragment :=
    py.cat (urllib.fragment sfa_url)
      (py.cat "?" (urllib.urlencode_doseq auth_url_params)) in
  let location :=
    urllib.urlunparse
      {| urllib.scheme := urllib.scheme sfa_url; urllib.netloc := urllib.netloc sfa_url;
         urllib.path := urllib.path sfa_url; urllib.params := urllib.params sfa_url;
         urllib.query := EmptyString; urllib.fragment := fragment |} in
  response <-? HTTPFound location [("Refresh", py.cat "0;url=" location)] ;;
  py.Ok (if py.mem "cookie" scope then set_cookie response s else response).

(** Why a [tenant:<id>] scope entry is refused: the code written to the
    audit trail, and the tenant. *)
Record tenant_refusal := { audit_error : string; refused_tenant : string }.

(** The loop over [scope] that authorizes access to tenants: the set of
    tenants collected so far, or the first refusal. *)
Fixpoint authorize_tenants (a : App) (user_tenants : list string)
    (user_has_access_to_all_tenants : bool) (scope : list string)
    (tenants : list string) : list string + tenant_refusal :=
  match scope with
  | [] => inl tenants
  | resource :: rest =>
      let continue_with t :=
        authorize_tenants a user_tenants user_has_access_to_all_tenants rest t in
      if negb (py.startswith resource "tenant:") then continue_with tenants
      else
        let tenant := py.drop (String.length "tenant:") resource in
        if String.eqb tenant "*" then continue_with (py.set_update tenants user_tenants)
        else if py.mem tenant user_tenants then continue_with (py.set_add tenant tenants)
        else if user_has_access_to_all_tenants then
          if tenant_exists a tenant then continue_with (py.set_add tenant tenants)
          else inr {| audit_error := "tenant_not_found"; refused_tenant := tenant |}
        else inr {| audit_error := "unauthorized_tenant"; refused_tenant := tenant |}
  end.

(** The tenant chosen for a bare [tenant] scope entry when no specific
    tenant was collected: the last authorized one that is still assigned,
    else the first assigned one. *)
Definition default_tenant (a : App) (credentials_id : string)
    (user_tenants : list string) : option string :=
  match filter (fun t => py.mem t user_tenants = true)
               (get_last_authorized_tenants a credentials_id) with
  | t :: _ => Some t
  | [] => head user_tenants
  end.

(** [int(login_parameters["expiration"])] when the parameter was given. *)
Definition requested_expiration_of (login_parameters : py.dict string)
    : py.result (option Z) :=
  match py.dict_get login_parameters "expiration" with
  | Some text => z <-? py.int text ;; py.Ok (Some z)
  | None => py.Ok None
  end.

Definition expiration_value (requested_expiration : option Z) : py.value :=
  match requested_expiration with
  | Some z => py.PyInt z
  | None => py.PyNone
  end.

(** The end of [authentication_code_flow], after the factor gate: the
    child session is created and the successful response built. *)
Definition issue_code `{urllib.UrlParser} `{Y : yarl.Url} (a : App) (w : World)
    (root_session : SessionAdapter) (scope : list string)
    (client_id redirect_uri : string) (state : option string)
    (login_parameters : py.dict string) (tenants : list string)
    : py.result Response * World :=
  match requested_expiration_of login_parameters with
  | py.Raise e => (py.Raise e, w)
  | py.Ok requested_expiration =>
      (* create_oidc_session(root_session, client_id, scope, tenants,
         requested_expiration): the last two are passed by position and
         land in the [nonce] and [redirect_uri] parameters. *)
      match oidc.create_oidc_session a w root_session client_id scope
              (py.PyStrs tenants) (expiration_value requested_expiration)
              None None with
      | py.Raise e => (py.Raise e, w)
      | py.Ok (s, w) =>
          let w := audit_authorize_success w s in
          reply_with_successful_response a w s scope redirect_uri state
      end
  end.

(** The factor gate of [authentication_code_flow]: a redirect to the
    factor management page if the (re)set of any factor is required, the
    code otherwise. *)
Definition factor_gate `{urllib.UrlParser} `{Y : yarl.Url} (a : App) (w : World)
    (root_session : SessionAdapter) (scope : list string)
    (client_id redirect_uri : string) (state : option string)
    (login_parameters : py.dict string) (tenants : list string)
    : py.result Response * World :=
  match _get_factors_to_setup a root_session with
  | py.Raise e => (py.Raise e, w)
  | py.Ok (f :: fs) =>
      (reply_with_factor_setup_redirect a root_session (f :: fs) "code" scope
         client_id redirect_uri state, w)
  | py.Ok [] =>
      issue_code a w root_session scope client_id redirect_uri state login_parameters
        tenants
  end.


(** The tenants the session is authorized for, once the loop over the
    scope has collected [tenants]: a bare [tenant] entry asks for one
    when none was named. *)
Definition resolve_tenants (a : App) (credentials_id : string)
    (user_tenants scope tenants : list string) : option (list string) :=
  match tenants with
  | [] =>
      if py.mem "tenant" scope
      then option_map (fun t => [t]) (default_tenant a credentials_id user_tenants)
      else Some []
  | _ :: _ => Some tenants
  end.

Definition access_to_all_tenants (root_session : SessionAdapter) : bool :=
  has_resource_access (Authz (Authorization root_session)) "authz:superuser"
  || has_resource_access (Authz (Authorization root_session)) "authz:tenant:access".

(** The part of [authentication_code_flow] that runs once the caller is
    known to be authenticated with [root_session]. *)
Definition authenticated_flow `{urllib.UrlParser} `{Y : yarl.Url} (a : App) (w : World)
    (root_session : SessionAdapter) (scope : list string)
    (client_id redirect_uri : string) (state : option string)
    (login_parameters : py.dict string) : py.result Response * World :=
  let cid := Id (Credentials root_session) in
  match TenantService_get_tenants a cid with
  | py.Raise e => (py.Raise e, w)
  | py.Ok user_tenants =>
  match authorize_tenants a user_tenants (access_to_all_tenants root_session) scope [] with
  | inr refusal =>
      let w := audit_authorize_error w client_id (audit_error refusal) (Some cid)
                 [("tenant", py.PyStr (refused_tenant refusal));
                  ("scope", py.PyStrs scope)] in
      (reply_with_authentication_error a (urllib.Str "unauthorized_tenant")
         (Some redirect_uri)
         (Some (py.cat "Unauthorized tenant: " (refused_tenant refusal))) None state, w)
  | inl tenants =>
  match resolve_tenants a cid user_tenants scope tenants with
  | None =>
      let w := audit_authorize_error w client_id "user_has_no_tenant" (Some cid)
                 [("scope", py.PyStrs scope)] in
      (reply_with_authentication_error a (urllib.Str "user_has_no_tenant")
         (Some redirect_uri) (Some "User has no tenant.") None state, w)
  | Some tenants =>
      factor_gate a w root_session scope client_id redirect_uri state login_parameters
        tenants
  end end end.

Definition valid_prompts : list (option string) :=
  [None; Some "none"; Some "login"; Some "select_account"].

(** [prompt == text]. *)
Definition prompt_is (prompt : option string) (text : string) : bool :=
  match prompt with
  | Some p => String.eqb p text
  | None => false
  end.

Definition prompt_value (prompt : option string) : py.value :=
  match prompt with
  | Some p => py.PyStr p
  | None => py.PyNone
  end.

(** The client check did not reject the redirect URI (a failed lookup or
    secret check does not end the flow). *)
Definition not_rejected (c : client_check) : Prop :=
  forall msg, c <> InvalidRedirectURI msg.

(** [request.Session], when it is a root session: only root sessions can
    be used to obtain an authorization code. *)
Definition root_session_of (request : Request) : option SessionAdapter :=
  match Session request with
  | Some s => if String.eqb (Type_ s) "root" then Some s else None
  | None => None
  end.

(** [authentication_code_flow]. *)
Definition authentication_code_flow `{urllib.UrlParser} `{Y : yarl.Url} (a : App) (w : World)
    (request : Request) (scope : list string) (client_id redirect_uri : string)
    (client_secret state prompt : option string) (login_parameters : py.dict string)
    : py.result Response * World :=
  match authorize_client a client_id client_secret redirect_uri scope with
  | InvalidRedirectURI _ =>
      let w := audit_authorize_error w client_id "invalid_redirect_uri" None
                 [("redirect_uri", py.PyStr redirect_uri)] in
      (reply_with_authentication_error a (urllib.Str "invalid_redirect_uri") None
         (Some "redirect_uri is not valid for given client_id") None state, w)
  | ClientAuthorized | ClientKeyError | InvalidClientSecret _ | ClientError _ =>
      (* a failed lookup or secret check is logged and the flow goes on *)
  if negb (py.mem "openid" scope) then
    let w := audit_authorize_error w client_id "invalid_scope" None
               [("scope", py.PyStrs scope)] in
    (reply_with_authentication_error a (urllib.Str "invalid_scope") (Some redirect_uri)
       (Some "Scope must contain 'openid'") None state, w)
  else
  let root_session := root_session_of request in
  if negb (bool_decide (prompt ∈ valid_prompts)) then
    let w := audit_authorize_error w client_id "invalid_request" None
               [("prompt", prompt_value prompt)] in
    (reply_with_authentication_error a (urllib.Str "invalid_request") (Some redirect_uri)
       (Some (py.cat "Invalid parameter value for prompt: " (default "None" prompt)))
       None state, w)
  else
  (* 'login' prompt: delete the active session and re-authenticate *)
  let '(root_session, w) :=
    if prompt_is prompt "login" then
      match root_session with
      | Some s => (None, SessionService_delete w (SessionId s))
      | None => (None, w)
      end
    else (root_session, w) in
  match root_session with
  | None =>
      if prompt_is prompt "none" then
        let w := audit_authorize_error w client_id "login_required" None
                   [("prompt", prompt_value prompt)] in
        (* reply_with_authentication_error(request, "login_required",
           redirect_uri, state=state): three positional arguments after
           self, so [error] is the request, [redirect_uri] is the text
           login_required and [error_description] is the redirect URI *)
        (reply_with_authentication_error a (urllib.Obj (repr request))
           (Some "login_required") (Some redirect_uri) None state, w)
      else
        (py.Ok (reply_with_redirect_to_login a "code" scope client_id redirect_uri state
                  login_parameters), w)
  | Some s =>
      if prompt_is prompt "select_account" then
        (py.Ok (reply_with_redirect_to_login a "code" scope client_id redirect_uri state
                  login_parameters), w)
      else
        authenticated_flow a w s scope client_id redirect_uri state login_parameters
  end
  end.

(** A required parameter is missing or empty. *)
Definition missing (request_parameters : Parameters) (parameter : string) : bool :=
  match web.get (items request_parameters) parameter with
  | Some v => negb (urllib.nonempty v)
  | None => true
  end.

Definition required_parameters : list string :=
  ["scope"; "client_id"; "response_type"; "redirect_uri"].

(** [authorize(request, request_parameters)].  The required parameters
    are checked by iterating a frozenset; [order] is the order in which
    that iteration visits them. *)
Definition authorize `{urllib.UrlParser} `{Y : yarl.Url} (a : App) (w : World) (order : list string)
    (request : Request) (request_parameters : Parameters)
    : py.result Response * World :=
  let get := web.get (items request_parameters) in
  match filter (fun p => missing request_parameters p = true) order with
  | parameter :: _ =>
      (reply_with_authentication_error a (urllib.Str "invalid_request")
         (match get "redirect_uri" with
          | Some uri => if urllib.nonempty uri then Some uri else None
          | None => None
          end)
         (Some (py.cat "Missing required parameter: " parameter)) None (get "state"), w)
  | [] =>
      match get "response_type", get "scope", get "client_id", get "redirect_uri" with
      | Some response_type, Some scope, Some client_id, Some redirect_uri =>
          let login_parameters :=
            omap (fun parameter =>
                    option_map (fun v => (parameter, v)) (get parameter))
                 ["ldid"; "expiration"] in
          if String.eqb response_type "code" then
            authentication_code_flow a w request (py.split " " scope) client_id
              redirect_uri (get "client_secret") (get "state") (get "prompt")
              login_parameters
          else
            let w := audit_authorize_error w client_id "invalid_response_type" None
                       [("response_type", py.PyStr response_type)] in
            (* reply_with_authentication_error(request_parameters,
               "invalid_request", "Invalid response_type: ...") *)
            (reply_with_authentication_error a
               (urllib.Obj (parameters_repr request_parameters))
               (Some "invalid_request")
               (Some (py.cat "Invalid response_type: " response_type)) None None, w)
      | _, _, _, _ => (py.Raise (py.KeyError "required parameter"), w)
      end
  end.

End authorize.

(** ** A sample deployment, to run the handlers on concrete requests *)

Module sample.
Import session app web.

(** One client, [app1], with one registered redirect URI. *)
Definition client_check_of (client_id : string) (client_secret : option string)
    (redirect_uri : string) (scope : list string) : client_check :=
  if String.eqb client_id "app1" then
    if String.eqb redirect_uri "https://app1/cb" then ClientAuthorized
    else InvalidRedirectURI redirect_uri
  else ClientKeyError.

(** Alice is assigned to tenant [tenant1]; Root holds [authz:superuser]. *)
Definition the_app : App :=
  {| public_api_base_url := "https://auth.test/api/";
     auth_webui_base_url := "https://auth.test/ui";
     EnforceFactors := None;
     set_iteration := fun members => members;
     CookieName := "SeaCatSCI";
     RootCookieDomain := "auth.test";
     ApplicationCookieDomains := [];
     authorize_client := client_check_of;
     TenantsProvider :=
       Some (fun cid => if String.eqb cid "alice" then ["tenant1"] else []);
     tenant_exists := fun t => String.eqb t "tenant1";
     get_last_authorized_tenants := fun _ => [];
     credentials_get := fun cid =>
       py.Ok {| cred_username := Some cid; cred_email := None; cred_phone := None;
                enforce_factors := None |};
     role_resources := fun cid t =>
       if String.eqb cid "root" && String.eqb t "*"
       then ["authz:superuser"; "authz:impersonate"; "my:resource"]
       else ["my:resource"];
     get_eligible_factors := fun _ => ["password"];
     external_logins := fun _ => [];
     batman_password := fun _ => "pw";
     entropy := fun n => py.cat "rnd" (String (ascii_of_nat (48 + n)) EmptyString);
     authorization_code_expiration := 60;
     touch_extension := 3600;
     x_headers := fun _ _ => [] |}.




(** A root session of [cid], logged in with a password; the session
    cookie id is the text [abc]. *)
Definition root_of (cid : string) (authz : py.dict (list string))
    (impersonator : option string) : SessionAdapter :=
  {| SessionId := py.cat "root-" cid; Type_ := "root"; ParentSessionId := None;
     Expiration := Some 1000%Z; TrackId := None;
     Credentials := {| Id := cid; Username := Some cid; Email := None; Phone := None |};
     Authentication :=
       {| LoginDescriptor :=
            Some {| ld_id := "default";
                    ld_factors := [{| factor_id := "password";
                                      factor_type := "password" |}] |};
          LoginFactors := Some ["password"]; AvailableFactors := None;
          ExternalLoginOptions := None;
          ImpersonatorSessionId := impersonator;
          ImpersonatorCredentialsId := option_map (fun _ => "root") impersonator |};
     Authorization := {| Authz := authz; AssignedTenants := [] |};
     OAuth2 := {| ClientId := None; Scope := []; Nonce := py.PyNone;
                  RedirectUri := py.PyNone; AccessToken := Some "token1" |};
     CookieId := Some "abc"; BatmanToken := None |}.

Definition alice : SessionAdapter := root_of "alice" [("*", [])] None.
(** Root's session while a support operator impersonates Root. *)
Definition impersonated : SessionAdapter :=
  root_of "root" [("*", ["my:resource"])] (Some "root-operator").

Definition world_of (s : SessionAdapter) : World :=
  {| sessions := {[ SessionId s := s ]}; tokens := ∅; audit := []; now := 0;
     minted := 0 |}.

Definition request_of (s : option SessionAdapter) : Request :=
  {| cookie_header := None; query := []; Session := s;
     repr := "<Request GET /openidconnect/authorize >" |}.

(** [GET /openidconnect/authorize?response_type=code&client_id=...] *)
Definition flow (a : App) (s : option SessionAdapter) (scope : list string)
    (client_id redirect_uri : string) (prompt : option string)
    : py.result Response * World :=
  authorize.authentication_code_flow (H := urllib.basic) (Y := yarl.basic) a
    (match s with Some r => world_of r | None => world_of alice end)
    (request_of s) scope client_id redirect_uri None (Some "s1") prompt [].

(** Alice's access token [tok] outlived her OIDC session. *)
Definition dangling_world : World :=
  {| sessions := {[ SessionId alice := alice ]};
     tokens := {[ "tok" := {| tk_type := oat; tk_sid := "gone"; tk_expires_at := 100;
                              tk_cc := None; tk_ccm := None; tk_sa := false |} ]};
     audit := []; now := 0; minted := 0 |}.

(** A directory that knows one password. *)
Definition directory : ldap.Server :=
  {| ldap.simple_bind_s := fun dn password =>
       if bool_decide (password = Some "secret") then None
       else Some ldap.INVALID_CREDENTIALS;
     ldap.search_all := fun _ _ => inr [Some "cn=alice,dc=example,dc=org"] |}.

Definition provider : ldap.Provider :=
  {| ldap.LdapUri := "ldap://localhost:389/";
     ldap.Prefix := "ldap:";
     ldap.cfg_username := "cn=admin,dc=example,dc=org";
     ldap.cfg_password := "secret";
     ldap.cfg_base := "dc=example,dc=org";
     ldap.cfg_filter := "(cn=*)";
     ldap.tls_protocol_min := "";
     ldap.tls_protocol_max := "";
     ldap.IdentFields := ["mail"; "mobile"; "cn"] |}.

(** [POST /cookie/nginx] with the given [Cookie] header. *)
Definition introspect (cookie_text : string) : py.result Response * World :=
  cookie.nginx (H := http_cookies.basic) the_app (world_of alice)
    {| cookie_header := Some cookie_text; query := []; Session := None;
       repr := "<Request POST /cookie/nginx >" |}.

(** The child session [create_oidc_session] makes for [app1] from a root
    session, with the state it leaves. *)
Definition child_of (root_session : SessionAdapter) (scope tenants : list string)
    : SessionAdapter * World :=
  match oidc.create_oidc_session the_app (world_of root_session) root_session "app1"
          scope (py.PyStrs tenants) py.PyNone None None with
  | py.Ok sw => sw
  | py.Raise _ => (root_session, world_of root_session)
  end.

Definition location (r : py.result Response * World) : option string :=
  match fst r with
  | py.Ok resp => py.dict_get (headers resp) "Location"
  | py.Raise _ => None
  end.

End sample.

(** ** The LDAP provider: reading entries (credentials/providers/ldap.py) *)

Module ldap_entries.
Import ldap.

(** One entry as python-ldap returns it: attribute name to the list of
    its values, each a [bytes]. *)
Definition Entry : Type := py.dict (list string).

Inductive search_scope := SCOPE_BASE | SCOPE_SUBTREE.

(** The directory with the entries it returns: [search_s], or [search]
    followed by [allresults], for a base, a scope, a filter and an
    attribute list; a result without [dn] is a referral. *)
Record Directory := {
  server : Server;
  search : string -> search_scope -> string -> list string
           -> ldap_error + list (option string * Entry) }.

(** The provider with the settings that reading entries needs. *)
Record Settings := {
  provider : Provider;
  ProviderID : string;
  attrusername : string;
  attributes : string }.

Definition Type_ : string := "ldap".

(** A value of [decoded_result]: the text of a single-valued attribute,
    or the list of texts of a multi-valued one. *)
Inductive attr :=
| One (s : string)
| Many (l : list string).

(** A value of the normalized credentials, for a type [T] of
    [datetime] values. *)
Inductive field (T : Type) :=
| FValue (v : attr)
| FBool (b : bool)
| FTime (t : T)
| FDict (d : py.dict attr).
Arguments FValue {T} v.
Arguments FBool {T} b.
Arguments FTime {T} t.
Arguments FDict {T} d.

(** [datetime.datetime.strptime(text, format)]: [ValueError] when the
    text does not have the format. *)
Class Strptime := {
  datetime : Type;
  strptime : string -> string -> py.result datetime }.

(** [d.pop(k, None)]. *)
Fixpoint dict_pop {V} (d : py.dict V) (k : string) : option V * py.dict V :=
  match d with
  | [] => (None, [])
  | (k', v) :: t =>
      if String.eqb k' k then (Some v, t)
      else let '(r, t') := dict_pop t k in (r, (k', v) :: t')
  end.

(** [[i.decode("utf-8") for i in v]]. *)
Fixpoint decode_all (v : list string) : py.result (list string) :=
  match v with
  | [] => py.Ok []
  | i :: rest =>
      s <-? utf8.decode i ;;
      l <-? decode_all rest ;;
      py.Ok (s :: l)
  end.

(** The loop of [_normalize_credentials] over the attributes of the
    entry. *)
Fixpoint decode_entry (search_result : Entry) (decoded_result : py.dict attr)
    : py.result (py.dict attr) :=
  match search_result with
  | [] => py.Ok decoded_result
  | (k, v) :: rest =>
      if String.eqb k "userPassword" then decode_entry rest decoded_result
      else
        match v with
        | [] => decode_entry rest decoded_result
        | [v0] =>
            s <-? utf8.decode v0 ;;
            decode_entry rest (py.dict_set decoded_result k (One s))
        | _ =>
            l <-? decode_all v ;;
            decode_entry rest (py.dict_set decoded_result k (Many l))
        end
  end.

(** [_parse_timestamp(ts)]. *)
Definition _parse_timestamp `{Strptime} (ts : attr) : py.result datetime :=
  match ts with
  | Many _ => py.Raise (py.TypeError "strptime() argument 1 must be str, not list")
  | One text =>
      match strptime text "%Y%m%d%H%M%SZ" with
      | py.Raise (py.ValueError _) => strptime text "%Y%m%d%H%M%S.%fZ"
      | r => r
      end
  end.

(** [ret[key] = _parse_timestamp(v)] for the first of the two attribute
    spellings that is present. *)
Definition set_timestamp `{Strptime} (key first second : string)
    (ret : py.dict (field datetime)) (decoded_result : py.dict attr)
    : py.result (py.dict (field datetime) * py.dict attr) :=
  match dict_pop decoded_result first with
  | (Some v, decoded_result) =>
      t <-? _parse_timestamp v ;; py.Ok (py.dict_set ret key (FTime t), decoded_result)
  | (None, decoded_result) =>
      match dict_pop decoded_result second with
      | (Some v, decoded_result) =>
          t <-? _parse_timestamp v ;; py.Ok (py.dict_set ret key (FTime t), decoded_result)
      | (None, decoded_result) => py.Ok (ret, decoded_result)
      end
  end.

(** [ret[key] = v] when [decoded_result.pop(name, None)] is not [None]. *)
Definition move_attribute {T} (key name : string)
    (ret : py.dict (field T)) (decoded_result : py.dict attr)
    : py.dict (field T) * py.dict attr :=
  match dict_pop decoded_result name with
  | (Some v, decoded_result) => (py.dict_set ret key (FValue v), decoded_result)
  | (None, decoded_result) => (ret, decoded_result)
  end.

(** [ret["suspended"] = int(v) & 2 == 2] inside [try ... except
    ValueError: pass], when [userAccountControl] is present. *)
Definition set_suspended {T} (v : option attr) (ret : py.dict (field T))
    : py.result (py.dict (field T)) :=
  match v with
  | None => py.Ok ret
  | Some (Many _) =>
      py.Raise (py.TypeError
        "int() argument must be a string, a bytes-like object or a real number, not 'list'")
  | Some (One text) =>
      match py.int text with
      | py.Ok z => py.Ok (py.dict_set ret "suspended" (FBool (Z.eqb (Z.land z 2) 2)))
      | py.Raise (py.ValueError _) => py.Ok ret
      | py.Raise e => py.Raise e
      end
  end.

(** [_normalize_credentials(dn, search_result)]. *)
Definition _normalize_credentials `{Strptime} (st : Settings) (dn : string)
    (search_result : Entry) : py.result (py.dict (field datetime)) :=
  let ret := [("_id", FValue (One (_format_credentials_id (provider st) dn)));
              ("_type", FValue (One Type_));
              ("_provider_id", FValue (One (ProviderID st)))] in
  decoded_result <-? decode_entry search_result [("dn", One dn)] ;;
  let '(v, decoded_result) := dict_pop decoded_result (attrusername st) in
  (* the attribute's value, or the dn as a fallback *)
  let ret := py.dict_set ret "username" (FValue (default (One dn) v)) in
  let '(ret, decoded_result) := move_attribute "full_name" "cn" ret decoded_result in
  let '(ret, decoded_result) := move_attribute "email" "mail" ret decoded_result in
  let '(ret, decoded_result) := move_attribute "phone" "mobile" ret decoded_result in
  let '(v, decoded_result) := dict_pop decoded_result "userAccountControl" in
  ret <-? set_suspended v ret ;;
  created <-? set_timestamp "_c" "createTimestamp" "createTimeStamp" ret decoded_result ;;
  let '(ret, decoded_result) := created in
  modified <-? set_timestamp "_m" "modifyTimestamp" "modifyTimeStamp" ret decoded_result ;;
  let '(ret, decoded_result) := modified in
  py.Ok (match decoded_result with
         | [] => ret
         | _ :: _ => py.dict_set ret "_ldap" (FDict decoded_result)
         end).

(** [_prepare_attributes(config)]: the configured attributes and the
    ones normalization reads, each once. *)
Definition _prepare_attributes (st : Settings) : list string :=
  py.set_add (attrusername st)
    (py.set_add "cn"
       (py.set_add "modifyTimestamp"
          (py.set_add "createTimestamp" (py.set_of (py.split " " (attributes st)))))).

(** What a worker can raise besides the exceptions of [py.exn]. *)
Inductive raised :=
| Exception (e : py.exn)
| IndexError (msg : string).

Inductive outcome (A : Type) :=
| Returned (a : A)
| Raised (r : raised).
Arguments Returned {A} a.
Arguments Raised {A} r.

(** [_get_worker(credentials_id)]. *)
Definition _get_worker `{Strptime} (st : Settings) (d : Directory) (credentials_id : string)
    : list event * outcome (py.dict (field datetime)) :=
  match (b <-? base64.urlsafe_b64decode
                 (py.drop (String.length (Prefix (provider st))) credentials_id) ;;
         utf8.decode b) with
  | py.Raise e => ([], Raised (Exception e))
  | py.Ok cn =>
      let '(events, results) :=
        _ldap_client (provider st) (server d)
          (match search d cn SCOPE_BASE (cfg_filter (provider st)) (_prepare_attributes st) with
           | inl NO_SUCH_OBJECT => ([Searched], py.Raise (py.KeyError credentials_id))
           | inl err => ([Searched], py.Raise (py.LDAPError (error_name err)))
           | inr results => ([Searched], py.Ok results)
           end) in
      (events,
       match results with
       | py.Raise e => Raised (Exception e)
       | py.Ok [] => Raised (IndexError "list index out of range")
       | py.Ok [(Some dn, entry)] =>
           match _normalize_credentials st dn entry with
           | py.Ok ret => Returned ret
           | py.Raise e => Raised (Exception e)
           end
       | py.Ok [(None, _)] =>
           Raised (Exception (py.AttributeError "'NoneType' object has no attribute 'encode'"))
       | py.Ok (_ :: _ :: _) => Raised (Exception (py.KeyError credentials_id))
       end)
  end.

(** [get(credentials_id)]. *)
Definition get `{Strptime} (st : Settings) (d : Directory) (credentials_id : string)
    : list event * outcome (py.dict (field datetime)) :=
  if py.startswith credentials_id (Prefix (provider st))
  then _get_worker st d credentials_id
  else ([], Raised (Exception (py.KeyError credentials_id))).

(** The entries with a [dn], normalized in order. *)
Fixpoint normalize_all `{Strptime} (st : Settings) (res_data : list (option string * Entry))
    : py.result (list (py.dict (field datetime))) :=
  match res_data with
  | [] => py.Ok []
  | (None, _) :: rest => normalize_all st rest
  | (Some dn, entry) :: rest =>
      c <-? _normalize_credentials st dn entry ;;
      l <-? normalize_all st rest ;;
      py.Ok (c :: l)
  end.

(** [_search_worker(filterstr)]. *)
Definition _search_worker `{Strptime} (st : Settings) (d : Directory) (filterstr : string)
    : list event * py.result (list (py.dict (field datetime))) :=
  _ldap_client (provider st) (server d)
    (match search d (cfg_base (provider st)) SCOPE_SUBTREE filterstr
             (_prepare_attributes st) with
     | inl err => ([Searched], py.Raise (py.LDAPError (error_name err)))
     | inr res_data => ([Searched], normalize_all st res_data)
     end).

End ldap_entries.

(** ** [datetime.strptime] for the timestamps of the directory *)

Module datetime_ref.
Local Open Scope Z_scope.

Record datetime := {
  year : Z; month : Z; day : Z;
  hour : Z; minute : Z; second : Z; microsecond : Z }.

Definition digit (c : ascii) : option Z := py.digit_value c.

(** One alternative of a field's pattern: the number read and the text
    left, when the alternative matches here. *)
Definition alternative : Type := string -> option (Z * string).

Definition in_range (lo hi n : Z) : bool := Z.leb lo n && Z.leb n hi.

Definition two_digits (lo hi : Z) : alternative := fun s =>
  match s with
  | String a (String b t) =>
      match digit a, digit b with
      | Some x, Some y => if in_range lo hi (10 * x + y) then Some ((10 * x + y)%Z, t) else None
      | _, _ => None
      end
  | _ => None
  end.

Definition one_digit (lo hi : Z) : alternative := fun s =>
  match s with
  | String a t =>
      match digit a with
      | Some x => if in_range lo hi x then Some (x, t) else None
      | None => None
      end
  | _ => None
  end.

(** A blank and a digit, as [%d] allows. *)
Definition padded_digit : alternative := fun s =>
  match s with
  | String a t => if Ascii.eqb a " "%char then one_digit 1 9 t else None
  | _ => None
  end.

(** Exactly [n] digits. *)
Fixpoint digits (n : nat) (acc : Z) : alternative := fun s =>
  match n with
  | O => Some (acc, s)
  | S k =>
      match s with
      | String a t =>
          match digit a with
          | Some x => digits k (10 * acc + x)%Z t
          | None => None
          end
      | _ => None
      end
  end.

(** The alternatives are tried in order; the first one after which the
    rest of the pattern matches is taken. *)
Fixpoint field {R} (alts : list alternative) (s : string) (k : Z -> string -> option R)
    : option R :=
  match alts with
  | [] => None
  | alt :: rest =>
      match (match alt s with Some (n, t) => k n t | None => None end) with
      | Some r => Some r
      | None => field rest s k
      end
  end.

Definition Y : list alternative := [digits 4 0].
Definition m : list alternative := [two_digits 10 12; two_digits 1 9; one_digit 1 9].
Definition d : list alternative :=
  [two_digits 30 31; two_digits 10 29; two_digits 1 9; one_digit 1 9; padded_digit].
Definition H : list alternative := [two_digits 20 23; two_digits 0 19; one_digit 0 9].
Definition M : list alternative := [two_digits 0 59; one_digit 0 9].
Definition S_ : list alternative := [two_digits 60 61; two_digits 0 59; one_digit 0 9].

(** [%f]: one to six digits, the longest run first, read as a decimal
    fraction of a second. *)
Definition f : list alternative :=
  map (fun n => fun s => match digits n 0 s with
                         | Some (v, t) => Some ((v * 10 ^ Z.of_nat (6 - n))%Z, t)
                         | None => None
                         end)
      [6; 5; 4; 3; 2; 1]%nat.

(** A letter of the format, matched without regard to case. *)
Definition letter (c : ascii) (s : string) : option string :=
  match s with
  | String a t =>
      if Ascii.eqb (urllib.lower_char a) (urllib.lower_char c) then Some t else None
  | _ => None
  end.

Definition literal (c : ascii) (s : string) : option string :=
  match s with
  | String a t => if Ascii.eqb a c then Some t else None
  | _ => None
  end.

Definition leap (y : Z) : bool :=
  (Z.eqb (y mod 4) 0 && negb (Z.eqb (y mod 100) 0)) || Z.eqb (y mod 400) 0.

Definition days_in_month (y mo : Z) : Z :=
  if Z.eqb mo 2 then (if leap y then 29 else 28)
  else if Z.eqb mo 4 || Z.eqb mo 6 || Z.eqb mo 9 || Z.eqb mo 11 then 30
  else 31.

(** [datetime(year, month, day, hour, minute, second, microsecond)]. *)
Definition make (y mo dd hh mi ss us : Z) : py.result datetime :=
  if in_range 1 9999 y && in_range 1 (days_in_month y mo) dd && in_range 0 59 ss
  then py.Ok {| year := y; month := mo; day := dd; hour := hh; minute := mi;
                second := ss; microsecond := us |}
  else py.Raise (py.ValueError "value is out of range").

(** The date and time fields common to both formats, then [tail] for
    what the format has after the seconds. *)
Definition fields {R} (s : string)
    (tail : Z -> Z -> Z -> Z -> Z -> Z -> string -> option R) : option R :=
  field Y s (fun y s => field m s (fun mo s => field d s (fun dd s =>
  field H s (fun hh s => field M s (fun mi s => field S_ s (fun ss s =>
    tail y mo dd hh mi ss s)))))).

Definition finish (r : option (py.result datetime * string)) : py.result datetime :=
  match r with
  | None => py.Raise (py.ValueError "time data does not match format")
  | Some (v, EmptyString) => v
  | Some (_, String _ _) => py.Raise (py.ValueError "unconverted data remains")
  end.

(** [datetime.datetime.strptime(text, format)] of CPython 3.11 for the
    two formats of [_parse_timestamp], on ASCII text. *)
Definition strptime (text format : string) : py.result datetime :=
  if String.eqb format "%Y%m%d%H%M%SZ" then
    finish (fields text (fun y mo dd hh mi ss s =>
      match letter "Z" s with
      | Some rest => Some (make y mo dd hh mi ss 0, rest)
      | None => None
      end))
  else if String.eqb format "%Y%m%d%H%M%S.%fZ" then
    finish (fields text (fun y mo dd hh mi ss s =>
      match literal "." s with
      | Some s =>
          field f s (fun us s =>
            match letter "Z" s with
            | Some rest => Some (make y mo dd hh mi ss us, rest)
            | None => None
            end)
      | None => None
      end))
  else py.Raise (py.ValueError "format not modelled").

Definition reference : ldap_entries.Strptime :=
  {| ldap_entries.datetime := datetime; ldap_entries.strptime := strptime |}.

End datetime_ref.

(** ** A sample directory entry *)

Module sample_directory.
Import ldap ldap_entries.

Definition settings : Settings :=
  {| provider := sample.provider; ProviderID := "ldap1";
     attrusername := "cn"; attributes := "mail mobile" |}.

(** Alice's entry as an Active Directory would return it: the account is
    disabled (flag 2 of [userAccountControl] is set). *)
Definition alice_entry : Entry :=
  [("cn", ["alice"]); ("mail", ["alice@example.org"]);
   ("userPassword", ["{SSHA}c2VjcmV0"]); ("userAccountControl", ["514"]);
   ("createTimestamp", ["20230115103000Z"]); ("sn", ["Liddell"])].

Definition directory : Directory :=
  {| server := sample.directory;
     search := fun _ _ _ _ => inr [(Some "cn=alice,dc=example,dc=org", alice_entry)] |}.

End sample_directory.

(** ** Reading the [Cookie] header *)

Module cookie_header.
Import app.

(** A cookie name that [CookiePattern] reads as that very text: the name
    is formatted into the pattern without escaping, so only a name made of
    characters without a meaning of their own in a regular expression
    (here: letters, digits, [_] and [-]) is matched literally. *)
Definition literal_name (name : string) : bool :=
  urllib.all_chars
    (fun c => urllib.is_alpha c || urllib.is_digit c
              || Ascii.eqb c "_"%char || Ascii.eqb c "-"%char)
    name.

(** The piece [name=...] of a [Cookie] header is a cookie of the
    configured name. *)
Definition is_session_cookie (name cookie_string : string) : bool :=
  match cookie.after_literal (py.cat name "=") cookie_string with
  | Some _ => true
  | None => false
  end.

(** The cookies of a header after the first one, each behind its
    separator. *)
Fixpoint separated (cookies : list string) : string :=
  match cookies with
  | [] => EmptyString
  | c :: rest => py.cat "; " (py.cat c (separated rest))
  end.

(** The text that follows a cookie in a header: nothing, or a [;]. *)
Definition follows_a_cookie (t : string) : Prop :=
  t = EmptyString \/ exists t', t = String ";" t'.


End cookie_header.

(** ** Tokens of [OpenIdConnectService] (openidconnect/service.py) *)

Module oidc_tokens.
Import session app oidc.

(** The collaborators and settings that minting and redeeming tokens
    reads besides those of [App]. *)
Record Collaborators := {
  (* ClientService.get(client_id): the client's session_expiration, if set *)
  client_session_expiration : option string -> py.result (option Z);
  (* AccessToken.Expiration and RefreshToken.Expiration, in seconds *)
  access_token_expiration : Z;
  refresh_token_expiration : Z;
  (* session.is_algorithmic() *)
  is_algorithmic : SessionAdapter -> bool;
  (* PKCE.evaluate_code_challenge(code_challenge_method, code_challenge, code_verifier) *)
  evaluate_code_challenge : option string -> string -> option string -> py.result unit;
  (* SessionService.Algorithmic.deserialize(StorageService.aes_decrypt(sid)) *)
  deserialize_algorithmic : string -> py.result SessionAdapter }.

(** [x or default] on an optional number: [None] and [0] are falsy. *)
Definition or_default (x : option Z) (default : Z) : Z :=
  match x with
  | Some z => if Z.eqb z 0 then default else z
  | None => default
  end.

(** [OpenIdConnectService.create_access_token]. *)
Definition create_access_token (a : App) (c : Collaborators) (w : World)
    (s : SessionAdapter) : py.result (string * World) :=
  session_expiration <-? client_session_expiration c (ClientId (OAuth2 s)) ;;
  let '(raw_value, w') :=
    TokenService_create a w oat (SessionId s)
      (or_default session_expiration (access_token_expiration c))
      (is_algorithmic c s) None None in
  py.Ok (base64.urlsafe_b64encode raw_value, w').

(** [OpenIdConnectService.create_refresh_token]. *)
Definition create_refresh_token (a : App) (c : Collaborators) (w : World)
    (s : SessionAdapter) : py.result (string * World) :=
  if is_algorithmic c s then py.Raise py.AssertionError
  else
    let '(raw_value, w') :=
      TokenService_create a w ort (SessionId s) (refresh_token_expiration c) false
        None None in
    py.Ok (base64.urlsafe_b64encode raw_value, w').

(** [OpenIdConnectService.get_session_by_authorization_code]. *)
Definition get_session_by_authorization_code (c : Collaborators) (w : World)
    (code : string) (code_verifier : option string) : py.result SessionAdapter :=
  token_bytes <-? base64.urlsafe_b64decode code ;;
  token_data <-? TokenService_get w token_bytes oac ;;
  _ <-? match tk_cc token_data with
        | Some code_challenge =>
            evaluate_code_challenge c (tk_ccm token_data) code_challenge code_verifier
        | None => py.Ok tt
        end ;;
  if tk_sa token_data
  then deserialize_algorithmic c (tk_sid token_data)
  else SessionService_get w (tk_sid token_data).

(** [OpenIdConnectService.get_session_by_refresh_token]. *)
Definition get_session_by_refresh_token (w : World) (token_value : string)
    : py.result SessionAdapter * World :=
  match base64.urlsafe_b64decode token_value with
  | py.Raise e => (py.Raise e, w)
  | py.Ok token_bytes =>
      match TokenService_get w token_bytes ort with
      | py.Raise (py.KeyError _) =>
          (py.Raise (py.SessionNotFoundError "Invalid or expired access token"), w)
      | py.Raise e => (py.Raise e, w)
      | py.Ok token_data =>
          match SessionService_get w (tk_sid token_data) with
          | py.Raise (py.KeyError _) =>
              (py.Raise (py.SessionNotFoundError
                           "Refresh token points to a nonexistent session"),
               TokenService_delete_token w token_bytes)
          | py.Raise e => (py.Raise e, w)
          | py.Ok s => (py.Ok s, w)
          end
      end
  end.

(** [OpenIdConnectService.revoke_token]: the result is [None], or the
    exception that got through. *)
Definition revoke_token (w : World) (token : string) : py.result unit * World :=
  match get_session_by_access_token w token with
  | (py.Raise (py.SessionNotFoundError _), w) => (py.Ok tt, w)
  | (py.Raise e, w) => (py.Raise e, w)
  | (py.Ok s, w) => (py.Ok tt, SessionService_delete w (SessionId s))
  end.

(** The lookups of a refresh token, one after the other. *)
Fixpoint refresh_lookups (n : nat) (w : World) (token_value : string)
    : list (py.result SessionAdapter) :=
  match n with
  | O => []
  | S k =>
      let '(r, w') := get_session_by_refresh_token w token_value in
      r :: refresh_lookups k w' token_value
  end.

End oidc_tokens.

(** ** A sample token configuration *)

Module sample_tokens.
Import session app oidc oidc_tokens.

(** Client [app1] sets a session expiration of ten minutes, the others
    none; access tokens live for three minutes by default, refresh tokens
    for a day; no session is algorithmic; PKCE compares the verifier with
    the challenge as the [plain] method does. *)
Definition collaborators : Collaborators :=
  {| client_session_expiration := fun client_id =>
       match client_id with
       | Some id => py.Ok (if String.eqb id "app1" then Some 600%Z else None)
       | None => py.Raise (py.KeyError "None")
       end;
     access_token_expiration := 180;
     refresh_token_expiration := 86400;
     is_algorithmic := fun _ => false;
     evaluate_code_challenge := fun method challenge verifier =>
       if bool_decide (verifier = Some challenge) then py.Ok tt
       else py.Raise (py.ValueError "Code challenge failed");
     deserialize_algorithmic := fun text => py.Raise (py.ValueError text) |}.

(** Alice's OIDC session for [app1], over her root session, and the
    state in which it is stored. *)
Definition alice_session : SessionAdapter * World :=
  match create_oidc_session sample.the_app (sample.world_of sample.alice) sample.alice
          "app1" ["openid"; "profile"] py.PyNone py.PyNone None None with
  | py.Ok sw => sw
  | py.Raise _ => (sample.alice, sample.world_of sample.alice)
  end.
Definition alice_child : SessionAdapter := fst alice_session.
Definition alice_world : World := snd alice_session.

(** The same state with a refresh token [tok] that outlived its session. *)
Definition dangling_refresh_world : World :=
  {| sessions := sessions alice_world;
     tokens := {[ "tok" := {| tk_type := ort; tk_sid := "gone"; tk_expires_at := 100;
                              tk_cc := None; tk_ccm := None; tk_sa := false |} ]};
     audit := []; now := 0; minted := 1 |}.

(** An access token for Alice's OIDC session, and the state that holds
    it. *)
Definition alice_token : string * World :=
  match create_access_token sample.the_app collaborators alice_world alice_child with
  | py.Ok tw => tw
  | py.Raise _ => (EmptyString, alice_world)
  end.

End sample_tokens.

(** ** [TenantService] (tenant/service.py) *)

Module tenants.

(** *** [TenantNameRegex] *)

Definition TenantNameRegex_pattern : string := "^[a-zA-Z][a-zA-Z0-9._-]{2,31}$".

(** [[a-zA-Z]] *)
Definition is_letter (c : ascii) : bool :=
  let n := nat_of_ascii c in
  (Nat.leb 65 n && Nat.leb n 90) || (Nat.leb 97 n && Nat.leb n 122).

(** [[a-zA-Z0-9._-]] *)
Definition is_name_char (c : ascii) : bool :=
  let n := nat_of_ascii c in
  is_letter c || (Nat.leb 48 n && Nat.leb n 57)
  || Nat.eqb n 46 || Nat.eqb n 95 || Nat.eqb n 45.

(** [$] without [re.MULTILINE]: the end of the text, or the place before
    a newline that ends the text. *)
Definition at_end (s : string) : bool :=
  match s with
  | EmptyString => true
  | String c EmptyString => Nat.eqb (nat_of_ascii c) 10
  | String _ (String _ _) => false
  end.

(** [[a-zA-Z0-9._-]{lo,hi}$]: the repetition is greedy; it takes what it
    can and gives back one character at a time while [$] fails. *)
Fixpoint name_chars_then_end (lo hi : nat) (s : string) : bool :=
  let stop := Nat.eqb lo 0 && at_end s in
  match hi, s with
  | S hi', String c t =>
      if is_name_char c then name_chars_then_end (lo - 1) hi' t || stop else stop
  | _, _ => stop
  end.

(** [bool(TenantNameRegex.match(tenant_id))]. *)
Definition TenantNameRegex_match (tenant_id : string) : bool :=
  match tenant_id with
  | String c t => is_letter c && name_chars_then_end 2 31 t
  | EmptyString => false
  end.

(** A tenant name as the pattern is meant to be read: a letter, then 2
    to 31 letters, digits, dots, underscores or hyphens. *)
Definition is_tenant_name (s : string) : Prop :=
  exists (c : ascii) (body : string),
    s = String c body /\ is_letter c = true
    /\ 2 <= String.length body <= 31
    /\ urllib.all_chars is_name_char body = true.

Definition newline : string := String (ascii_of_nat 10) EmptyString.

(** *** The service *)

(** The values of the dictionaries the service answers with. *)
Inductive item :=
| Text (s : string)
| UUID (u : string)
| Data (d : py.dict string).

Definition reply : Type := py.dict item.

(** What [TenantsProvider.create] does: raises [DuplicateError], raises
    something else, or returns the id (or [None]). *)
Inductive created :=
| DuplicateError
| CreateRaised (e : py.exn)
| Created (tenant_id : option string).

Section service.
(** The provider's stored state, and the session object of the caller. *)
Variables P S : Type.

Record Provider := {
  create : P -> string -> option string -> created * P;
  (* TenantsProvider.get(tenant): KeyError for an unknown tenant *)
  get : P -> string -> py.result unit;
  (* obj['t'] for obj in iterate_assigned(credentials_id) *)
  iterate_assigned : P -> string -> list string;
  (* data["result"] of assign_tenant and unassign_tenant *)
  assign_tenant : P -> string -> string -> py.result string * P;
  unassign_tenant : P -> string -> string -> py.result string * P }.

Record Service := {
  TenantsProvider : option Provider;
  (* CredentialsService.detail(credentials_id) *)
  detail : string -> py.result unit;
  (* RBACService.has_resource_access(authz, tenant, resources) *)
  has_resource_access : py.dict (list string) -> string -> list string -> string;
  (* session.Authz and session.CredentialsId *)
  Authz : S -> py.result (py.dict (list string));
  CredentialsId : S -> py.result string;
  (* the order in which CPython iterates a set with these members *)
  iteration : list string -> list string }.

(** [TenantService.create_tenant]; [euid] is the [uuid.uuid4()] drawn
    where the code draws one. *)
Definition create_tenant (prov : Provider) (p : P) (euid : string)
    (tenant_id : string) (creator_id : option string) : py.result reply * P :=
  if negb (TenantNameRegex_match tenant_id) then
    (py.Ok [("result", Text "INVALID-VALUE"); ("uuid", UUID euid);
            ("message",
             Text (py.cat "Tenant ID must match the pattern '"
                     (py.cat TenantNameRegex_pattern "'")))], p)
  else
    match create prov p tenant_id creator_id with
    | (DuplicateError, p') =>
        (py.Ok [("result", Text "CONFLICT"); ("uuid", UUID euid);
                ("message",
                 Text (py.cat "A tenant with the name '"
                         (py.cat tenant_id "' already exists.")))], p')
    | (CreateRaised e, p') => (py.Raise e, p')
    | (Created None, p') => (py.Ok [("result", Text "FAILED"); ("uuid", UUID euid)], p')
    | (Created (Some new_id), p') =>
        (py.Ok [("result", Text "OK"); ("id", Text new_id)], p')
    end.

(** [TenantService.get_tenants]. *)
Definition get_tenants (svc : Service) (p : P) (credentials_id : string)
    : py.result (list string) :=
  match TenantsProvider svc with
  | None => py.Raise py.AssertionError
  | Some prov => py.Ok (iterate_assigned prov p credentials_id)
  end.

(** One round of the checking loop of [set_tenants]: [Ok None] lets the
    loop go on, [Ok (Some r)] is the reply the method returns with. *)
Definition check_tenant (svc : Service) (prov : Provider) (p : P) (session : S)
    (tenant : string) : py.result (option reply) :=
  match get prov p tenant with
  | py.Raise (py.KeyError _) =>
      py.Ok (Some [("result", Text "NOT-FOUND"); ("message", Text "Tenant not found")])
  | py.Raise e => py.Raise e
  | py.Ok _ =>
      authz <-? Authz svc session ;;
      if negb (String.eqb (has_resource_access svc authz tenant ["authz:tenant:admin"]) "OK")
      then
        _ <-? CredentialsId svc session ;;
        py.Ok (Some [("result", Text "NOT-AUTHORIZED");
                     ("message", Text "Not authorized for tenant un/assignment");
                     ("error_data", Data [("tenant", tenant)])])
      else py.Ok None
  end.

Fixpoint check_tenants (svc : Service) (prov : Provider) (p : P) (session : S)
    (tenants : list string) : py.result (option reply) :=
  match tenants with
  | [] => py.Ok None
  | tenant :: rest =>
      match check_tenant svc prov p session tenant with
      | py.Ok None => check_tenants svc prov p session rest
      | answer => answer
      end
  end.

(** The two loops that assign and unassign: the result of each call is
    only counted, an exception ends the method. *)
Fixpoint apply_each (change : P -> string -> string -> py.result string * P) (p : P)
    (credentials_id : string) (tenants : list string) : py.result unit * P :=
  match tenants with
  | [] => (py.Ok tt, p)
  | tenant :: rest =>
      match change p credentials_id tenant with
      | (py.Ok _, p') => apply_each change p' credentials_id rest
      | (py.Raise e, p') => (py.Raise e, p')
      end
  end.

(** [TenantService.set_tenants]. *)
Definition set_tenants (svc : Service) (p : P) (session : S) (credentials_id : string)
    (tenants : list string) : py.result reply * P :=
  match TenantsProvider svc with
  | None => (py.Raise py.AssertionError, p)
  | Some prov =>
      match detail svc credentials_id with
      | py.Raise (py.KeyError _) =>
          (py.Ok [("result", Text "NOT-FOUND"); ("message", Text "Credentials not found")], p)
      | py.Raise e => (py.Raise e, p)
      | py.Ok _ =>
          let existing_tenants := py.set_of (iterate_assigned prov p credentials_id) in
          let new_tenants := py.set_of tenants in
          let tenants_to_assign := oidc.subtract new_tenants existing_tenants in
          let tenants_to_unassign := oidc.subtract existing_tenants new_tenants in
          match check_tenants svc prov p session
                  (iteration svc (py.set_update tenants_to_assign tenants_to_unassign)) with
          | py.Raise e => (py.Raise e, p)
          | py.Ok (Some answer) => (py.Ok answer, p)
          | py.Ok None =>
              match apply_each (assign_tenant prov) p credentials_id
                      (iteration svc tenants_to_assign) with
              | (py.Raise e, p') => (py.Raise e, p')
              | (py.Ok _, p') =>
                  match apply_each (unassign_tenant prov) p' credentials_id
                          (iteration svc tenants_to_unassign) with
                  | (py.Raise e, p'') => (py.Raise e, p'')
                  | (py.Ok _, p'') => (py.Ok [("result", Text "OK")], p'')
                  end
              end
          end
      end
  end.

End service.

Arguments create {P}.
Arguments get {P}.
Arguments iterate_assigned {P}.
Arguments assign_tenant {P}.
Arguments unassign_tenant {P}.
Arguments TenantsProvider {P S}.
Arguments detail {P S}.
Arguments has_resource_access {P S}.
Arguments Authz {P S}.
Arguments CredentialsId {P S}.
Arguments iteration {P S}.
Arguments create_tenant {P}.
Arguments get_tenants {P S}.
Arguments check_tenant {P S}.
Arguments check_tenants {P S}.
Arguments apply_each {P}.
Arguments set_tenants {P S}.

End tenants.

(** ** A sample tenant provider *)

Module sample_tenants.
Import tenants.

(** The tenants that exist, and who is assigned to which. *)
Record store := {
  names : list string;
  assignments : list (string * string) }.

Definition provider : Provider store :=
  {| create := fun p tenant_id _ =>
       if py.mem tenant_id (names p) then (DuplicateError, p)
       else (Created (Some tenant_id),
             {| names := names p ++ [tenant_id]; assignments := assignments p |});
     get := fun p tenant =>
       if py.mem tenant (names p) then py.Ok tt else py.Raise (py.KeyError tenant);
     iterate_assigned := fun p credentials_id =>
       map snd (filter (fun a => String.eqb (fst a) credentials_id = true) (assignments p));
     assign_tenant := fun p credentials_id tenant =>
       (py.Ok "OK",
        {| names := names p;
           assignments := assignments p ++ [(credentials_id, tenant)] |});
     unassign_tenant := fun p credentials_id tenant =>
       (py.Ok "OK",
        {| names := names p;
           assignments :=
             filter (fun a => negb (String.eqb (fst a) credentials_id
                                    && String.eqb (snd a) tenant) = true)
                    (assignments p) |}) |}.

(** Sets are iterated in the order they were built in; a session may
    change the assignments of a tenant when its [authz] holds
    [authz:tenant:admin] for that tenant. *)
Definition service : Service store session.SessionAdapter :=
  {| TenantsProvider := Some provider;
     detail := fun _ => py.Ok tt;
     has_resource_access := fun authz tenant resources =>
       match py.dict_get authz tenant with
       | Some granted =>
           if forallb (fun r => py.mem r granted) resources then "OK" else "NOT-AUTHORIZED"
       | None => "NOT-AUTHORIZED"
       end;
     Authz := fun s => py.Ok (session.Authz (session.Authorization s));
     CredentialsId := fun s => py.Ok (session.Id (session.Credentials s));
     iteration := fun l => l |}.

(** Two tenants; Alice is assigned to the first. *)
Definition two_tenants : store :=
  {| names := ["acme"; "globex"]; assignments := [("alice", "acme")] |}.

(** A session of an administrator of [acme] only. *)
Definition acme_admin : session.SessionAdapter :=
  sample.root_of "bob" [("*", []); ("acme", ["authz:tenant:admin"])] None.

End sample_tenants.

(** ** [RegistrationService] (credentials/registration/service.py) *)

Module registration.

(** A credentials provider, as far as the service reads it:
    [provider.ProviderID] and [provider.Config.getboolean("registration")]. *)
Record Provider := {
  ProviderID : string;
  registration_enabled : bool }.

(** The two provider tables of the credentials service that the method
    reads, and the configured lifetime of an invitation in seconds. *)
Record Service := {
  Providers : py.dict Provider;
  CredentialProviders : py.dict Provider;
  InviteExpiration : Z }.

(** A document of the collection [rg], which is kept by document id;
    [t] and [i] are set only when given.  The key [__k] is encrypted when
    written and decrypted when read; the record holds the key itself.
    Times are in the resolution of the storage. *)
Record RegistrationToken := {
  rt_p : string;
  rt_f : py.dict py.value;
  rt_k : string;
  rt_t : option string;
  rt_i : option string;
  rt_exp : Z }.

(** What a call ends with besides a result: a Python exception, or the
    storage's [DuplicateError]. *)
Inductive failure :=
| Python (e : py.exn)
| DuplicateError (obj_id : string).

(** [RegistrationService.get_provider]. *)
Definition get_provider (svc : Service) (provider_id : option string)
    : py.result (option Provider) :=
  match provider_id with
  | Some id =>
      match py.dict_get (Providers svc) id with
      | Some provider =>
          py.Ok (if registration_enabled provider then Some provider else None)
      | None => py.Raise (py.AttributeError "'NoneType' object has no attribute 'Config'")
      end
  | None =>
      py.Ok (head (filter (fun provider => registration_enabled provider = true)
                     (map snd (CredentialProviders svc))))
  end.

(** [upsertor.execute()] of an upsertor made for a given id and version 0:
    the document is inserted; an id that is taken is a [DuplicateError]. *)
Definition upsertor_execute (rg : gmap string RegistrationToken) (obj_id : string)
    (doc : RegistrationToken) : failure + gmap string RegistrationToken :=
  match rg !! obj_id with
  | Some _ => inl (DuplicateError obj_id)
  | None => inr (<[obj_id := doc]> rg)
  end.

(** [RegistrationService.create_registration_token]; [registration_token]
    and [key] are the random values it draws, [now] is the clock. *)
Definition create_registration_token (svc : Service) (rg : gmap string RegistrationToken)
    (now : Z) (registration_token key : string) (features : py.dict py.value)
    (provider_id tenant issued_by : option string)
    : failure + (string * gmap string RegistrationToken) :=
  match get_provider svc provider_id with
  | py.Raise e => inl (Python e)
  | py.Ok None => inl (Python py.AssertionError)
  | py.Ok (Some provider) =>
      let doc := {| rt_p := ProviderID provider; rt_f := features; rt_k := key;
                    rt_t := tenant; rt_i := issued_by;
                    rt_exp := (now + InviteExpiration svc)%Z |} in
      match upsertor_execute rg registration_token doc with
      | inl e => inl e
      | inr rg' => inr (registration_token, rg')
      end
  end.

(** [RegistrationService.get_registration_token]. *)
Definition get_registration_token (rg : gmap string RegistrationToken) (token : string)
    : py.result RegistrationToken :=
  match rg !! token with
  | Some doc => py.Ok doc
  | None => py.Raise (py.KeyError token)
  end.

(** [RegistrationService.delete_expired_registration_tokens]:
    [delete_many({"exp": {"$lt": now}})]. *)
Definition delete_expired_registration_tokens (rg : gmap string RegistrationToken)
    (now : Z) : gmap string RegistrationToken :=
  filter (fun kv => ~ (rt_exp (snd kv) < now)%Z) rg.

End registration.

(** ** A sample registration service *)

Module sample_registration.
Import registration.

(** Two providers; only the second one allows registration. *)
Definition service : Service :=
  {| Providers :=
       [("ldap", {| ProviderID := "ldap"; registration_enabled := false |});
        ("mongo", {| ProviderID := "mongo"; registration_enabled := true |})];
     CredentialProviders :=
       [("ldap", {| ProviderID := "ldap"; registration_enabled := false |});
        ("mongo", {| ProviderID := "mongo"; registration_enabled := true |})];
     InviteExpiration := 3600 |}.

End sample_registration.

(** * Properties *)

(** ** Text *)

Section text.

Lemma cat_assoc (s1 s2 s3 : string) :
  py.cat (py.cat s1 s2) s3 = py.cat s1 (py.cat s2 s3).
Proof.
  induction s1 as [|c s1 IH]; [reflexivity|].
  change (String c (py.cat (py.cat s1 s2) s3) = String c (py.cat s1 (py.cat s2 s3))).
  now f_equal.
Qed.

Lemma cat_empty_r (s : string) : py.cat s EmptyString = s.
Proof.
  induction s as [|c s IH]; [reflexivity|].
  change (String c (py.cat s EmptyString) = String c s). now f_equal.
Qed.

Lemma Ok_inj {A : Type} (x y : A) : py.Ok x = py.Ok y -> x = y.
Proof. intros H. now injection H. Qed.

End text.

(** ** Access tokens that point at no session *)

Section access_token_lookup.
Import session app oidc.

Lemma TokenService_get_absent (w : World) (token_bytes : string) (ty : token_type) :
  tokens w !! token_bytes = None ->
  TokenService_get w token_bytes ty = py.Raise (py.KeyError token_bytes).
Proof. intros Habsent. unfold TokenService_get. now rewrite Habsent. Qed.

Lemma lookup_of_absent_token (w : World) (token_value token_bytes : string) :
  base64.urlsafe_b64decode token_value = py.Ok token_bytes ->
  tokens w !! token_bytes = None ->
  get_session_by_access_token w token_value
  = (py.Raise (py.SessionNotFoundError "Invalid or expired access token"), w).
Proof.
  intros Hdec Habsent. unfold get_session_by_access_token.
  rewrite Hdec, (TokenService_get_absent _ _ _ Habsent). reflexivity.
Qed.

Lemma lookups_of_absent_token (token_value token_bytes : string) :
  base64.urlsafe_b64decode token_value = py.Ok token_bytes ->
  forall (n : nat) (w : World),
    tokens w !! token_bytes = None ->
    Forall (fun r => r = py.Raise (py.SessionNotFoundError "Invalid or expired access token"))
           (lookups n w token_value).
Proof.
  intros Hdec n. induction n as [|n IH]; intros w Habsent; simpl.
  - constructor.
  - rewrite (lookup_of_absent_token _ _ _ Hdec Habsent).
    constructor; [reflexivity | now apply IH].
Qed.

(** C10.  When the lookup of an access token finds a record that is valid,
    of the access-token type and not expired, but whose session is not in
    the session store, [get_session_by_access_token] fails with
    [SessionNotFoundError] and leaves a state in which the token record is
    deleted (and nothing else changed); any number of later lookups of the
    same token value then fail with [SessionNotFoundError] too. *)
Theorem dangling_access_token_is_deleted
    (w : World) (token_value token_bytes : string) (t : Token) :
  base64.urlsafe_b64decode token_value = py.Ok token_bytes ->
  TokenService_get w token_bytes oat = py.Ok t ->
  sessions w !! tk_sid t = None ->
  exists w' : World,
    get_session_by_access_token w token_value
    = (py.Raise (py.SessionNotFoundError "Access token points to a nonexistent session"), w')
    /\ tokens w' = delete token_bytes (tokens w)
    /\ sessions w' = sessions w
    /\ forall n : nat,
         Forall (fun r => exists msg, r = py.Raise (py.SessionNotFoundError msg))
                (lookups n w' token_value).
Proof.
  intros Hdec Hget Hsession.
  exists (TokenService_delete_token w token_bytes).
  split; [| split; [reflexivity | split; [reflexivity |]]].
  - unfold get_session_by_access_token.
    rewrite Hdec, Hget. unfold SessionService_get. now rewrite Hsession.
  - intros n.
    eapply Forall_impl.
    + apply (lookups_of_absent_token _ _ Hdec). simpl. apply lookup_delete_eq.
    + intros r ->. eauto.
Qed.

Lemma dangling_access_token_witness :
  exists w' : World,
    get_session_by_access_token sample.dangling_world "dG9r"
    = (py.Raise (py.SessionNotFoundError "Access token points to a nonexistent session"), w')
    /\ tokens w' = delete "tok" (tokens sample.dangling_world)
    /\ sessions w' = sessions sample.dangling_world
    /\ forall n : nat,
         Forall (fun r => exists msg, r = py.Raise (py.SessionNotFoundError msg))
                (lookups n w' "dG9r").
Proof.
  apply (dangling_access_token_is_deleted sample.dangling_world "dG9r" "tok"
           {| tk_type := oat; tk_sid := "gone"; tk_expires_at := 100;
              tk_cc := None; tk_ccm := None; tk_sa := false |});
    vm_compute; reflexivity.
Defined.

End access_token_lookup.

(** ** LDAP connections *)

Section ldap_connections.
Import ldap.

Lemma unbinds_app (t1 t2 : list event) :
  unbinds (t1 ++ t2) = unbinds t1 || unbinds t2.
Proof. unfold unbinds. apply existsb_app. Qed.

Lemma closes_after_bind_snoc (t : list event) :
  closes_after_bind (t ++ [Unbound]) = true.
Proof.
  induction t as [|e t IH]; simpl; [reflexivity|].
  destruct e; try exact IH.
  rewrite unbinds_app, IH. simpl. now rewrite orb_true_r.
Qed.

(** Whatever the body of the [with] block does, a connection that
    [_ldap_client] bound is unbound when the block is left. *)
Lemma _ldap_client_closes {A : Type} (p : Provider) (srv : Server)
    (body : list event * py.result A) :
  closes_after_bind (fst (_ldap_client p srv body)) = true.
Proof.
  unfold _ldap_client.
  destruct (tls_setup p); [|reflexivity].
  destruct (simple_bind_s srv _ _); [reflexivity|].
  cbn [fst]. rewrite app_assoc. apply closes_after_bind_snoc.
Qed.

(** What [_authenticate_worker] does when the directory refuses the
    password. *)
Lemma authenticate_worker_refused (p : Provider) (srv : Server)
    (credentials_id dn : string) (password : option string) :
  base64.urlsafe_b64decode (py.drop (String.length (Prefix p)) credentials_id) = py.Ok dn ->
  utf8.valid dn = true ->
  tls_setup p = py.Ok tt ->
  simple_bind_s srv dn password = Some INVALID_CREDENTIALS ->
  _authenticate_worker p srv credentials_id password
  = ([Initialize; BindFailed dn], py.Ok false).
Proof.
  intros Hdn Hvalid Htls Hbind. unfold _authenticate_worker, utf8.decode.
  rewrite Hdn. cbn [py.bind]. now rewrite Hvalid, Htls, Hbind.
Qed.

(** C9 (where the code departs from it).  Alice's credentials id with a
    wrong password: the worker creates the client, the bind is refused with
    [INVALID_CREDENTIALS], and the worker returns [False] without a call of
    [unbind_s()]; with the right password it binds and unbinds. *)
Theorem authenticate_refused_never_unbinds :
  let credentials_id := "ldap:Y249YWxpY2UsZGM9ZXhhbXBsZSxkYz1vcmc=" in
  let refused :=
    _authenticate_worker sample.provider sample.directory credentials_id (Some "wrong") in
  let accepted :=
    _authenticate_worker sample.provider sample.directory credentials_id (Some "secret") in
  refused = ([Initialize; BindFailed "cn=alice,dc=example,dc=org"], py.Ok false)
  /\ unbinds (fst refused) = false
  /\ accepted = ([Initialize; Bound "cn=alice,dc=example,dc=org"; Unbound], py.Ok true).
Proof.
  cbv zeta.
  rewrite (authenticate_worker_refused sample.provider sample.directory _
             "cn=alice,dc=example,dc=org" (Some "wrong"));
    [| vm_compute; reflexivity ..].
  repeat split; vm_compute; reflexivity.
Qed.

End ldap_connections.

(** ** Stripping the session cookie from the [Cookie] header *)

Section cookie_stripping.
Import app web cookie.

Lemma after_literal_cat (p s : string) : after_literal p (py.cat p s) = Some s.
Proof.
  induction p as [|c p IH]; simpl; [now destruct s|].
  now rewrite Ascii.eqb_refl.
Qed.

Lemma has_char_cat (c : ascii) (s1 s2 : string) :
  urllib.has_char c (py.cat s1 s2) = urllib.has_char c s1 || urllib.has_char c s2.
Proof.
  induction s1 as [|a s1 IH]; simpl; [reflexivity|].
  rewrite IH. now rewrite orb_assoc.
Qed.

Lemma after_value_no_semicolon (s : string) :
  urllib.has_char ";" s = false -> after_value s = EmptyString.
Proof.
  induction s as [|a s IH]; simpl; [reflexivity|].
  intros H. apply orb_false_iff in H as [Ha Hs].
  rewrite Ha. now apply IH.
Qed.

Lemma match_second_no_semicolon (name s : string) :
  urllib.has_char ";" s = false -> match_second name s = None.
Proof.
  destruct s as [|a s]; simpl; [reflexivity|].
  intros H. apply orb_false_iff in H as [Ha _].
  now rewrite Ha.
Qed.

(** Past the start of the header, a text without [;] holds no match. *)
Lemma sub_scan_no_semicolon (name : string) (fuel : nat) (s : string) :
  urllib.has_char ";" s = false -> sub_scan fuel name false s = s.
Proof.
  revert s. induction fuel as [|fuel IH]; intros s H; simpl; [reflexivity|].
  destruct s as [|a s]; [reflexivity|].
  unfold match_here. rewrite (match_second_no_semicolon name _ H).
  simpl in H. apply orb_false_iff in H as [_ Hs].
  now rewrite (IH s Hs).
Qed.

Lemma sub_scan_step (name : string) (fuel : nat) (b : bool) (c : ascii) (t : string) :
  sub_scan (S fuel) name b (String c t)
  = match match_here name b (String c t) with
    | Some rest => sub_scan fuel name false rest
    | None => String c (sub_scan fuel name false t)
    end.
Proof. reflexivity. Qed.

(** A header that is the session cookie alone, [name=value], is returned
    unchanged: the first alternative of the pattern wants a [;] after the
    value and the second one a [;] before the name. *)
Lemma sole_cookie_survives (name value : string) :
  urllib.has_char ";" name = false ->
  urllib.has_char ";" value = false ->
  CookiePattern_sub name (py.cat name (py.cat "=" value))
  = py.cat name (py.cat "=" value).
Proof.
  intros Hname Hvalue.
  assert (Hall : urllib.has_char ";" (py.cat name (py.cat "=" value)) = false).
  { rewrite !has_char_cat, Hname, Hvalue. reflexivity. }
  unfold CookiePattern_sub.
  destruct (py.cat name (py.cat "=" value)) as [|a s] eqn:Hs; [reflexivity|].
  rewrite sub_scan_step.
  unfold match_here, match_first.
  replace (String a s) with (py.cat (py.cat name "=") value) at 1.
  2:{ rewrite <- Hs. apply cat_assoc. }
  rewrite after_literal_cat, (after_value_no_semicolon _ Hvalue).
  rewrite (match_second_no_semicolon name _ Hall).
  simpl in Hall. apply orb_false_iff in Hall as [_ Hrest].
  now rewrite (sub_scan_no_semicolon name _ _ Hrest).
Qed.

(** C7 (where the code departs from it).  The browser holds the session
    cookie and no other: introspection succeeds for Alice's session, and the
    [Cookie] header handed to the proxy is the incoming one, session cookie
    included; parsed again it still yields the session cookie id. *)
Theorem sole_session_cookie_reaches_upstream :
  let header := "SeaCatSCI=auth.test:YWJj" in
  fst (sample.introspect header)
  = py.Ok {| status := 200;
             headers := [("Authorization", "Bearer token1"); ("Cookie", header)];
             cookies := [] |}
  /\ CookiePattern_sub "SeaCatSCI" header = header
  /\ scan_cookies (H := http_cookies.basic) sample.the_app (py.split ";" header)
     = py.Ok (Some "abc").
Proof.
  cbv zeta. split; [| split].
  - vm_compute. reflexivity.
  - apply (sole_cookie_survives "SeaCatSCI" "auth.test:YWJj"); reflexivity.
  - vm_compute. reflexivity.
Qed.

End cookie_stripping.

(** ** Impersonated sessions *)

Section impersonation.
Import session app oidc.

Lemma subtract_excludes (resources exclude : list string) (r : string) :
  r ∈ exclude -> r ∉ subtract resources exclude.
Proof.
  intros Hin Hsub. unfold subtract in Hsub.
  apply list_elem_of_filter in Hsub as [Hmem _].
  unfold py.mem in Hmem. now rewrite bool_decide_eq_false in Hmem.
Qed.

Lemma all_values_dict_set {V : Type} (P : V -> Prop) (d : py.dict V) (k : string) (v : V) :
  py.all_values P d -> P v -> py.all_values P (py.dict_set d k v).
Proof.
  intros Hd Hv. induction d as [|[k0 v0] d IH]; simpl.
  - intros k' v' Hin. apply list_elem_of_singleton in Hin. now inversion Hin; subst.
  - destruct (String.eqb k0 k).
    + intros k' v' Hin. apply elem_of_cons in Hin as [Heq | Hin].
      * now inversion Heq; subst.
      * apply (Hd k' v'). now right.
    + intros k' v' Hin. apply elem_of_cons in Hin as [Heq | Hin].
      * apply (Hd k' v'). rewrite Heq. now left.
      * apply IH with (k := k'); [|exact Hin].
        intros k'' v'' Hin'. apply (Hd k'' v''). now right.
Qed.

(** No resource of [exclude_resources] survives in the [authz] map that
    the resolver builds. *)
Lemma build_credentials_authz_excludes (a : App) (credentials_id : string)
    (tenants : option (list string)) (exclude : list string) :
  py.all_values (fun resources => forall r, r ∈ exclude -> r ∉ resources)
             (build_credentials_authz a credentials_id tenants exclude).
Proof.
  unfold build_credentials_authz.
  generalize (default [] tenants). intros ts.
  assert (Hbase : py.all_values (fun resources => forall r, r ∈ exclude -> r ∉ resources)
                    [("*", subtract (role_resources a credentials_id "*") exclude)]).
  { intros k v Hin. apply list_elem_of_singleton in Hin. inversion Hin; subst.
    intros r. apply subtract_excludes. }
  revert Hbase.
  generalize [("*", subtract (role_resources a credentials_id "*") exclude)].
  induction ts as [|t ts IH]; intros d Hd; simpl; [exact Hd|].
  apply IH. apply all_values_dict_set; [exact Hd|].
  intros r. apply subtract_excludes.
Qed.

Lemma excluded_authz_has_no_critical_grants (a : App) (credentials_id : string)
    (tenants : option (list string)) (s : SessionAdapter) :
  Authz (Authorization s)
  = build_credentials_authz a credentials_id tenants impersonation_excluded ->
  no_critical_grants s.
Proof.
  intros Hauthz k resources Hin. rewrite Hauthz in Hin.
  pose proof (build_credentials_authz_excludes a credentials_id tenants
                impersonation_excluded k resources Hin) as Hex.
  split; apply Hex; unfold impersonation_excluded; set_solver.
Qed.

Lemma apply_item_keeps_authz (s : SessionAdapter) (b : builder_item) :
  keeps_authz b = true ->
  Authz (Authorization (apply_item s b)) = Authz (Authorization s).
Proof. destruct b; simpl; intros H; try reflexivity; discriminate. Qed.

Lemma apply_items_keep_authz (items : list builder_item) (s : SessionAdapter) :
  forallb keeps_authz items = true ->
  Authz (Authorization (foldl apply_item s items)) = Authz (Authorization s).
Proof.
  revert s. induction items as [|b items IH]; intros s H; simpl; [reflexivity|].
  simpl in H. apply andb_true_iff in H as [Hb Hitems].
  rewrite (IH _ Hitems). now apply apply_item_keeps_authz.
Qed.

(** The authorization written by the two leading builders is what the
    session ends with, whatever builders follow that keep [authz]. *)
Lemma authz_after_builders (s0 : SessionAdapter) (c : CredentialsT)
    (authz : py.dict (list string)) (assigned : list string)
    (rest : list (list builder_item)) :
  forallb keeps_authz (concat rest) = true ->
  Authz (Authorization
           (apply_builders s0
              ([[FN_Credentials c];
                [FN_Authorization_Authz authz; FN_Authorization_AssignedTenants assigned]]
               ++ rest)))
  = authz.
Proof.
  intros Hrest. unfold apply_builders.
  rewrite concat_app, foldl_app.
  now rewrite (apply_items_keep_authz _ _ Hrest).
Qed.

End impersonation.

Section impersonated_sessions.
Import session app oidc.

Lemma create_session_stores (a : App) (w : World) (ty : string) (parent : option string)
    (exp : option Z) (builders : list (list builder_item)) (s : SessionAdapter) (w' : World) :
  SessionService_create_session a w ty parent exp builders = (s, w') ->
  s = apply_builders (blank (entropy a (minted w)) ty parent exp) builders
  /\ sessions w' = <[entropy a (minted w) := s]> (sessions w)
  /\ tokens w' = tokens w.
Proof.
  unfold SessionService_create_session. intros H. inversion H; subst. auto.
Qed.

(** C8.  When the root session carries an impersonator session id, the
    session that [create_oidc_session] creates and the session that
    [refresh_session] rebuilds from that root session have an [authz] map
    in which no entry, for any tenant or for ["*"], holds [authz:superuser]
    or [authz:impersonate]. *)
Theorem impersonated_session_has_no_critical_grants
    (a : App) (w : World) (root_session : SessionAdapter) (impersonator : string) :
  ImpersonatorSessionId (Authentication root_session) = Some impersonator ->
  (forall client_id scope nonce redirect_uri tenants requested_expiration s w',
      create_oidc_session a w root_session client_id scope nonce redirect_uri tenants
        requested_expiration = py.Ok (s, w') ->
      no_critical_grants s)
  /\ (forall child requested_scope s w',
        ParentSessionId child = Some (SessionId root_session) ->
        sessions w !! SessionId root_session = Some root_session ->
        refresh_session a w child requested_scope = py.Ok (s, w') ->
        no_critical_grants s).
Proof.
  intros Himp. split.
  - intros client_id scope nonce redirect_uri tenants exp s w' Hcreate.
    unfold create_oidc_session, exclude_resources_of, credentials_session_builder,
      authz_session_builder in Hcreate.
    rewrite Himp in Hcreate.
    destruct (credentials_get a _) as [doc|]; [|discriminate].
    destruct (TenantService_get_tenants a _) as [user_tenants|]; [|discriminate].
    cbn [py.bind] in Hcreate.
    set (lead := [[FN_Credentials _]; [FN_Authorization_Authz _; _]]) in Hcreate.
    assert (Hshape : exists rest,
               forallb keeps_authz (concat rest) = true
               /\ SessionService_create_session a w "openidconnect"
                    (Some (SessionId root_session)) exp (lead ++ rest) = (s, w')).
    { destruct (wants_authn_info scope), (py.mem "batman" scope);
        [destruct (basic_auth a root_session); [|discriminate] | |
         destruct (basic_auth a root_session); [|discriminate] | ];
        cbn [py.bind] in Hcreate;
        destruct (TrackId root_session);
        rewrite <- ?app_assoc in Hcreate;
        apply Ok_inj in Hcreate;
        (eexists; split; [| exact Hcreate]);
        reflexivity. }
    destruct Hshape as (rest & Hrest & Hp).
    apply create_session_stores in Hp as (-> & _ & _).
    eapply excluded_authz_has_no_critical_grants.
    subst lead. apply (authz_after_builders _ _ _ _ _ Hrest).
  - intros child requested_scope s w' Hparent Hroot Hrefresh.
    unfold refresh_session in Hrefresh.
    rewrite Hparent in Hrefresh. unfold SessionService_get in Hrefresh.
    rewrite Hroot in Hrefresh. cbn [py.bind] in Hrefresh.
    destruct (match requested_scope with Some _ => _ | None => _ end)
      as [granted_scope|]; [|discriminate].
    cbn [py.bind] in Hrefresh.
    unfold exclude_resources_of, credentials_session_builder, authz_session_builder
      in Hrefresh.
    rewrite Himp in Hrefresh.
    destruct (get_accessible_tenant_from_scope a _ _ _) as [authorized_tenant|];
      [|discriminate].
    cbn [py.bind] in Hrefresh.
    destruct (credentials_get a _) as [doc|]; [|discriminate].
    destruct (TenantService_get_tenants a _) as [user_tenants|]; [|discriminate].
    cbn [py.bind] in Hrefresh.
    set (lead := [[FN_Credentials _]; [FN_Authorization_Authz _; _]]) in Hrefresh.
    assert (Hshape : exists rest,
               forallb keeps_authz (concat rest) = true
               /\ SessionService_update_session w (SessionId child) (lead ++ rest)
                  = py.Ok (s, w')).
    { destruct (wants_authn_info granted_scope), (py.mem "batman" granted_scope);
        [destruct (basic_auth a root_session); [|discriminate] | |
         destruct (basic_auth a root_session); [|discriminate] | ];
        cbn [py.bind] in Hrefresh;
        rewrite <- ?app_assoc in Hrefresh;
        (eexists; split; [| exact Hrefresh]);
        reflexivity. }
    destruct Hshape as (rest & Hrest & Hupdate).
    unfold SessionService_update_session in Hupdate.
    destruct (sessions w !! SessionId child) as [s0|]; [|discriminate].
    inversion Hupdate; subst.
    eapply excluded_authz_has_no_critical_grants.
    subst lead. apply (authz_after_builders _ _ _ _ _ Hrest).
Qed.

Lemma impersonated_session_witness :
  exists s w',
    create_oidc_session sample.the_app (sample.world_of sample.impersonated)
      sample.impersonated "app1" ["openid"; "tenant:tenant1"] py.PyNone py.PyNone
      (Some ["tenant1"]) None = py.Ok (s, w')
    /\ role_resources sample.the_app "root" "*"
       = ["authz:superuser"; "authz:impersonate"; "my:resource"]
    /\ Authz (Authorization s) = [("*", ["my:resource"]); ("tenant1", ["my:resource"])]
    /\ no_critical_grants s.
Proof.
  eexists _, _. split; [reflexivity|]. split; [reflexivity|]. split; [reflexivity|].
  apply (proj1 (impersonated_session_has_no_critical_grants sample.the_app
                  (sample.world_of sample.impersonated) sample.impersonated
                  "root-operator" eq_refl)
           "app1" ["openid"; "tenant:tenant1"] py.PyNone py.PyNone (Some ["tenant1"]) None
           _ _ eq_refl).
Defined.

End impersonated_sessions.

(** ** The authorize endpoint *)

Section authorize_replies.
Import session app web authorize.

(** The encoded error parameters: [error], [error_description], then the
    echoed [state]. *)
Lemma error_query_text (error : urllib.scalar) (description : string)
    (state : option string) :
  urllib.urlencode
    match state with
    | Some st =>
        py.dict_set
          (py.dict_set [("error", error)] "error_description" (urllib.Str description))
          "state" (urllib.Str st)
    | None => py.dict_set [("error", error)] "error_description" (urllib.Str description)
    end
  = py.cat "error=" (py.cat (urllib.quote_plus (urllib.str_of error))
      (py.cat "&error_description=" (py.cat (urllib.quote_plus description)
        (state_suffix state)))).
Proof.
  destruct state as [st|].
  - change (py.cat (py.cat "error" (py.cat "=" (urllib.quote_plus (urllib.str_of error))))
              (py.cat "&" (py.cat
                 (py.cat "error_description" (py.cat "=" (urllib.quote_plus description)))
                 (py.cat "&" (py.cat "state" (py.cat "=" (urllib.quote_plus st))))))
            = py.cat "error=" (py.cat (urllib.quote_plus (urllib.str_of error))
                (py.cat "&error_description=" (py.cat (urllib.quote_plus description)
                  (py.cat "&state=" (urllib.quote_plus st)))))).
    rewrite !cat_assoc. reflexivity.
  - change (py.cat (py.cat "error" (py.cat "=" (urllib.quote_plus (urllib.str_of error))))
              (py.cat "&"
                 (py.cat "error_description" (py.cat "=" (urllib.quote_plus description))))
            = py.cat "error=" (py.cat (urllib.quote_plus (urllib.str_of error))
                (py.cat "&error_description=" (py.cat (urllib.quote_plus description)
                  EmptyString)))).
    rewrite !cat_assoc, cat_empty_r. reflexivity.
Qed.

(** What [HTTPFound] makes of a location: a 302 that sets no cookie, with
    the headers it was given and the [Location] that yarl writes for the
    URL; the error of yarl when it rejects the URL. *)
Lemma HTTPFound_sent {Y : yarl.Url} (location sent : string) (hdrs : py.dict string) :
  urllib.nonempty location = true ->
  yarl.URL_str location = py.Ok sent ->
  HTTPFound location hdrs
  = py.Ok {| status := 302; headers := py.dict_set hdrs "Location" sent; cookies := [] |}.
Proof. intros Hlocation Hsent. unfold HTTPFound. now rewrite Hlocation, Hsent. Qed.

Lemma HTTPFound_rejected {Y : yarl.Url} (location : string) (hdrs : py.dict string)
    (e : py.exn) :
  urllib.nonempty location = true ->
  yarl.URL_str location = py.Raise e ->
  HTTPFound location hdrs = py.Raise e.
Proof. intros Hlocation Hsent. unfold HTTPFound. now rewrite Hlocation, Hsent. Qed.

(** The error reply bound to a redirect URI: the redirect to the URI,
    with the query it already has, then [error], [error_description] and
    [state]. *)
Lemma reply_error_to_redirect_uri {U : urllib.UrlParser} {Y : yarl.Url} (a : App)
    (error description uri : string) (state : option string)
    (parsed : urllib.ParseResult) :
  urllib.urlparse uri = py.Ok parsed ->
  reply_with_authentication_error a (urllib.Str error) (Some uri) (Some description)
    None state
  = HTTPFound
      (py.cat uri (py.cat "?" (py.cat (query_prefix parsed)
         (py.cat "error=" (py.cat (urllib.quote_plus error)
            (py.cat "&error_description=" (py.cat (urllib.quote_plus description)
               (state_suffix state))))))))
      [].
Proof.
  intros Hparse. unfold reply_with_authentication_error. rewrite Hparse.
  cbn [py.bind]. rewrite error_query_text. do 3 f_equal.
  unfold query_prefix. cbn [urllib.str_of].
  destruct (urllib.nonempty (urllib.query parsed)); rewrite ?cat_assoc; reflexivity.
Qed.

(** When the client service rejects the redirect URI, the flow ends with
    the redirect to the endpoint's own authorize URL. *)
Lemma invalid_redirect_uri_flow {U : urllib.UrlParser} {Y : yarl.Url} (a : App) (w : World)
    (request : Request) (scope : list string) (client_id redirect_uri : string)
    (client_secret state prompt : option string) (login_parameters : py.dict string)
    (msg : string) :
  authorize_client a client_id client_secret redirect_uri scope = InvalidRedirectURI msg ->
  authentication_code_flow a w request scope client_id redirect_uri client_secret state
    prompt login_parameters
  = (HTTPFound
       (py.cat (PublicApiBaseUrl a)
          (py.cat "/openidconnect/authorize?error=invalid_redirect_uri&error_description=redirect_uri+is+not+valid+for+given+client_id"
             (state_suffix state)))
       [],
     audit_authorize_error w client_id "invalid_redirect_uri" None
       [("redirect_uri", py.PyStr redirect_uri)]).
Proof.
  intros Hcheck. unfold authentication_code_flow. rewrite Hcheck.
  unfold reply_with_authentication_error. rewrite error_query_text.
  reflexivity.
Qed.

(** A request that carries the four required parameters and asks for the
    [code] response type is handled by [authentication_code_flow], whatever
    the order in which the required parameters are checked. *)
Lemma authorize_code_request {U : urllib.UrlParser} {Y : yarl.Url} (a : App) (w : World)
    (order : list string) (request : Request) (request_parameters : Parameters)
    (scope client_id redirect_uri : string) :
  Forall (fun p => missing request_parameters p = false) order ->
  web.get (items request_parameters) "response_type" = Some "code" ->
  web.get (items request_parameters) "scope" = Some scope ->
  web.get (items request_parameters) "client_id" = Some client_id ->
  web.get (items request_parameters) "redirect_uri" = Some redirect_uri ->
  authorize a w order request request_parameters
  = authentication_code_flow a w request (py.split " " scope) client_id redirect_uri
      (web.get (items request_parameters) "client_secret")
      (web.get (items request_parameters) "state")
      (web.get (items request_parameters) "prompt")
      (omap (fun parameter =>
               option_map (fun v => (parameter, v))
                 (web.get (items request_parameters) parameter))
            ["ldid"; "expiration"]).
Proof.
  intros Hpresent Htype Hscope Hclient Huri. unfold authorize.
  assert (Hnone : filter (fun p => missing request_parameters p = true) order = []).
  { induction Hpresent as [|p order Hp _ IH]; [reflexivity|].
    rewrite filter_cons_False; [exact IH | congruence]. }
  rewrite Hnone, Htype, Hscope, Hclient, Huri. reflexivity.
Qed.

(** C3 (as amended).  A request that carries the four required
    parameters, asks for the [code] response type and names a redirect URI
    that the client service rejects is answered with [HTTPFound] for the
    endpoint's own authorize URL, built from the public API base URL alone,
    with [error=invalid_redirect_uri], the error description and the echoed
    state in its query: a 302 whose [Location] is that URL as yarl quotes
    it.  The reply is not addressed to the supplied redirect URI, no cookie
    is set or deleted, and only the audit trail changes. *)
Theorem invalid_redirect_uri_reply {U : urllib.UrlParser} {Y : yarl.Url} (a : App)
    (w : World) (order : list string) (request : Request)
    (request_parameters : Parameters) (scope client_id redirect_uri msg : string) :
  Forall (fun p => missing request_parameters p = false) order ->
  web.get (items request_parameters) "response_type" = Some "code" ->
  web.get (items request_parameters) "scope" = Some scope ->
  web.get (items request_parameters) "client_id" = Some client_id ->
  web.get (items request_parameters) "redirect_uri" = Some redirect_uri ->
  authorize_client a client_id (web.get (items request_parameters) "client_secret")
    redirect_uri (py.split " " scope) = InvalidRedirectURI msg ->
  authorize a w order request request_parameters
  = (HTTPFound
       (py.cat (PublicApiBaseUrl a)
          (py.cat "/openidconnect/authorize?error=invalid_redirect_uri&error_description=redirect_uri+is+not+valid+for+given+client_id"
             (state_suffix (web.get (items request_parameters) "state"))))
       [],
     audit_authorize_error w client_id "invalid_redirect_uri" None
       [("redirect_uri", py.PyStr redirect_uri)]).
Proof.
  intros Hpresent Htype Hscope Hclient Huri Hcheck.
  rewrite (authorize_code_request a w order request request_parameters scope client_id
             redirect_uri Hpresent Htype Hscope Hclient Huri).
  now apply (invalid_redirect_uri_flow a w request _ _ _ _ _ _ _ msg).
Qed.

Lemma invalid_redirect_uri_reply_witness :
  authorize (H := urllib.basic) (Y := yarl.basic) sample.the_app
    (sample.world_of sample.alice) required_parameters
    (sample.request_of (Some sample.alice))
    {| items := [("response_type", "code"); ("scope", "openid"); ("client_id", "app1");
                 ("redirect_uri", "https://evil/cb"); ("state", "s1")];
       parameters_repr := "<MultiDictProxy>" |}
  = (HTTPFound (Y := yarl.basic)
       (py.cat (PublicApiBaseUrl sample.the_app)
          (py.cat "/openidconnect/authorize?error=invalid_redirect_uri&error_description=redirect_uri+is+not+valid+for+given+client_id"
             (state_suffix (Some "s1"))))
       [],
     audit_authorize_error (sample.world_of sample.alice) "app1" "invalid_redirect_uri" None
       [("redirect_uri", py.PyStr "https://evil/cb")]).
Proof.
  apply (invalid_redirect_uri_reply (U := urllib.basic) (Y := yarl.basic) sample.the_app
           (sample.world_of sample.alice) required_parameters
           (sample.request_of (Some sample.alice))
           {| items := [("response_type", "code"); ("scope", "openid");
                        ("client_id", "app1"); ("redirect_uri", "https://evil/cb");
                        ("state", "s1")];
              parameters_repr := "<MultiDictProxy>" |}
           "openid" "app1" "https://evil/cb" "https://evil/cb").
  - repeat constructor.
  - reflexivity.
  - reflexivity.
  - reflexivity.
  - reflexivity.
  - reflexivity.
Defined.

(** C3 as stated fails: an unregistered redirect URI is answered with a
    302 and a [Location] header, not with an inline page. *)
Lemma invalid_redirect_uri_is_answered_with_a_redirect :
  fst (sample.flow sample.the_app (Some sample.alice) ["openid"] "app1"
         "https://evil/cb" None)
  = py.Ok {| status := 302;
             headers :=
               [("Location",
                 "https://auth.test/api/openidconnect/authorize?error=invalid_redirect_uri&error_description=redirect_uri+is+not+valid+for+given+client_id&state=s1")];
             cookies := [] |}.
Proof. vm_compute. reflexivity. Qed.

(** The flow of a caller who is authenticated with a root session and
    does not ask for a new login. *)
Lemma flow_when_authenticated {U : urllib.UrlParser} {Y : yarl.Url} (a : App) (w : World) (request : Request)
    (scope : list string) (client_id redirect_uri : string)
    (client_secret state prompt : option string) (login_parameters : py.dict string)
    (root_session : SessionAdapter) :
  not_rejected (authorize_client a client_id client_secret redirect_uri scope) ->
  py.mem "openid" scope = true ->
  root_session_of request = Some root_session ->
  prompt = None \/ prompt = Some "none" ->
  authentication_code_flow a w request scope client_id redirect_uri client_secret state
    prompt login_parameters
  = authenticated_flow a w root_session scope client_id redirect_uri state login_parameters.
Proof.
  intros Hcheck Hopenid Hroot Hprompt. unfold authentication_code_flow.
  rewrite Hopenid, Hroot. cbn [negb].
  destruct (authorize_client a client_id client_secret redirect_uri scope) eqn:Hc;
    try (exfalso; eapply Hcheck; reflexivity);
    destruct Hprompt as [-> | ->]; reflexivity.
Qed.

(** The flow of a caller without a root session who asks for no prompt:
    the arguments of the error reply as the call binds them. *)
Lemma flow_prompt_none_without_session {U : urllib.UrlParser} {Y : yarl.Url} (a : App) (w : World) (request : Request)
    (scope : list string) (client_id redirect_uri : string)
    (client_secret state : option string) (login_parameters : py.dict string) :
  not_rejected (authorize_client a client_id client_secret redirect_uri scope) ->
  py.mem "openid" scope = true ->
  root_session_of request = None ->
  authentication_code_flow a w request scope client_id redirect_uri client_secret state
    (Some "none") login_parameters
  = (reply_with_authentication_error a (urllib.Obj (repr request)) (Some "login_required")
       (Some redirect_uri) None state,
     audit_authorize_error w client_id "login_required" None
       [("prompt", py.PyStr "none")]).
Proof.
  intros Hcheck Hopenid Hroot. unfold authentication_code_flow.
  rewrite Hopenid, Hroot. cbn [negb].
  destruct (authorize_client a client_id client_secret redirect_uri scope) eqn:Hc;
    try (exfalso; eapply Hcheck; reflexivity); reflexivity.
Qed.

(** C2 (where the code departs from it).  A browser without a session
    asks for [prompt=none]: the reply is a 302 whose [Location] is the
    relative URL [login_required?...] (as yarl quotes it for the header);
    the [error] parameter carries the text of the request object and
    [error_description] carries the redirect URI.  Nothing is sent to
    [https://app1/cb], and no cookie is set or deleted. *)
Theorem login_required_reply_is_misdirected :
  sample.flow sample.the_app None ["openid"] "app1" "https://app1/cb" (Some "none")
  = (py.Ok {| status := 302;
              headers :=
                [("Location",
                  "login_required?error=%3CRequest+GET+/openidconnect/authorize+%3E&error_description=https://app1/cb&state=s1")];
              cookies := [] |},
     audit_authorize_error (sample.world_of sample.alice) "app1" "login_required" None
       [("prompt", py.PyStr "none")]).
Proof.
  unfold sample.flow.
  rewrite flow_prompt_none_without_session.
  - now vm_compute.
  - intros msg. vm_compute. discriminate.
  - reflexivity.
  - reflexivity.
Qed.

(** C4 (where the code departs from it).  Alice, authenticated, sends a
    request for a client id that the client service does not know, with a
    redirect URI of her choice: the lookup fails with [KeyError], and the
    flow still creates a child session, mints an authorization code for it
    and redirects to that URI with the code. *)
Theorem unknown_client_obtains_a_code :
  let r := sample.flow sample.the_app (Some sample.alice) ["openid"] "nobody"
             "https://evil/cb" None in
  authorize_client sample.the_app "nobody" None "https://evil/cb" ["openid"] = ClientKeyError
  /\ fst r
     = py.Ok {| status := 302;
                headers :=
                  [("Refresh", "0;url=https://evil/cb?state=s1&code=cm5kMQ%3D%3D");
                   ("Location", "https://evil/cb?state=s1&code=cm5kMQ%3D%3D")];
                cookies := [] |}
  /\ tokens (snd r) !! "rnd1"
     = Some {| tk_type := oac; tk_sid := "rnd0"; tk_expires_at := 60;
               tk_cc := None; tk_ccm := None; tk_sa := false |}
  /\ base64.urlsafe_b64encode "rnd1" = "cm5kMQ=="
  /\ (Type_ <$> sessions (snd r) !! "rnd0") = Some "openidconnect"
  /\ (ParentSessionId <$> sessions (snd r) !! "rnd0") = Some (Some "root-alice").
Proof.
  cbv zeta. unfold sample.flow.
  rewrite (flow_when_authenticated _ _ _ _ _ _ _ _ _ _ sample.alice);
    [| intros msg; vm_compute; discriminate | reflexivity | reflexivity | now left].
  repeat split; vm_compute; reflexivity.
Qed.

End authorize_replies.

(** ** Tenant entries of the scope *)

Section tenant_scope.
Import session app web authorize.

Lemma mem_true (x : string) (l : list string) : py.mem x l = true <-> x ∈ l.
Proof. unfold py.mem. apply bool_decide_eq_true. Qed.

Lemma mem_false (x : string) (l : list string) : py.mem x l = false <-> x ∉ l.
Proof. unfold py.mem. apply bool_decide_eq_false. Qed.



Lemma tenant_entry_drop (tenant : string) :
  py.drop (String.length "tenant:") (py.cat "tenant:" tenant) = tenant.
Proof. reflexivity. Qed.

Lemma set_add_elem (x y : string) (s : list string) :
  x ∈ py.set_add y s <-> x = y \/ x ∈ s.
Proof.
  unfold py.set_add. destruct (py.mem y s) eqn:Hy.
  - apply mem_true in Hy. split; [auto|]. intros [-> | H]; auto.
  - rewrite elem_of_app, list_elem_of_singleton. tauto.
Qed.






End tenant_scope.

(** ** The factor-setup gate *)

Section factor_setup.
Import session app web authorize.




Lemma set_of_elem (x : string) (l : list string) : x ∈ py.set_of l <-> x ∈ l.
Proof.
  induction l as [|y l IH]; simpl; [reflexivity|].
  destruct (py.mem y l) eqn:Hy.
  - apply mem_true in Hy. rewrite IH, elem_of_cons. split; [auto|]. intros [-> | H]; auto.
  - rewrite !elem_of_cons, IH. reflexivity.
Qed.










End factor_setup.

(** ** The successful response *)

Section successful_response.
Import session app web authorize.

Lemma dict_get_set_eq {V : Type} (d : py.dict V) (k : string) (v : V) :
  py.dict_get (py.dict_set d k v) k = Some v.
Proof.
  induction d as [|[k0 v0] d IH]; simpl.
  - now rewrite String.eqb_refl.
  - destruct (String.eqb k0 k) eqn:Hk; simpl; rewrite Hk; [reflexivity | exact IH].
Qed.

Lemma dict_get_set_ne {V : Type} (d : py.dict V) (k k' : string) (v : V) :
  k <> k' -> py.dict_get (py.dict_set d k v) k' = py.dict_get d k'.
Proof.
  intros Hne. induction d as [|[k0 v0] d IH]; simpl.
  - apply String.eqb_neq in Hne. now rewrite Hne.
  - destruct (String.eqb k0 k) eqn:Hk; simpl.
    + apply String.eqb_eq in Hk. subst k0.
      apply String.eqb_neq in Hne. now rewrite Hne.
    + destruct (String.eqb k0 k'); [reflexivity | exact IH].
Qed.

(** No builder entry writes the id, the type or the parent of a session. *)
Lemma apply_builders_identity (builders : list (list builder_item)) (s : SessionAdapter) :
  SessionId (apply_builders s builders) = SessionId s
  /\ Type_ (apply_builders s builders) = Type_ s
  /\ ParentSessionId (apply_builders s builders) = ParentSessionId s.
Proof.
  unfold apply_builders. generalize (concat builders). intros items. revert s.
  induction items as [|b items IH]; intros s; cbn [foldl]; [auto|].
  destruct (IH (apply_item s b)) as (-> & -> & ->).
  destruct b; auto.
Qed.

(** What [create_oidc_session] leaves behind when it returns: a stored
    session of type [openidconnect] whose parent is the root session, and
    an untouched token store. *)
Lemma create_oidc_session_creates (a : App) (w : World) (root_session : SessionAdapter)
    (client_id : string) (scope : list string) (nonce redirect_uri : py.value)
    (tenants : option (list string)) (requested_expiration : option Z)
    (s : SessionAdapter) (w1 : World) :
  oidc.create_oidc_session a w root_session client_id scope nonce redirect_uri tenants
    requested_expiration = py.Ok (s, w1) ->
  Type_ s = "openidconnect"
  /\ ParentSessionId s = Some (SessionId root_session)
  /\ sessions w1 !! SessionId s = Some s
  /\ tokens w1 = tokens w
  /\ minted w1 = S (minted w)
  /\ now w1 = now w.
Proof.
  intros Hcreate. unfold oidc.create_oidc_session in Hcreate.
  destruct (oidc.credentials_session_builder a _ scope) as [b_cred|]; [|discriminate].
  destruct (oidc.authz_session_builder a _ tenants _) as [b_authz|]; [|discriminate].
  cbn [py.bind] in Hcreate.
  destruct (py.mem "batman" scope);
    [destruct (oidc.basic_auth a root_session); [|discriminate] |];
    cbn [py.bind] in Hcreate; apply Ok_inj in Hcreate;
    unfold SessionService_create_session in Hcreate;
    injection Hcreate as <- <-;
    match goal with
    | |- context [apply_builders ?s0 ?bs] =>
        destruct (apply_builders_identity bs s0) as (Hid & Hty & Hparent)
    end;
    rewrite Hty, Hparent, Hid; cbn;
    (repeat split; try reflexivity); apply lookup_insert_eq.
Qed.

(** C1 (as amended).  A caller authenticated with a root session, who
    does not ask for a new login, whose tenants resolve, who has no factor
    to set up, and for whom the collaborators answer: the endpoint creates
    a child OIDC session and replies with [HTTPFound] (a 302) for the
    redirect URI, rebuilt with the echoed state in its query; [Refresh] has
    this URL as it is, [Location] has it as yarl quotes it, and a URL that
    yarl rejects ends in its [ValueError] with the session already created.
    When [cookie] is not in the scope the endpoint mints an authorization
    code bound to the child session and adds it to the query as [code];
    when [cookie] is in the scope it sets the session cookie of the child
    session instead, mints no code and adds no [code] parameter. *)
Theorem successful_authorization_reply {U : urllib.UrlParser} {Y : yarl.Url} (a : App)
    (w : World) (request : Request) (scope : list string)
    (client_id redirect_uri : string) (client_secret state prompt : option string)
    (login_parameters : py.dict string) (root_session : SessionAdapter)
    (user_tenants collected tenants : list string) (requested_expiration : option Z)
    (s : SessionAdapter) (w1 : World) (url : urllib.ParseResult) :
  not_rejected (authorize_client a client_id client_secret redirect_uri scope) ->
  py.mem "openid" scope = true ->
  root_session_of request = Some root_session ->
  prompt = None \/ prompt = Some "none" ->
  TenantService_get_tenants a (Id (Credentials root_session)) = py.Ok user_tenants ->
  authorize_tenants a user_tenants (access_to_all_tenants root_session) scope []
  = inl collected ->
  resolve_tenants a (Id (Credentials root_session)) user_tenants scope collected
  = Some tenants ->
  _get_factors_to_setup a root_session = py.Ok [] ->
  requested_expiration_of login_parameters = py.Ok requested_expiration ->
  oidc.create_oidc_session a w root_session client_id scope (py.PyStrs tenants)
    (expiration_value requested_expiration) None None = py.Ok (s, w1) ->
  urllib.urlparse redirect_uri = py.Ok url ->
  let location_of (url_qs : py.dict urllib.qs_value) : string :=
    urllib.urlunparse
      {| urllib.scheme := urllib.scheme url; urllib.netloc := urllib.netloc url;
         urllib.path := urllib.path url; urllib.params := urllib.params url;
         urllib.query := urllib.urlencode_doseq url_qs;
         urllib.fragment := urllib.fragment url |} in
  let given : py.dict urllib.qs_value :=
    map (fun kv => (fst kv, urllib.QList (snd kv))) (urllib.parse_qs (urllib.query url)) in
  let echoed : py.dict urllib.qs_value :=
    match state with
    | Some st => py.dict_set given "state" (urllib.QScalar (urllib.Str st))
    | None => given
    end in
  let raw := entropy a (minted w1) in
  let code := base64.urlsafe_b64encode raw in
  let coded := py.dict_set echoed "code" (urllib.QScalar (urllib.Str code)) in
  let location := location_of (if py.mem "cookie" scope then echoed else coded) in
  exists w' : World,
    authentication_code_flow a w request scope client_id redirect_uri client_secret state
      prompt login_parameters
    = (response <-? HTTPFound location [("Refresh", py.cat "0;url=" location)] ;;
       py.Ok (if py.mem "cookie" scope then set_cookie response s else response),
       w')
    /\ Type_ s = "openidconnect"
    /\ ParentSessionId s = Some (SessionId root_session)
    /\ sessions w' !! SessionId s = Some s
    /\ (forall st, state = Some st ->
          py.dict_get echoed "state" = Some (urllib.QScalar (urllib.Str st))
          /\ py.dict_get coded "state" = Some (urllib.QScalar (urllib.Str st)))
    /\ (py.mem "cookie" scope = false ->
        py.dict_get coded "code" = Some (urllib.QScalar (urllib.Str code))
        /\ tokens w' !! raw
           = Some {| tk_type := oac; tk_sid := SessionId s;
                     tk_expires_at := (now w + authorization_code_expiration a)%Z;
                     tk_cc := None; tk_ccm := None; tk_sa := false |})
    /\ (py.mem "cookie" scope = true ->
        py.dict_get echoed "code" = py.dict_get given "code"
        /\ tokens w' = tokens w).
Proof.
  intros Hcheck Hopenid Hroot Hprompt Htenants Hloop Hresolved Hfactors Hexp Hcreate
         Hparse location_of given echoed raw code coded location.
  destruct (create_oidc_session_creates _ _ _ _ _ _ _ _ _ _ _ Hcreate)
    as (Hty & Hparent & Hstored & Htokens & Hminted & Hnow).
  assert (Hstate : forall st, state = Some st ->
            py.dict_get echoed "state" = Some (urllib.QScalar (urllib.Str st))
            /\ py.dict_get coded "state" = Some (urllib.QScalar (urllib.Str st))).
  { intros st ->. subst coded echoed. split.
    - apply dict_get_set_eq.
    - rewrite dict_get_set_ne by discriminate. apply dict_get_set_eq. }
  rewrite (flow_when_authenticated a w request scope client_id redirect_uri client_secret
             state prompt login_parameters root_session Hcheck Hopenid Hroot Hprompt).
  unfold authenticated_flow. rewrite Htenants, Hloop, Hresolved.
  unfold factor_gate. rewrite Hfactors.
  unfold issue_code. rewrite Hexp, Hcreate.
  unfold reply_with_successful_response. rewrite Hparse.
  fold given. fold echoed. subst location.
  destruct (py.mem "cookie" scope) eqn:Hcookie.
  - fold (location_of echoed).
    eexists. split; [now destruct (HTTPFound _ _)|].
    split; [exact Hty|]. split; [exact Hparent|].
    split; [exact Hstored|]. split; [exact Hstate|].
    split; [intros Hno; discriminate Hno|]. intros _.
    split; [|exact Htokens].
    subst echoed. destruct state as [st|]; [|reflexivity].
    now rewrite dict_get_set_ne by discriminate.
  - unfold oidc.generate_authorization_code, oidc.create_authorization_code,
      TokenService_create.
    change (minted (audit_authorize_success w1 s)) with (minted w1).
    fold raw. fold code. fold coded. fold (location_of coded).
    eexists. split; [now destruct (HTTPFound _ _)|].
    split; [exact Hty|]. split; [exact Hparent|].
    split; [exact Hstored|]. split; [exact Hstate|].
    split; [|intros Hyes; discriminate Hyes]. intros _.
    split; [subst coded; apply dict_get_set_eq|].
    cbn. rewrite Hnow. apply lookup_insert_eq.
Qed.

Lemma successful_authorization_reply_witness :
  exists w' : World,
    authentication_code_flow (H := urllib.basic) (Y := yarl.basic) sample.the_app
      (sample.world_of sample.alice) (sample.request_of (Some sample.alice))
      ["openid"] "app1" "https://app1/cb" None (Some "s1") None []
    = (HTTPFound (Y := yarl.basic) "https://app1/cb?state=s1&code=cm5kMQ%3D%3D"
         [("Refresh", "0;url=https://app1/cb?state=s1&code=cm5kMQ%3D%3D")],
       w')
    /\ (tk_sid <$> tokens w' !! "rnd1") = Some "rnd0".
Proof.
  assert (Hcheck : not_rejected
                     (authorize_client sample.the_app "app1" None "https://app1/cb"
                        ["openid"])).
  { intros msg. vm_compute. discriminate. }
  assert (Hcreate : oidc.create_oidc_session sample.the_app (sample.world_of sample.alice)
                      sample.alice "app1" ["openid"] (py.PyStrs [])
                      (expiration_value None) None None
                    = py.Ok (fst (sample.child_of sample.alice ["openid"] []),
                             snd (sample.child_of sample.alice ["openid"] []))).
  { vm_compute. reflexivity. }
  destruct (successful_authorization_reply (U := urllib.basic) (Y := yarl.basic)
              sample.the_app (sample.world_of sample.alice)
              (sample.request_of (Some sample.alice))
              ["openid"] "app1" "https://app1/cb" None (Some "s1") None []
              sample.alice ["tenant1"] [] [] None
              (fst (sample.child_of sample.alice ["openid"] []))
              (snd (sample.child_of sample.alice ["openid"] []))
              {| urllib.scheme := "https"; urllib.netloc := "app1"; urllib.path := "/cb";
                 urllib.params := ""; urllib.query := ""; urllib.fragment := "" |}
              Hcheck eq_refl eq_refl (or_introl eq_refl) eq_refl eq_refl eq_refl eq_refl
              eq_refl Hcreate eq_refl)
    as (w' & Hflow & _ & _ & _ & _ & Hcode & _).
  destruct (Hcode eq_refl) as (_ & Htoken).
  exists w'. split.
  - rewrite Hflow. reflexivity.
  - change (tokens w' !! "rnd1") with
      (tokens w' !! entropy sample.the_app
                      (minted (snd (sample.child_of sample.alice ["openid"] [])))).
    rewrite Htoken. reflexivity.
Defined.

(** C1 as stated fails: with [cookie] in the scope the reply sets the
    session cookie and its query holds the state alone; no authorization
    code is minted. *)
Lemma cookie_scope_reply_carries_no_code :
  let r := sample.flow sample.the_app (Some sample.alice) ["openid"; "cookie"] "app1"
             "https://app1/cb" None in
  fst r
  = py.Ok {| status := 302;
             headers := [("Refresh", "0;url=https://app1/cb?state=s1");
                         ("Location", "https://app1/cb?state=s1")];
             cookies := [SetSessionCookie "rnd0"] |}
  /\ tokens (snd r) = ∅.
Proof. cbv zeta. split; vm_compute; reflexivity. Qed.

End successful_response.

(** * Further properties of the code *)

(** ** Text *)

Section more_text.

Lemma cat_length (s1 s2 : string) :
  String.length (py.cat s1 s2) = String.length s1 + String.length s2.
Proof.
  induction s1 as [|c s1 IH]; [reflexivity|].
  change (py.cat (String c s1) s2) with (String c (py.cat s1 s2)).
  cbn [String.length]. now rewrite IH.
Qed.

End more_text.

(** ** Base64 *)

Section base64_round_trip.
Import base64.

Lemma alphabet_char_spec (c62 c63 : ascii) (n : nat) :
  sextet c62 = Some 62 -> sextet c63 = Some 63 ->
  Ascii.eqb c62 "="%char = false -> Ascii.eqb c63 "="%char = false ->
  n < 64 ->
  sextet (alphabet_char c62 c63 n) = Some n
  /\ Ascii.eqb (alphabet_char c62 c63 n) "="%char = false.
Proof.
  intros H62 H63 E62 E63 Hn.
  do 62 (destruct n as [|n]; [split; reflexivity|]).
  destruct n as [|n]; [now split|].
  destruct n as [|n]; [now split|].
  lia.
Qed.

(** What the decoder does with one character of the alphabet. *)
Lemma a2b_sextet (c62 c63 : ascii) (n : nat) (t : string) (d : decoder) :
  sextet c62 = Some 62 -> sextet c63 = Some 63 ->
  Ascii.eqb c62 "="%char = false -> Ascii.eqb c63 "="%char = false ->
  n < 64 ->
  a2b (String (alphabet_char c62 c63 n) t) d
  = match quad_pos d with
    | 0 => a2b t {| quad_pos := 1; leftchar := n; pads := 0 |}
    | 1 => option_map (String (ascii_of_nat (leftchar d * 4 + n / 16)))
             (a2b t {| quad_pos := 2; leftchar := n mod 16; pads := 0 |})
    | 2 => option_map (String (ascii_of_nat (leftchar d * 16 + n / 4)))
             (a2b t {| quad_pos := 3; leftchar := n mod 4; pads := 0 |})
    | _ => option_map (String (ascii_of_nat (leftchar d * 64 + n)))
             (a2b t {| quad_pos := 0; leftchar := 0; pads := 0 |})
    end.
Proof.
  intros H62 H63 E62 E63 Hn.
  destruct (alphabet_char_spec c62 c63 n H62 H63 E62 E63 Hn) as [Hs He].
  cbn [a2b]. rewrite He, Hs. reflexivity.
Qed.

Ltac euclid := zify; Z.to_euclidean_division_equations; lia.

Lemma a2b_b2a (c62 c63 : ascii) :
  sextet c62 = Some 62 -> sextet c63 = Some 63 ->
  Ascii.eqb c62 "="%char = false -> Ascii.eqb c63 "="%char = false ->
  forall (n : nat) (s : string),
    String.length s <= n ->
    a2b (b2a c62 c63 s) {| quad_pos := 0; leftchar := 0; pads := 0 |} = Some s.
Proof.
  intros H62 H63 E62 E63 n.
  induction n as [n IH] using lt_wf_ind. intros s Hlen.
  destruct s as [|x [|y [|z t]]]; [reflexivity| | |];
    pose proof (nat_ascii_bounded x) as Hx;
    try pose proof (nat_ascii_bounded y) as Hy;
    try pose proof (nat_ascii_bounded z) as Hz;
    cbn [b2a];
    repeat (rewrite (a2b_sextet c62 c63) by (try assumption; euclid);
            cbn [quad_pos leftchar]).
  - replace (nat_of_ascii x / 4 * 4 + nat_of_ascii x `mod` 4 * 16 / 16)
      with (nat_of_ascii x) by euclid.
    rewrite ascii_nat_embedding. reflexivity.
  - replace (nat_of_ascii x / 4 * 4 + (nat_of_ascii x `mod` 4 * 16 + nat_of_ascii y / 16) / 16)
      with (nat_of_ascii x) by euclid.
    replace ((nat_of_ascii x `mod` 4 * 16 + nat_of_ascii y / 16) `mod` 16 * 16
             + nat_of_ascii y `mod` 16 * 4 / 4) with (nat_of_ascii y) by euclid.
    rewrite !ascii_nat_embedding. reflexivity.
  - rewrite (IH (String.length t)) by (cbn in Hlen; lia).
    cbn [option_map].
    replace (nat_of_ascii x / 4 * 4 + (nat_of_ascii x `mod` 4 * 16 + nat_of_ascii y / 16) / 16)
      with (nat_of_ascii x) by euclid.
    replace ((nat_of_ascii x `mod` 4 * 16 + nat_of_ascii y / 16) `mod` 16 * 16
             + (nat_of_ascii y `mod` 16 * 4 + nat_of_ascii z / 64) / 4)
      with (nat_of_ascii y) by euclid.
    replace ((nat_of_ascii y `mod` 16 * 4 + nat_of_ascii z / 64) `mod` 4 * 64
             + nat_of_ascii z `mod` 64) with (nat_of_ascii z) by euclid.
    rewrite !ascii_nat_embedding. reflexivity.
Qed.

(** The encoder writes ASCII only. *)
Lemma is_ascii_b2a (c62 c63 : ascii) (s : string) :
  nat_of_ascii c62 < 128 -> nat_of_ascii c63 < 128 ->
  is_ascii (b2a c62 c63 s) = true.
Proof.
  intros H62 H63.
  assert (Hch : forall n, Nat.ltb (nat_of_ascii (alphabet_char c62 c63 n)) 128 = true).
  { intros n. apply Nat.ltb_lt. unfold alphabet_char.
    repeat case_match; rewrite ?nat_ascii_embedding; try lia;
      repeat match goal with
             | H : Nat.ltb _ _ = _ |- _ => apply Nat.ltb_lt in H || apply Nat.ltb_ge in H
             end; lia. }
  remember (String.length s) as n eqn:Hn.
  revert s Hn. induction n as [n IH] using lt_wf_ind. intros s Hn.
  unfold is_ascii in *.
  destruct s as [|x [|y [|z t]]]; cbn [b2a urllib.all_chars]; rewrite ?Hch; try reflexivity.
  cbn [andb]. apply (IH (String.length t)); [cbn in Hn; lia | reflexivity].
Qed.

(** [urlsafe_b64decode(urlsafe_b64encode(b)) == b]. *)
Lemma urlsafe_b64_round_trip (b : string) :
  urlsafe_b64decode (urlsafe_b64encode b) = py.Ok b.
Proof.
  unfold urlsafe_b64decode, urlsafe_b64encode.
  rewrite is_ascii_b2a by (vm_compute; lia).
  now rewrite (a2b_b2a "-" "_" eq_refl eq_refl eq_refl eq_refl (String.length b) b).
Qed.

(** [(prefix + text)[len(prefix):] == text]. *)
Lemma drop_prefix (p s : string) : py.drop (String.length p) (py.cat p s) = s.
Proof. induction p as [|c p IH]; [reflexivity | exact IH]. Qed.

End base64_round_trip.

(** ** The LDAP provider *)

Section ldap_directory.
Import ldap ldap_entries.

(** X1.  Every worker that goes through [_ldap_client] (counting,
    locating, searching and reading one entry) unbinds the connection it
    bound, whatever the directory answers to the search and whether or not
    normalizing the entries raises. *)
Theorem directory_workers_unbind_what_they_bind `{Strptime} (st : Settings) (d : Directory)
    (p : Provider) (srv : Server) (filterstr ident credentials_id : string) :
  closes_after_bind (fst (_count_worker p srv filterstr)) = true
  /\ closes_after_bind (fst (_locate_worker p srv ident)) = true
  /\ closes_after_bind (fst (_search_worker st d filterstr)) = true
  /\ closes_after_bind (fst (_get_worker st d credentials_id)) = true.
Proof.
  repeat split; try apply _ldap_client_closes.
  unfold _get_worker.
  destruct (_ <-? base64.urlsafe_b64decode _ ;; utf8.decode _); [|reflexivity].
  match goal with
  | |- context [_ldap_client ?p ?s ?b] =>
      pose proof (_ldap_client_closes p s b) as Hc; destruct (_ldap_client p s b)
  end.
  exact Hc.
Qed.

(** X2.  The credentials id that [_locate_worker] returns names the entry
    it found: given that id, [_authenticate_worker] decodes it back to the
    [dn] of the first entry of the search.  When that [dn] is UTF-8 text
    (python-ldap hands out [str]), the worker binds with it and its answer is
    the directory's answer to that bind; bytes that are no UTF-8 end in the
    decoder's [ValueError] before any connection is made. *)
Theorem located_id_authenticates_as_the_located_entry (p : Provider) (srv : Server)
    (ident credentials_id : string) (password : option string) (t : list event) :
  _locate_worker p srv ident = (t, py.Ok (Some credentials_id)) ->
  exists (dn : string) (res_data : list (option string)),
    search_all srv (cfg_base p) (locate_filter p ident) = inr res_data
    /\ head (omap id res_data) = Some dn
    /\ credentials_id = _format_credentials_id p dn
    /\ _authenticate_worker p srv credentials_id password
       = if utf8.valid dn then
           match simple_bind_s srv dn password with
           | None => ([Initialize; Bound dn; Unbound], py.Ok true)
           | Some INVALID_CREDENTIALS => ([Initialize; BindFailed dn], py.Ok false)
           | Some err =>
               ([Initialize; BindFailed dn], py.Raise (py.LDAPError (error_name err)))
           end
         else ([], py.Raise (py.ValueError "'utf-8' codec can't decode byte")).
Proof.
  unfold _locate_worker, _ldap_client. intros Hlocate.
  destruct (tls_setup p) as [[]|] eqn:Htls; [|discriminate].
  destruct (simple_bind_s srv (cfg_username p) _); [discriminate|].
  destruct (search_all srv _ _) as [err | res_data] eqn:Hsearch; [discriminate|].
  cbn [snd] in Hlocate. injection Hlocate as _ Hid.
  destruct (head (omap id res_data)) as [dn|] eqn:Hhead; [|discriminate].
  cbn [option_map] in Hid. injection Hid as Hid.
  exists dn, res_data.
  split; [reflexivity|]. split; [exact Hhead|]. split; [now symmetry|].
  subst credentials_id. unfold _authenticate_worker, _format_credentials_id, utf8.decode.
  rewrite drop_prefix, urlsafe_b64_round_trip. cbn [py.bind].
  destruct (utf8.valid dn); [|reflexivity]. rewrite Htls.
  destruct (simple_bind_s srv dn password) as [[]|]; reflexivity.
Qed.

Lemma located_id_authenticates_witness :
  exists (dn : string) (res_data : list (option string)),
    search_all sample.directory (cfg_base sample.provider)
      (locate_filter sample.provider "alice") = inr res_data
    /\ head (omap id res_data) = Some dn
    /\ "ldap:Y249YWxpY2UsZGM9ZXhhbXBsZSxkYz1vcmc=" = _format_credentials_id sample.provider dn
    /\ _authenticate_worker sample.provider sample.directory
         "ldap:Y249YWxpY2UsZGM9ZXhhbXBsZSxkYz1vcmc=" (Some "secret")
       = if utf8.valid dn then
           match simple_bind_s sample.directory dn (Some "secret") with
           | None => ([Initialize; Bound dn; Unbound], py.Ok true)
           | Some INVALID_CREDENTIALS => ([Initialize; BindFailed dn], py.Ok false)
           | Some err =>
               ([Initialize; BindFailed dn], py.Raise (py.LDAPError (error_name err)))
           end
         else ([], py.Raise (py.ValueError "'utf-8' codec can't decode byte")).
Proof.
  apply (located_id_authenticates_as_the_located_entry sample.provider sample.directory
           "alice" _ (Some "secret")
           [Initialize; Bound "cn=admin,dc=example,dc=org"; Searched; Unbound]).
  vm_compute. reflexivity.
Defined.

End ldap_directory.

(** ** Normalized LDAP credentials *)

Section ldap_normalization.
Import ldap ldap_entries.

(** Membership in a list of literals, decided by evaluation. *)
Ltac by_evaluation := apply (bool_decide_unpack _); vm_compute; exact I.

Lemma dict_pop_fst {V : Type} (d : py.dict V) (k : string) :
  (dict_pop d k).1 = py.dict_get d k.
Proof.
  induction d as [|[k0 v0] d IH]; [reflexivity|]. cbn [dict_pop py.dict_get].
  destruct (String.eqb k0 k); [reflexivity|].
  destruct (dict_pop d k). exact IH.
Qed.

Lemma dict_pop_other {V : Type} (d : py.dict V) (k k' : string) :
  k <> k' -> py.dict_get (dict_pop d k).2 k' = py.dict_get d k'.
Proof.
  intros Hne. induction d as [|[k0 v0] d IH]; [reflexivity|]. cbn [dict_pop py.dict_get].
  destruct (String.eqb k0 k) eqn:Hk.
  - apply String.eqb_eq in Hk. subst k0.
    apply String.eqb_neq in Hne. now rewrite Hne.
  - destruct (dict_pop d k) as [r t]. cbn [snd py.dict_get] in *.
    destruct (String.eqb k0 k'); [reflexivity | exact IH].
Qed.

Lemma dict_pop_absent {V : Type} (d : py.dict V) (k k' : string) :
  py.dict_get d k' = None -> py.dict_get (dict_pop d k).2 k' = None.
Proof.
  induction d as [|[k0 v0] d IH]; [reflexivity|]. cbn [dict_pop py.dict_get].
  destruct (String.eqb k0 k') eqn:Hk'; [discriminate|]. intros Habsent.
  destruct (String.eqb k0 k); [exact Habsent|].
  destruct (dict_pop d k) as [r t]. cbn [snd py.dict_get] in *.
  rewrite Hk'. now apply IH.
Qed.

(** A key occurs at most once in a dictionary. *)
Lemma dict_set_keys {V : Type} (d : py.dict V) (k : string) (v : V) :
  NoDup d.*1 -> NoDup (py.dict_set d k v).*1
  /\ forall k', k' ∈ (py.dict_set d k v).*1 -> k' = k \/ k' ∈ d.*1.
Proof.
  induction d as [|[k0 v0] d IH]; cbn [py.dict_set].
  - intros _. split; [apply NoDup_singleton|].
    intros k' Hin. left. cbn in Hin. now apply list_elem_of_singleton in Hin.
  - intros Hnd. apply NoDup_cons in Hnd as [Hk0 Hnd].
    destruct (String.eqb k0 k) eqn:Hk.
    + split; [cbn; apply NoDup_cons; now split|]. intros k' Hin. now right.
    + destruct (IH Hnd) as [IHnd IHin]. split.
      * cbn. apply NoDup_cons. split; [|exact IHnd].
        intros Hin. destruct (IHin _ Hin) as [-> | Hin']; [|contradiction].
        now rewrite String.eqb_refl in Hk.
      * intros k' Hin. cbn in Hin. apply elem_of_cons in Hin as [-> | Hin].
        -- right. cbn. apply elem_of_cons. now left.
        -- destruct (IHin _ Hin) as [-> | Hin']; [now left|].
           right. cbn. apply elem_of_cons. now right.
Qed.

Lemma dict_get_None {V : Type} (d : py.dict V) (k : string) :
  py.dict_get d k = None <-> k ∉ d.*1.
Proof.
  induction d as [|[k0 v0] d IH]; cbn [py.dict_get].
  - split; [intros _; apply not_elem_of_nil | reflexivity].
  - cbn. rewrite not_elem_of_cons. destruct (String.eqb k0 k) eqn:Hk.
    + apply String.eqb_eq in Hk. subst k0. split; [discriminate | now intros [? _]].
    + apply String.eqb_neq in Hk. rewrite IH. split; [intros ?; split; congruence | now intros [_ ?]].
Qed.

(** Once popped, a key of a dictionary is gone. *)
Lemma dict_pop_gone {V : Type} (d : py.dict V) (k : string) :
  NoDup d.*1 -> py.dict_get (dict_pop d k).2 k = None.
Proof.
  induction d as [|[k0 v0] d IH]; [reflexivity|]. cbn [dict_pop].
  intros Hnd. apply NoDup_cons in Hnd as [Hk0 Hnd].
  destruct (String.eqb k0 k) eqn:Hk.
  - apply String.eqb_eq in Hk. subst k0. cbn [snd]. now apply dict_get_None.
  - destruct (dict_pop d k) as [r t]. cbn [snd py.dict_get] in *.
    rewrite Hk. now apply IH.
Qed.

Lemma dict_pop_keys {V : Type} (d : py.dict V) (k : string) :
  NoDup d.*1 -> NoDup (dict_pop d k).2.*1.
Proof.
  induction d as [|[k0 v0] d IH]; [intros _; apply NoDup_nil_2|]. cbn [dict_pop].
  intros Hnd. apply NoDup_cons in Hnd as [Hk0 Hnd].
  destruct (String.eqb k0 k); [exact Hnd|].
  pose proof (dict_pop_absent d k k0) as Habsent.
  destruct (dict_pop d k) as [r t]. cbn [snd] in *. cbn.
  apply NoDup_cons. split; [|now apply IH].
  apply dict_get_None, Habsent. now apply dict_get_None.
Qed.

(** The loop over the entry writes the keys of the entry only, never
    [userPassword], and keeps every key single. *)
Lemma decode_entry_spec (search_result : Entry) :
  forall decoded_result d : py.dict attr,
    decode_entry search_result decoded_result = py.Ok d ->
    py.dict_get d "userPassword" = py.dict_get decoded_result "userPassword"
    /\ (NoDup decoded_result.*1 -> NoDup d.*1)
    /\ forall k, py.dict_get search_result k = None ->
                 py.dict_get d k = py.dict_get decoded_result k.
Proof.
  induction search_result as [|[k v] rest IH]; intros acc d Hrun; cbn [decode_entry] in Hrun.
  - apply Ok_inj in Hrun. now subst d.
  - assert (Hskip : decode_entry rest acc = py.Ok d ->
            py.dict_get d "userPassword" = py.dict_get acc "userPassword"
            /\ (NoDup acc.*1 -> NoDup d.*1)
            /\ forall k', py.dict_get ((k, v) :: rest) k' = None ->
                          py.dict_get d k' = py.dict_get acc k').
    { intros Hrest. destruct (IH _ _ Hrest) as (Hpw & Hnd & Hother).
      repeat split; [exact Hpw | exact Hnd |].
      intros k' Hk'. cbn [py.dict_get] in Hk'.
      destruct (String.eqb k k'); [discriminate | now apply Hother]. }
    assert (Hset : forall a, k <> "userPassword" ->
              decode_entry rest (py.dict_set acc k a) = py.Ok d ->
              py.dict_get d "userPassword" = py.dict_get acc "userPassword"
              /\ (NoDup acc.*1 -> NoDup d.*1)
              /\ forall k', py.dict_get ((k, v) :: rest) k' = None ->
                            py.dict_get d k' = py.dict_get acc k').
    { intros a Hk Hrest. destruct (IH _ _ Hrest) as (Hpw & Hnd & Hother).
      split; [now rewrite Hpw, dict_get_set_ne|].
      split; [intros Hacc; apply Hnd; now apply dict_set_keys|].
      intros k' Hk'. cbn [py.dict_get] in Hk'.
      destruct (String.eqb k k') eqn:Hkk'; [discriminate|].
      apply String.eqb_neq in Hkk'. rewrite (Hother _ Hk'). now apply dict_get_set_ne. }
    destruct (String.eqb k "userPassword") eqn:Hk; [now apply Hskip|].
    apply String.eqb_neq in Hk.
    destruct v as [|v0 [|v1 v]]; [now apply Hskip | |].
    + destruct (utf8.decode v0); [|discriminate]. now apply (Hset (One a)).
    + destruct (decode_all _); [|discriminate]. now apply (Hset (Many a)).
Qed.

(** A single-valued attribute of the entry is found, decoded, in
    [decoded_result]. *)
Lemma decode_entry_single (search_result : Entry) (k v0 : string) :
  NoDup search_result.*1 ->
  py.dict_get search_result k = Some [v0] ->
  k <> "userPassword" ->
  forall decoded_result d : py.dict attr,
    decode_entry search_result decoded_result = py.Ok d ->
    py.dict_get d k = Some (One v0).
Proof.
  induction search_result as [|[k1 v1] rest IH]; [discriminate|].
  intros Hnd Hget Hk acc d Hrun. cbn in Hnd. apply NoDup_cons in Hnd as [Hk1 Hnd].
  cbn [py.dict_get] in Hget. cbn [decode_entry] in Hrun.
  destruct (String.eqb k1 k) eqn:Hk1k.
  - apply String.eqb_eq in Hk1k. subst k1. injection Hget as ->.
    apply String.eqb_neq in Hk. rewrite Hk in Hrun.
    unfold utf8.decode in Hrun. destruct (utf8.valid v0); [|discriminate].
    cbn [py.bind] in Hrun.
    destruct (decode_entry_spec _ _ _ Hrun) as (_ & _ & Hother).
    rewrite (Hother k); [apply dict_get_set_eq | now apply dict_get_None].
  - destruct (String.eqb k1 "userPassword"); [now apply (IH Hnd Hget Hk acc)|].
    destruct v1 as [|a [|b v1]]; [now apply (IH Hnd Hget Hk acc) | |].
    + destruct (utf8.decode a); [|discriminate]. now apply (IH Hnd Hget Hk _ _ Hrun).
    + destruct (decode_all _); [|discriminate]. now apply (IH Hnd Hget Hk _ _ Hrun).
Qed.

Lemma move_attribute_spec {T : Type} (key name : string) (ret ret' : py.dict (field T))
    (d d' : py.dict attr) :
  move_attribute key name ret d = (ret', d') ->
  d' = (dict_pop d name).2
  /\ (forall k, k <> key -> py.dict_get ret' k = py.dict_get ret k)
  /\ py.dict_get ret' key
     = match py.dict_get d name with
       | Some v => Some (FValue v)
       | None => py.dict_get ret key
       end.
Proof.
  unfold move_attribute. rewrite <- (dict_pop_fst d name).
  destruct (dict_pop d name) as [[v|] t]; intros [= <- <-]; cbn [fst snd].
  - repeat split; [|apply dict_get_set_eq]. intros k Hk. now apply dict_get_set_ne.
  - repeat split.
Qed.

Lemma set_suspended_spec {T : Type} (v : option attr) (ret ret' : py.dict (field T)) :
  set_suspended v ret = py.Ok ret' ->
  forall k, k <> "suspended" -> py.dict_get ret' k = py.dict_get ret k.
Proof.
  unfold set_suspended. intros Hrun k Hk.
  destruct v as [[text|]|]; [| discriminate | now apply Ok_inj in Hrun; subst].
  destruct (py.int text) as [z|[]]; try discriminate; apply Ok_inj in Hrun; subst ret';
    [now apply dict_get_set_ne | reflexivity].
Qed.

Lemma set_timestamp_spec `{Strptime} (key first second : string)
    (ret ret' : py.dict (field datetime)) (d d' : py.dict attr) :
  set_timestamp key first second ret d = py.Ok (ret', d') ->
  (forall k, k <> key -> py.dict_get ret' k = py.dict_get ret k)
  /\ (forall k, py.dict_get d k = None -> py.dict_get d' k = None)
  /\ (NoDup d.*1 -> NoDup d'.*1).
Proof.
  unfold set_timestamp. intros Hrun.
  pose proof (dict_pop_absent d first) as Ha1. pose proof (dict_pop_keys d first) as Hn1.
  destruct (dict_pop d first) as [[v|] d1]; cbn [snd] in *.
  - destruct (_parse_timestamp v); [|discriminate]. apply Ok_inj in Hrun.
    injection Hrun as <- <-. repeat split; [|exact Ha1|exact Hn1].
    intros k Hk. now apply dict_get_set_ne.
  - pose proof (dict_pop_absent d1 second) as Ha2.
    pose proof (dict_pop_keys d1 second) as Hn2.
    destruct (dict_pop d1 second) as [[v|] d2]; cbn [snd] in *.
    + destruct (_parse_timestamp v); [|discriminate]. apply Ok_inj in Hrun.
      injection Hrun as <- <-. repeat split; [|now auto|now auto].
      intros k Hk. now apply dict_get_set_ne.
    + apply Ok_inj in Hrun. injection Hrun as <- <-. repeat split; now auto.
Qed.

(** The steps of [_normalize_credentials], one after the other. *)
Lemma normalize_steps `{Strptime} (st : Settings) (dn : string) (search_result : Entry)
    (ret : py.dict (field datetime)) :
  _normalize_credentials st dn search_result = py.Ok ret ->
  exists (d0 d1 d2 d3 d4 d5 d6 d7 : py.dict attr) (v u : option attr)
         (ret2 ret3 ret4 ret5 ret6 ret7 : py.dict (field datetime)),
    decode_entry search_result [("dn", One dn)] = py.Ok d0
    /\ dict_pop d0 (attrusername st) = (v, d1)
    /\ move_attribute "full_name" "cn"
         (py.dict_set
            [("_id", FValue (One (_format_credentials_id (provider st) dn)));
             ("_type", FValue (One Type_));
             ("_provider_id", FValue (One (ProviderID st)))]
            "username" (FValue (default (One dn) v))) d1 = (ret2, d2)
    /\ move_attribute "email" "mail" ret2 d2 = (ret3, d3)
    /\ move_attribute "phone" "mobile" ret3 d3 = (ret4, d4)
    /\ dict_pop d4 "userAccountControl" = (u, d5)
    /\ set_suspended u ret4 = py.Ok ret5
    /\ set_timestamp "_c" "createTimestamp" "createTimeStamp" ret5 d5 = py.Ok (ret6, d6)
    /\ set_timestamp "_m" "modifyTimestamp" "modifyTimeStamp" ret6 d6 = py.Ok (ret7, d7)
    /\ ret = match d7 with
             | [] => ret7
             | _ :: _ => py.dict_set ret7 "_ldap" (FDict d7)
             end.
Proof.
  unfold _normalize_credentials. intros Hrun.
  destruct (decode_entry _ _) as [d0|] eqn:H0; [|discriminate]. cbn [py.bind] in Hrun.
  destruct (dict_pop d0 _) as [v d1] eqn:H1.
  destruct (move_attribute "full_name" _ _ _) as [ret2 d2] eqn:H2.
  destruct (move_attribute "email" _ _ _) as [ret3 d3] eqn:H3.
  destruct (move_attribute "phone" _ _ _) as [ret4 d4] eqn:H4.
  destruct (dict_pop d4 _) as [u d5] eqn:Hu.
  destruct (set_suspended u ret4) as [ret5|] eqn:H5; [|discriminate]. cbn [py.bind] in Hrun.
  destruct (set_timestamp "_c" _ _ _ _) as [[ret6 d6]|] eqn:H6; [|discriminate].
  cbn [py.bind] in Hrun.
  destruct (set_timestamp "_m" _ _ _ _) as [[ret7 d7]|] eqn:H7; [|discriminate].
  cbn [py.bind] in Hrun. apply Ok_inj in Hrun.
  exists d0, d1, d2, d3, d4, d5, d6, d7, v, u, ret2, ret3, ret4, ret5, ret6, ret7.
  repeat split; try assumption. now symmetry.
Qed.

(** What the steps leave alone: a key of [ret] that none of them writes
    keeps its value up to [_ldap], and an attribute that is not in
    [decoded_result] after the loop is in it at no later point. *)
Lemma normalize_frame `{Strptime} (st : Settings) (dn : string) (search_result : Entry)
    (ret : py.dict (field datetime)) :
  _normalize_credentials st dn search_result = py.Ok ret ->
  exists (d0 d7 : py.dict attr) (ret5 ret7 : py.dict (field datetime)),
    decode_entry search_result [("dn", One dn)] = py.Ok d0
    /\ ret = match d7 with
             | [] => ret7
             | _ :: _ => py.dict_set ret7 "_ldap" (FDict d7)
             end
    /\ (forall k, py.dict_get d0 k = None -> py.dict_get d7 k = None)
    /\ (forall k, k ∉ ["username"; "full_name"; "email"; "phone"; "suspended"; "_c"; "_m"] ->
                  py.dict_get ret7 k
                  = py.dict_get
                      [("_id", FValue (One (_format_credentials_id (provider st) dn)));
                       ("_type", FValue (One Type_));
                       ("_provider_id", FValue (One (ProviderID st)))] k)
    /\ py.dict_get ret7 "username"
       = Some (FValue (default (One dn) (py.dict_get d0 (attrusername st))))
    /\ py.dict_get ret7 "full_name"
       = option_map FValue (py.dict_get (dict_pop d0 (attrusername st)).2 "cn")
    /\ set_suspended
         (py.dict_get
            (dict_pop (dict_pop (dict_pop (dict_pop d0 (attrusername st)).2 "cn").2 "mail").2
               "mobile").2 "userAccountControl")
         (move_attribute "phone" "mobile"
            (move_attribute "email" "mail"
               (move_attribute "full_name" "cn"
                  (py.dict_set
                     [("_id", FValue (One (_format_credentials_id (provider st) dn)));
                      ("_type", FValue (One Type_));
                      ("_provider_id", FValue (One (ProviderID st)))]
                     "username"
                     (FValue (default (One dn) (py.dict_get d0 (attrusername st)))))
                  (dict_pop d0 (attrusername st)).2).1
               (dict_pop (dict_pop d0 (attrusername st)).2 "cn").2).1
            (dict_pop (dict_pop (dict_pop d0 (attrusername st)).2 "cn").2 "mail").2).1
       = py.Ok ret5
    /\ py.dict_get ret7 "suspended" = py.dict_get ret5 "suspended".
Proof.
  intros Hrun.
  destruct (normalize_steps st dn search_result ret Hrun)
    as (d0 & d1 & d2 & d3 & d4 & d5 & d6 & d7 & v & u & ret2 & ret3 & ret4 & ret5 & ret6 & ret7
        & H0 & H1 & H2 & H3 & H4 & Hu & H5 & H6 & H7 & Hret).
  pose proof (dict_pop_fst d0 (attrusername st)) as Hv. rewrite H1 in Hv. cbn [fst] in Hv.
  assert (Hd1 : d1 = (dict_pop d0 (attrusername st)).2) by now rewrite H1.
  pose proof (dict_pop_fst d4 "userAccountControl") as Hu'. rewrite Hu in Hu'. cbn [fst] in Hu'.
  assert (Hd5 : d5 = (dict_pop d4 "userAccountControl").2) by now rewrite Hu.
  pose proof H2 as H2'. pose proof H3 as H3'. pose proof H4 as H4'.
  destruct (move_attribute_spec _ _ _ _ _ _ H2) as (Hd2 & Hf2 & Hk2).
  destruct (move_attribute_spec _ _ _ _ _ _ H3) as (Hd3 & Hf3 & Hk3).
  destruct (move_attribute_spec _ _ _ _ _ _ H4) as (Hd4 & Hf4 & Hk4).
  pose proof (set_suspended_spec _ _ _ H5) as Hf5.
  destruct (set_timestamp_spec _ _ _ _ _ _ _ H6) as (Hf6 & Ha6 & _).
  destruct (set_timestamp_spec _ _ _ _ _ _ _ H7) as (Hf7 & Ha7 & _).
  exists d0, d7, ret5, ret7. split; [exact H0|]. split; [exact Hret|].
  split.
  { intros k Hk. apply Ha7, Ha6. subst d5 d4 d3 d2 d1.
    now do 5 apply dict_pop_absent. }
  split.
  { intros k Hk.
    rewrite Hf7, Hf6, Hf5, Hf4, Hf3, Hf2, dict_get_set_ne;
      [reflexivity | ..]; intros E; apply Hk; subst k; by_evaluation. }
  split.
  { rewrite Hf7, Hf6, Hf5, Hf4, Hf3, Hf2 by discriminate.
    rewrite dict_get_set_eq. now subst v. }
  split.
  { rewrite Hf7, Hf6, Hf5, Hf4, Hf3 by discriminate.
    rewrite Hk2, dict_get_set_ne by discriminate. subst d1.
    now destruct (py.dict_get _ "cn"). }
  split.
  { subst v d1. rewrite H2'. cbn [fst snd]. subst d2. rewrite H3'. cbn [fst snd].
    subst d3. rewrite H4'. cbn [fst]. subst d4. now rewrite <- Hu'. }
  now rewrite Hf7, Hf6 by discriminate.
Qed.

(** X3.  The credentials that [_normalize_credentials] returns never
    carry the [userPassword] attribute of the entry, neither as a field of
    their own nor among the attributes kept under [_ldap]. *)
Theorem normalized_credentials_never_carry_the_password `{Strptime} (st : Settings)
    (dn : string) (search_result : Entry) (ret : py.dict (field datetime)) :
  _normalize_credentials st dn search_result = py.Ok ret ->
  py.dict_get ret "userPassword" = None
  /\ forall d, py.dict_get ret "_ldap" = Some (FDict d) ->
               py.dict_get d "userPassword" = None.
Proof.
  intros Hrun.
  destruct (normalize_frame st dn search_result ret Hrun)
    as (d0 & d7 & ret5 & ret7 & H0 & Hret & Habsent & Hframe & _).
  destruct (decode_entry_spec _ _ _ H0) as (Hpw & _ & _).
  assert (Hd7 : py.dict_get d7 "userPassword" = None) by now apply Habsent.
  assert (Hr7 : py.dict_get ret7 "userPassword" = None) by (rewrite Hframe; [reflexivity | by_evaluation]).
  assert (Hl7 : py.dict_get ret7 "_ldap" = None) by (rewrite Hframe; [reflexivity | by_evaluation]).
  subst ret. destruct d7 as [|kv d7].
  - split; [exact Hr7|]. intros d Hd. congruence.
  - split; [now rewrite dict_get_set_ne|].
    intros d Hd. rewrite dict_get_set_eq in Hd. now injection Hd as <-.
Qed.

Lemma normalized_credentials_password_witness :
  exists ret : py.dict (field datetime_ref.datetime),
    _normalize_credentials (H := datetime_ref.reference) sample_directory.settings
      "cn=alice,dc=example,dc=org" sample_directory.alice_entry = py.Ok ret
    /\ py.dict_get sample_directory.alice_entry "userPassword" = Some ["{SSHA}c2VjcmV0"]
    /\ py.dict_get ret "_ldap"
       = Some (FDict [("dn", One "cn=alice,dc=example,dc=org"); ("sn", One "Liddell")])
    /\ py.dict_get ret "userPassword" = None
    /\ forall d, py.dict_get ret "_ldap" = Some (FDict d) ->
                 py.dict_get d "userPassword" = None.
Proof.
  eexists. split; [vm_compute; reflexivity|].
  split; [reflexivity|]. split; [reflexivity|].
  apply (normalized_credentials_never_carry_the_password (H := datetime_ref.reference)
           sample_directory.settings "cn=alice,dc=example,dc=org"
           sample_directory.alice_entry).
  vm_compute. reflexivity.
Defined.

(** X4.  The normalized credentials always have a [username]: the value
    of the configured username attribute when the entry has one, and the
    [dn] of the entry when it has none. *)
Theorem normalized_credentials_always_have_a_username `{Strptime} (st : Settings)
    (dn : string) (search_result : Entry) (ret : py.dict (field datetime)) :
  _normalize_credentials st dn search_result = py.Ok ret ->
  exists v : attr,
    py.dict_get ret "username" = Some (FValue v)
    /\ (py.dict_get search_result (attrusername st) = None ->
        attrusername st <> "dn" -> v = One dn)
    /\ (forall value, NoDup search_result.*1 ->
          py.dict_get search_result (attrusername st) = Some [value] ->
          attrusername st <> "userPassword" -> v = One value).
Proof.
  intros Hrun.
  destruct (normalize_frame st dn search_result ret Hrun)
    as (d0 & d7 & ret5 & ret7 & H0 & Hret & _ & _ & Huser & _).
  exists (default (One dn) (py.dict_get d0 (attrusername st))). split.
  - subst ret. destruct d7; [exact Huser|]. now rewrite dict_get_set_ne.
  - split.
    + intros Hnone Hdn. destruct (decode_entry_spec _ _ _ H0) as (_ & _ & Hother).
      rewrite (Hother _ Hnone). cbn [py.dict_get].
      destruct (String.eqb "dn" (attrusername st)) eqn:E; [|reflexivity].
      apply String.eqb_eq in E. congruence.
    + intros value Hnd Hvalue Hpw.
      now rewrite (decode_entry_single _ _ _ Hnd Hvalue Hpw _ _ H0).
Qed.

Lemma normalized_credentials_username_witness :
  exists v : attr,
    py.dict_get
      (match _normalize_credentials (H := datetime_ref.reference) sample_directory.settings
               "cn=alice,dc=example,dc=org" [("mail", ["alice@example.org"])] with
       | py.Ok ret => ret
       | py.Raise _ => []
       end) "username" = Some (FValue v)
    /\ v = One "cn=alice,dc=example,dc=org".
Proof.
  destruct (normalized_credentials_always_have_a_username (H := datetime_ref.reference)
              sample_directory.settings "cn=alice,dc=example,dc=org"
              [("mail", ["alice@example.org"])] _ eq_refl) as (v & Hv & Hdn & _).
  exists v. split; [exact Hv|]. apply Hdn; [reflexivity | discriminate].
Defined.

(** X5.  Where the username attribute is [cn], as in the provider's
    defaults, the [cn] of the entry is used up as the username and the
    normalized credentials have no [full_name]. *)
Theorem cn_as_username_leaves_no_full_name `{Strptime} (st : Settings)
    (dn : string) (search_result : Entry) (ret : py.dict (field datetime)) :
  attrusername st = "cn" ->
  _normalize_credentials st dn search_result = py.Ok ret ->
  py.dict_get ret "full_name" = None.
Proof.
  intros Hcn Hrun.
  destruct (normalize_frame st dn search_result ret Hrun)
    as (d0 & d7 & ret5 & ret7 & H0 & Hret & _ & _ & _ & Hfull & _).
  destruct (decode_entry_spec _ _ _ H0) as (_ & Hnd & _).
  rewrite Hcn, dict_pop_gone in Hfull.
  - subst ret. destruct d7; [exact Hfull|]. now rewrite dict_get_set_ne.
  - apply Hnd. apply NoDup_singleton.
Qed.

Lemma cn_as_username_witness :
  exists ret : py.dict (field datetime_ref.datetime),
    _normalize_credentials (H := datetime_ref.reference) sample_directory.settings
      "cn=alice,dc=example,dc=org" sample_directory.alice_entry = py.Ok ret
    /\ py.dict_get sample_directory.alice_entry "cn" = Some ["alice"]
    /\ py.dict_get ret "username" = Some (FValue (One "alice"))
    /\ py.dict_get ret "full_name" = None.
Proof.
  eexists. split; [vm_compute; reflexivity|].
  split; [reflexivity|]. split; [reflexivity|].
  apply (cn_as_username_leaves_no_full_name (H := datetime_ref.reference)
           sample_directory.settings "cn=alice,dc=example,dc=org"
           sample_directory.alice_entry); [reflexivity|].
  vm_compute. reflexivity.
Defined.

(** [n & 2 == 2] tests the bit of weight 2. *)
Lemma land_2_testbit (z : Z) : Z.eqb (Z.land z 2) 2 = Z.testbit z 1.
Proof.
  assert (Hland : Z.land z 2 = if Z.testbit z 1 then 2%Z else 0%Z).
  { apply Z.bits_inj'. intros n Hn. rewrite Z.land_spec.
    change 2%Z with (2 ^ 1)%Z at 1. rewrite Z.pow2_bits_eqb by lia.
    destruct (Z.eqb_spec 1 n) as [<- | Hne].
    - rewrite andb_true_r. destruct (Z.testbit z 1); [reflexivity|].
      now rewrite Z.bits_0.
    - rewrite andb_false_r. destruct (Z.testbit z 1); [|now rewrite Z.bits_0].
      change 2%Z with (2 ^ 1)%Z. rewrite Z.pow2_bits_eqb by lia.
      symmetry. now apply Z.eqb_neq. }
  rewrite Hland. now destruct (Z.testbit z 1).
Qed.

Lemma move_attribute_other {T : Type} (key name k : string) (ret : py.dict (field T))
    (d : py.dict attr) :
  k <> key -> py.dict_get (move_attribute key name ret d).1 k = py.dict_get ret k.
Proof.
  intros Hk. destruct (move_attribute key name ret d) as [ret' d'] eqn:Hmove.
  destruct (move_attribute_spec _ _ _ _ _ _ Hmove) as (_ & Hother & _).
  now apply Hother.
Qed.

(** X6.  [suspended] is the ACCOUNTDISABLE flag of the entry's
    [userAccountControl]: the bit of weight 2 of the decimal number the
    attribute holds (an ASCII text, for which [py.int] is [int], its limit
    of 4300 digits included).  A value that [int] refuses leaves the
    credentials without [suspended] and does not fail the lookup. *)
Theorem suspended_is_the_account_disable_flag `{Strptime} (st : Settings)
    (dn text : string) (search_result : Entry) (ret : py.dict (field datetime)) :
  NoDup search_result.*1 ->
  py.dict_get search_result "userAccountControl" = Some [text] ->
  base64.is_ascii text = true ->
  attrusername st <> "userAccountControl" ->
  _normalize_credentials st dn search_result = py.Ok ret ->
  py.dict_get ret "suspended"
  = match py.int text with
    | py.Ok z => Some (FBool (Z.testbit z 1))
    | py.Raise _ => None
    end.
Proof.
  intros Hnd Hflag _ Hattr Hrun.
  destruct (normalize_frame st dn search_result ret Hrun)
    as (d0 & d7 & ret5 & ret7 & H0 & Hret & _ & _ & _ & _ & Hsusp & Hkeep).
  assert (Hfinal : py.dict_get ret "suspended" = py.dict_get ret5 "suspended").
  { subst ret. destruct d7; [exact Hkeep|]. now rewrite dict_get_set_ne. }
  rewrite Hfinal. clear Hfinal Hkeep Hret.
  rewrite !dict_pop_other in Hsusp by (assumption || discriminate).
  rewrite (decode_entry_single _ _ _ Hnd Hflag ltac:(discriminate) _ _ H0) in Hsusp.
  cbn [set_suspended] in Hsusp.
  destruct (py.int text) as [z|e].
  - apply Ok_inj in Hsusp. subst ret5. now rewrite dict_get_set_eq, land_2_testbit.
  - destruct e; try discriminate. apply Ok_inj in Hsusp. subst ret5.
    rewrite !move_attribute_other by discriminate.
    now rewrite dict_get_set_ne.
Qed.

Lemma suspended_flag_witness :
  py.dict_get
    (match _normalize_credentials (H := datetime_ref.reference) sample_directory.settings
             "cn=alice,dc=example,dc=org" sample_directory.alice_entry with
     | py.Ok ret => ret
     | py.Raise _ => []
     end) "suspended"
  = match py.int "514" with
    | py.Ok z => Some (FBool (Z.testbit z 1))
    | py.Raise _ => None
    end
  /\ py.int "514" = py.Ok 514%Z
  /\ Z.testbit 514 1 = true.
Proof.
  split; [|split; reflexivity].
  apply (suspended_is_the_account_disable_flag (H := datetime_ref.reference)
           sample_directory.settings "cn=alice,dc=example,dc=org" "514"
           sample_directory.alice_entry).
  - apply (bool_decide_unpack _). vm_compute. exact I.
  - reflexivity.
  - reflexivity.
  - discriminate.
  - vm_compute. reflexivity.
Defined.

End ldap_normalization.

(** ** The [Cookie] header *)

Section cookie_header_properties.
Import app web cookie cookie_header.

Lemma after_literal_length (p s t : string) :
  after_literal p s = Some t -> String.length t <= String.length s.
Proof.
  revert s. induction p as [|a p IH]; intros s; cbn [after_literal].
  - now intros [= ->].
  - destruct s as [|b s]; [discriminate|].
    destruct (Ascii.eqb a b); [|discriminate].
    intros Hs. apply IH in Hs. cbn. lia.
Qed.

Lemma after_value_length (s : string) : String.length (after_value s) <= String.length s.
Proof.
  induction s as [|c s IH]; cbn [after_value]; [lia|].
  destruct (Ascii.eqb c ";"); cbn; lia.
Qed.

(** A match of the pattern is never empty. *)
Lemma match_here_shorter (name : string) (b : bool) (s rest : string) :
  match_here name b s = Some rest -> String.length rest < String.length s.
Proof.
  unfold match_here.
  assert (Hfirst : forall r, match_first name s = Some r -> String.length r < String.length s).
  { unfold match_first. intros r.
    destruct (after_literal _ s) as [v|] eqn:Hv; [|discriminate].
    apply after_literal_length in Hv.
    pose proof (after_value_length v) as Hlen.
    destruct (after_value v) as [|c t]; [discriminate|].
    intros [= <-]. cbn in Hlen. unfold after_optional_space.
    destruct t as [|c' t']; [cbn; lia|]. destruct (Ascii.eqb c' " "); cbn in *; lia. }
  assert (Hsecond : forall r, match_second name s = Some r ->
                              String.length r < String.length s).
  { unfold match_second. intros r. destruct s as [|c t]; [discriminate|].
    destruct (Ascii.eqb c ";"); [|discriminate].
    assert (Hany : forall u v, after_literal (py.cat name "=") u = Some v ->
                               String.length u <= String.length t ->
                               String.length (after_value v) < String.length (String c t)).
    { intros u v Hv Hu. apply after_literal_length in Hv.
      pose proof (after_value_length v). cbn. lia. }
    destruct t as [|b' t'].
    { destruct (after_literal _ EmptyString) as [v|] eqn:Hv; [|discriminate].
      intros [= <-]. now apply (Hany _ v Hv). }
    destruct (Ascii.eqb b' " ").
    - destruct (after_literal _ t') as [v|] eqn:Hv.
      + intros [= <-]. apply (Hany t' v Hv). cbn. lia.
      + destruct (after_literal _ (String b' t')) as [v|] eqn:Hv'; [|discriminate].
        intros [= <-]. now apply (Hany _ v Hv').
    - destruct (after_literal _ (String b' t')) as [v|] eqn:Hv'; [|discriminate].
      intros [= <-]. now apply (Hany _ v Hv'). }
  destruct b.
  - destruct (match_first name s) as [r|] eqn:Hr; [intros [= <-]; now apply Hfirst|].
    apply Hsecond.
  - apply Hsecond.
Qed.

(** Fuel beyond the length of the text is never used. *)
Lemma sub_scan_fuel (name : string) (fuel fuel' : nat) :
  forall (b : bool) (s : string),
    String.length s <= fuel -> String.length s <= fuel' ->
    sub_scan fuel name b s = sub_scan fuel' name b s.
Proof.
  revert fuel'. induction fuel as [|fuel IH]; intros fuel' b s Hf Hf'.
  - destruct s; [|cbn in Hf; lia]. now destruct fuel'.
  - destruct fuel' as [|fuel'].
    { destruct s; [reflexivity | cbn in Hf'; lia]. }
    destruct s as [|c t]; [reflexivity|]. rewrite !sub_scan_step.
    destruct (match_here name b (String c t)) as [rest|] eqn:Hm.
    + apply match_here_shorter in Hm. cbn in *. apply IH; lia.
    + f_equal. cbn in *. apply IH; lia.
Qed.

Lemma join_separated (c : string) (cookies : list string) :
  py.join "; " (c :: cookies) = py.cat c (separated cookies).
Proof.
  revert c. induction cookies as [|c1 cookies IH]; intros c.
  - cbn. now rewrite cat_empty_r.
  - change (py.join "; " (c :: c1 :: cookies))
      with (py.cat c (py.cat "; " (py.join "; " (c1 :: cookies)))).
    now rewrite IH.
Qed.

Lemma after_literal_app (p c v t : string) :
  after_literal p c = Some v -> after_literal p (py.cat c t) = Some (py.cat v t).
Proof.
  revert c. induction p as [|a p IH]; intros c; cbn [after_literal].
  - now intros [= ->].
  - destruct c as [|b c]; [discriminate|].
    change (py.cat (String b c) t) with (String b (py.cat c t)). cbn [after_literal].
    destruct (Ascii.eqb a b); [apply IH | discriminate].
Qed.

Lemma separated_follows (cookies : list string) : follows_a_cookie (separated cookies).
Proof. destruct cookies; [now left | right; eexists; reflexivity]. Qed.

Lemma after_literal_app_None (p c t : string) :
  after_literal p c = None ->
  urllib.has_char ";" p = false ->
  follows_a_cookie t ->
  after_literal p (py.cat c t) = None.
Proof.
  intros Hc Hp Ht. revert c Hc Hp.
  induction p as [|a p IH]; intros c Hc Hp; [discriminate|].
  cbn [urllib.has_char] in Hp. apply orb_false_iff in Hp as [Ha Hp].
  destruct c as [|b c].
  - destruct Ht as [-> | [t' ->]]; [reflexivity|].
    change (py.cat EmptyString (String ";" t')) with (String ";" t').
    cbn [after_literal]. now rewrite Ha.
  - change (py.cat (String b c) t) with (String b (py.cat c t)).
    cbn [after_literal] in *.
    destruct (Ascii.eqb a b); [now apply IH | reflexivity].
Qed.

Lemma after_value_app (v t : string) :
  urllib.has_char ";" v = false -> follows_a_cookie t -> after_value (py.cat v t) = t.
Proof.
  intros Hv Ht. induction v as [|c v IH].
  - destruct Ht as [-> | [t' ->]]; reflexivity.
  - cbn [urllib.has_char] in Hv. apply orb_false_iff in Hv as [Hc Hv].
    change (py.cat (String c v) t) with (String c (py.cat v t)).
    cbn [after_value]. rewrite Hc. now apply IH.
Qed.

Lemma after_literal_no_semicolon (p c v : string) :
  after_literal p c = Some v -> urllib.has_char ";" c = false ->
  urllib.has_char ";" v = false.
Proof.
  revert c. induction p as [|a p IH]; intros c; cbn [after_literal].
  - now intros [= ->].
  - destruct c as [|b c]; [discriminate|]. destruct (Ascii.eqb a b); [|discriminate].
    intros Hv Hc. cbn [urllib.has_char] in Hc. apply orb_false_iff in Hc as [_ Hc].
    now apply (IH c).
Qed.

(** Past the start of the header, a stretch without [;] is kept and
    scanning goes on behind it. *)
Lemma sub_scan_prefix (name pre t : string) (fuel : nat) :
  urllib.has_char ";" pre = false ->
  String.length (py.cat pre t) <= fuel ->
  sub_scan fuel name false (py.cat pre t) = py.cat pre (sub_scan fuel name false t).
Proof.
  revert fuel. induction pre as [|c pre IH]; intros fuel Hpre Hfuel; [reflexivity|].
  cbn [urllib.has_char] in Hpre. apply orb_false_iff in Hpre as [Hc Hpre].
  change (py.cat (String c pre) t) with (String c (py.cat pre t)) in *.
  cbn [String.length] in Hfuel.
  destruct fuel as [|fuel]; [lia|].
  rewrite sub_scan_step. unfold match_here, match_second. rewrite Hc.
  rewrite IH by (assumption || lia).
  change (py.cat (String c pre) ?x) with (String c (py.cat pre x)).
  f_equal. f_equal. rewrite cat_length in Hfuel.
  apply sub_scan_fuel; lia.
Qed.

Lemma name_is_no_blank (name t : string) :
  urllib.has_char " " name = false ->
  after_literal (py.cat name "=") (String " " t) = None.
Proof.
  destruct name as [|a name]; [reflexivity|].
  cbn [urllib.has_char]. intros H. apply orb_false_iff in H as [Ha _].
  change (py.cat (String a name) "=") with (String a (py.cat name "=")).
  cbn [after_literal]. now rewrite Ha.
Qed.

(** Behind the first cookie of a header, every cookie of the configured
    name is removed with the separator before it. *)
Lemma sub_scan_separated (name : string) (cookies : list string) :
  urllib.has_char ";" name = false ->
  urllib.has_char " " name = false ->
  Forall (fun c => urllib.has_char ";" c = false) cookies ->
  forall fuel : nat,
    String.length (separated cookies) <= fuel ->
    sub_scan fuel name false (separated cookies)
    = separated (filter (fun c => is_session_cookie name c = false) cookies).
Proof.
  intros Hname Hblank Hall. induction Hall as [|c cookies Hc Hall IH]; intros fuel Hfuel.
  - now destruct fuel.
  - assert (Hpattern : urllib.has_char ";" (py.cat name "=") = false)
      by now rewrite has_char_cat, Hname.
    cbn [separated] in Hfuel. rewrite !cat_length in Hfuel. cbn [String.length] in Hfuel.
    destruct fuel as [|fuel]; [lia|].
    assert (Hrest : String.length (separated cookies) <= fuel) by lia.
    cbn [separated]. change (py.cat "; " ?x) with (String ";" (String " " x)).
    rewrite sub_scan_step. unfold match_here, match_second.
    change (Ascii.eqb ";" ";") with true. change (Ascii.eqb " " " ") with true.
    cbv iota. unfold is_session_cookie in *.
    destruct (after_literal (py.cat name "=") c) as [v|] eqn:Hv.
    + rewrite (after_literal_app _ _ _ _ Hv).
      rewrite after_value_app
        by (eauto using after_literal_no_semicolon, separated_follows).
      rewrite filter_cons_False by (rewrite Hv; discriminate).
      now apply IH.
    + rewrite (after_literal_app_None _ _ _ Hv Hpattern (separated_follows _)).
      rewrite name_is_no_blank by assumption. cbn [option_map].
      rewrite filter_cons_True by now rewrite Hv.
      change (String " " (py.cat c (separated cookies)))
        with (py.cat (String " " c) (separated cookies)).
      rewrite sub_scan_prefix.
      * rewrite IH by assumption. reflexivity.
      * cbn [urllib.has_char]. now rewrite Hc.
      * rewrite !cat_length. cbn [String.length]. lia.
Qed.

Lemma sub_scan_start (name s : string) (fuel : nat) :
  sub_scan (S fuel) name true s
  = match match_first name s with
    | Some rest => sub_scan fuel name false rest
    | None => sub_scan (S fuel) name false s
    end.
Proof.
  destruct s as [|c t].
  - unfold match_first. destruct (after_literal _ EmptyString) as [v|] eqn:Hv; [|reflexivity].
    apply after_literal_length in Hv. destruct v; [|cbn in Hv; lia]. reflexivity.
  - rewrite !sub_scan_step. unfold match_here.
    now destruct (match_first name (String c t)).
Qed.

Lemma literal_name_has_no (c : ascii) (name : string) :
  literal_name name = true ->
  urllib.is_alpha c || urllib.is_digit c || Ascii.eqb c "_" || Ascii.eqb c "-" = false ->
  urllib.has_char c name = false.
Proof.
  unfold literal_name. intros Hname Hc.
  induction name as [|a name IH]; [reflexivity|].
  cbn [urllib.all_chars urllib.has_char] in *.
  apply andb_true_iff in Hname as [Ha Hname]. rewrite (IH Hname), orb_false_r.
  destruct (Ascii.eqb_spec a c) as [-> | _]; [congruence | reflexivity].
Qed.

(** X7.  For a cookie name made of letters, digits, [_] and [-] (a name
    that the pattern, which takes it unescaped, reads literally): in a
    [Cookie] header whose cookies are separated by [; ], the pattern removes
    every cookie of that name together with one separator and keeps the
    other cookies as they are, provided the header does not begin with such
    a cookie that stands alone or is directly followed by another one. *)
Theorem session_cookies_are_stripped_from_the_header (name : string)
    (cookies : list string) :
  literal_name name = true ->
  Forall (fun c => urllib.has_char ";" c = false) cookies ->
  match cookies with
  | c0 :: c1 :: _ => is_session_cookie name c0 = true -> is_session_cookie name c1 = false
  | [c0] => is_session_cookie name c0 = false
  | [] => True
  end ->
  CookiePattern_sub name (py.join "; " cookies)
  = py.join "; " (filter (fun c => is_session_cookie name c = false) cookies).
Proof.
  intros Hliteral Hall Hhead.
  assert (Hname : urllib.has_char ";" name = false)
    by now apply literal_name_has_no.
  assert (Hblank : urllib.has_char " " name = false)
    by now apply literal_name_has_no.
  destruct cookies as [|c0 cookies]; [reflexivity|].
  apply Forall_cons in Hall as [Hc0 Hall].
  assert (Hpattern : urllib.has_char ";" (py.cat name "=") = false)
    by now rewrite has_char_cat, Hname.
  rewrite join_separated. unfold CookiePattern_sub. rewrite sub_scan_start.
  unfold match_first.
  destruct (after_literal (py.cat name "=") c0) as [v|] eqn:Hv.
  - (* the header begins with a cookie of the name: another cookie follows *)
    assert (Hsession : is_session_cookie name c0 = true)
      by (unfold is_session_cookie; now rewrite Hv).
    destruct cookies as [|c1 cookies]; [congruence|].
    specialize (Hhead Hsession). apply Forall_cons in Hall as [Hc1 Hall].
    rewrite (after_literal_app _ _ _ _ Hv).
    rewrite after_value_app
      by (eauto using after_literal_no_semicolon, separated_follows).
    cbn [separated]. change (py.cat "; " ?x) with (String ";" (String " " x)).
    cbn [after_optional_space]. change (Ascii.eqb " " " ") with true. cbv iota.
    rewrite filter_cons_False by (rewrite Hsession; discriminate).
    rewrite filter_cons_True by exact Hhead.
    rewrite join_separated, sub_scan_prefix, sub_scan_separated; try assumption;
      [reflexivity | |]; rewrite !cat_length; cbn [String.length]; rewrite !cat_length; lia.
  - rewrite (after_literal_app_None _ _ _ Hv Hpattern (separated_follows _)).
    rewrite filter_cons_True by (unfold is_session_cookie; now rewrite Hv).
    rewrite join_separated, sub_scan_prefix, sub_scan_separated; try assumption;
      [reflexivity | |]; rewrite !cat_length; lia.
Qed.

Lemma session_cookies_are_stripped_witness :
  CookiePattern_sub "SeaCatSCI" (py.join "; " ["a=1"; "SeaCatSCI=auth.test:YWJj"; "b=2"])
  = py.join "; "
      (filter (fun c => is_session_cookie "SeaCatSCI" c = false)
              ["a=1"; "SeaCatSCI=auth.test:YWJj"; "b=2"])
  /\ py.join "; " ["a=1"; "SeaCatSCI=auth.test:YWJj"; "b=2"]
     = "a=1; SeaCatSCI=auth.test:YWJj; b=2"
  /\ py.join "; "
       (filter (fun c => is_session_cookie "SeaCatSCI" c = false)
               ["a=1"; "SeaCatSCI=auth.test:YWJj"; "b=2"])
     = "a=1; b=2".
Proof.
  split; [|split; vm_compute; reflexivity].
  apply session_cookies_are_stripped_from_the_header; try reflexivity.
  - repeat constructor.
  - discriminate.
Defined.






End cookie_header_properties.

(** ** The authorize endpoint: requests that are turned away *)

Section authorize_validation.
Import session app web authorize.

(** The error reply that is not bound to a redirect URI: the redirect to
    the endpoint's own authorize URL. *)
Lemma reply_error_to_authorize_url {U : urllib.UrlParser} {Y : yarl.Url} (a : App)
    (error description : string) (state : option string) :
  reply_with_authentication_error a (urllib.Str error) None (Some description) None state
  = HTTPFound
      (py.cat (PublicApiBaseUrl a)
         (py.cat "/openidconnect/authorize?"
            (py.cat "error=" (py.cat (urllib.quote_plus error)
               (py.cat "&error_description=" (py.cat (urllib.quote_plus description)
                  (state_suffix state)))))))
      [].
Proof.
  unfold reply_with_authentication_error. rewrite error_query_text.
  reflexivity.
Qed.

(** X10.  A request that lacks one of [scope], [client_id],
    [response_type] and [redirect_uri], or has it empty, is answered with
    [HTTPFound] for a URL with [error=invalid_request] and a description
    that names a missing parameter in its query: the redirect URI when that
    was given, and the endpoint's own authorize URL otherwise (a 302 whose
    [Location] is that URL as yarl quotes it; a URL that yarl rejects ends
    in its [ValueError]).  Nothing is stored and nothing is written to the
    audit trail. *)
Theorem missing_parameter_is_an_invalid_request {U : urllib.UrlParser} {Y : yarl.Url}
    (a : App) (w : World) (order : list string) (request : Request)
    (request_parameters : Parameters) (parameter : string) :
  parameter ∈ order ->
  missing request_parameters parameter = true ->
  exists first : string,
    first ∈ order
    /\ missing request_parameters first = true
    /\ let error_text :=
         py.cat "error=invalid_request&error_description="
           (py.cat (urllib.quote_plus (py.cat "Missing required parameter: " first))
              (state_suffix (web.get (items request_parameters) "state"))) in
       authorize a w order request request_parameters
       = (match web.get (items request_parameters) "redirect_uri" with
          | Some (String c uri) =>
              parsed <-? urllib.urlparse (String c uri) ;;
              HTTPFound
                (py.cat (String c uri)
                   (py.cat "?" (py.cat (query_prefix parsed) error_text)))
                []
          | _ =>
              HTTPFound
                (py.cat (PublicApiBaseUrl a)
                   (py.cat "/openidconnect/authorize?" error_text))
                []
          end, w).
Proof.
  intros Hin Hmissing. unfold authorize.
  destruct (filter _ order) as [|first rest] eqn:Hfilter.
  { exfalso. eapply filter_nil_not_elem_of; [exact Hfilter | exact Hmissing | exact Hin]. }
  assert (Hfirst : first ∈ filter (fun p => missing request_parameters p = true) order)
    by (rewrite Hfilter; apply elem_of_cons; now left).
  apply list_elem_of_filter in Hfirst as [Hfirst_missing Hfirst_in].
  exists first. split; [exact Hfirst_in|]. split; [exact Hfirst_missing|].
  cbv zeta. f_equal.
  destruct (web.get (items request_parameters) "redirect_uri") as [[|c uri]|].
  - cbn [urllib.nonempty]. apply reply_error_to_authorize_url.
  - cbn [urllib.nonempty].
    destruct (urllib.urlparse (String c uri)) as [parsed|e] eqn:Hparse.
    + rewrite (reply_error_to_redirect_uri _ _ _ _ _ _ Hparse). reflexivity.
    + unfold reply_with_authentication_error. now rewrite Hparse.
  - apply reply_error_to_authorize_url.
Qed.

Lemma missing_parameter_witness :
  exists first : string,
    first ∈ required_parameters
    /\ missing {| items := [("response_type", "code"); ("client_id", "app1"); ("state", "s1")];
                 parameters_repr := "<MultiDictProxy()>" |} first = true
    /\ let error_text :=
         py.cat "error=invalid_request&error_description="
           (py.cat (urllib.quote_plus (py.cat "Missing required parameter: " first))
              (state_suffix (Some "s1"))) in
       authorize (H := urllib.basic) (Y := yarl.basic) sample.the_app (sample.world_of sample.alice)
         required_parameters (sample.request_of None)
         {| items := [("response_type", "code"); ("client_id", "app1"); ("state", "s1")];
            parameters_repr := "<MultiDictProxy()>" |}
       = (HTTPFound (Y := yarl.basic)
            (py.cat (PublicApiBaseUrl sample.the_app)
               (py.cat "/openidconnect/authorize?" error_text))
            [],
          sample.world_of sample.alice).
Proof.
  apply (missing_parameter_is_an_invalid_request (U := urllib.basic) (Y := yarl.basic) sample.the_app
           (sample.world_of sample.alice) required_parameters (sample.request_of None)
           {| items := [("response_type", "code"); ("client_id", "app1"); ("state", "s1")];
              parameters_repr := "<MultiDictProxy()>" |} "redirect_uri").
  - apply (bool_decide_unpack _). vm_compute. exact I.
  - reflexivity.
Defined.

(** The error reply bound to a redirect URI, for whatever was passed as
    [error]. *)
Lemma reply_error_at {U : urllib.UrlParser} {Y : yarl.Url} (a : App) (error : urllib.scalar)
    (description uri : string) (state : option string) (parsed : urllib.ParseResult) :
  urllib.urlparse uri = py.Ok parsed ->
  reply_with_authentication_error a error (Some uri) (Some description) None state
  = HTTPFound
      (py.cat uri (py.cat "?" (py.cat (query_prefix parsed)
         (py.cat "error=" (py.cat (urllib.quote_plus (urllib.str_of error))
            (py.cat "&error_description=" (py.cat (urllib.quote_plus description)
               (state_suffix state))))))))
      [].
Proof.
  intros Hparse. unfold reply_with_authentication_error. rewrite Hparse.
  cbn [py.bind]. rewrite error_query_text. do 3 f_equal.
  unfold query_prefix.
  destruct (urllib.nonempty (urllib.query parsed)); rewrite ?cat_assoc; reflexivity.
Qed.

(** X11.  A request with all required parameters and a [response_type]
    other than [code] is audited as [invalid_response_type], and the reply
    it gets is [HTTPFound] for the relative URL [invalid_request], with the
    text of the parameter dictionary as [error] and without the state (a
    302 whose [Location] is that URL as yarl quotes it): the call passes
    the parameters where the error code belongs and the error code where
    the redirect URI belongs. *)
Theorem unsupported_response_type_reply {U : urllib.UrlParser} {Y : yarl.Url} (a : App)
    (w : World) (order : list string) (request : Request)
    (request_parameters : Parameters)
    (response_type scope client_id redirect_uri : string) (parsed : urllib.ParseResult) :
  Forall (fun p => missing request_parameters p = false) order ->
  web.get (items request_parameters) "response_type" = Some response_type ->
  response_type <> "code" ->
  web.get (items request_parameters) "scope" = Some scope ->
  web.get (items request_parameters) "client_id" = Some client_id ->
  web.get (items request_parameters) "redirect_uri" = Some redirect_uri ->
  urllib.urlparse "invalid_request" = py.Ok parsed ->
  urllib.query parsed = EmptyString ->
  authorize a w order request request_parameters
  = (HTTPFound
       (py.cat "invalid_request?error="
          (py.cat (urllib.quote_plus (parameters_repr request_parameters))
             (py.cat "&error_description="
                (urllib.quote_plus (py.cat "Invalid response_type: " response_type)))))
       [],
     audit_authorize_error w client_id "invalid_response_type" None
       [("response_type", py.PyStr response_type)]).
Proof.
  intros Hpresent Htype Hcode Hscope Hclient Huri Hparse Hquery. unfold authorize.
  assert (Hnone : filter (fun p => missing request_parameters p = true) order = []).
  { induction Hpresent as [|p order Hp _ IH]; [reflexivity|].
    rewrite filter_cons_False; [exact IH | congruence]. }
  rewrite Hnone, Htype, Hscope, Hclient, Huri.
  apply String.eqb_neq in Hcode. rewrite Hcode.
  rewrite (reply_error_at _ _ _ _ _ _ Hparse). unfold query_prefix. rewrite Hquery.
  cbn [urllib.nonempty urllib.str_of state_suffix]. rewrite cat_empty_r. reflexivity.
Qed.

Lemma unsupported_response_type_witness :
  authorize (H := urllib.basic) (Y := yarl.basic) sample.the_app (sample.world_of sample.alice)
    required_parameters (sample.request_of (Some sample.alice))
    {| items := [("response_type", "token"); ("client_id", "app1");
                 ("redirect_uri", "https://app1/cb"); ("scope", "openid"); ("state", "s1")];
       parameters_repr := "<MultiDictProxy('response_type': 'token')>" |}
  = (HTTPFound (Y := yarl.basic)
       (py.cat "invalid_request?error="
          (py.cat (urllib.quote_plus "<MultiDictProxy('response_type': 'token')>")
             (py.cat "&error_description="
                (urllib.quote_plus (py.cat "Invalid response_type: " "token")))))
       [],
     audit_authorize_error (sample.world_of sample.alice) "app1" "invalid_response_type" None
       [("response_type", py.PyStr "token")]).
Proof.
  apply (unsupported_response_type_reply (U := urllib.basic) (Y := yarl.basic) sample.the_app
           (sample.world_of sample.alice) required_parameters
           (sample.request_of (Some sample.alice))
           {| items := [("response_type", "token"); ("client_id", "app1");
                        ("redirect_uri", "https://app1/cb"); ("scope", "openid");
                        ("state", "s1")];
              parameters_repr := "<MultiDictProxy('response_type': 'token')>" |}
           "token" "openid" "app1" "https://app1/cb"
           {| urllib.scheme := ""; urllib.netloc := ""; urllib.path := "invalid_request";
              urllib.params := ""; urllib.query := ""; urllib.fragment := "" |});
    try reflexivity.
  - repeat constructor.
  - discriminate.
Defined.

(** X12.  A request whose scope lacks [openid], or whose [prompt] is
    none of [none], [login] and [select_account], is answered with
    [HTTPFound] for its redirect URI with [invalid_scope], respectively
    [invalid_request], the description and the echoed state, behind the
    query the URI already has (a 302 whose [Location] is that URL as yarl
    quotes it; a URL that yarl rejects ends in its [ValueError]); the audit
    trail gets one record and nothing else changes. *)
Theorem scope_and_prompt_are_validated {U : urllib.UrlParser} {Y : yarl.Url} (a : App)
    (w : World) (request : Request) (scope : list string) (client_id redirect_uri : string)
    (client_secret state prompt : option string) (login_parameters : py.dict string)
    (parsed : urllib.ParseResult) :
  not_rejected (authorize_client a client_id client_secret redirect_uri scope) ->
  urllib.urlparse redirect_uri = py.Ok parsed ->
  (py.mem "openid" scope = false ->
   authentication_code_flow a w request scope client_id redirect_uri client_secret state
     prompt login_parameters
   = (HTTPFound
        (py.cat redirect_uri (py.cat "?" (py.cat (query_prefix parsed)
           (py.cat
              "error=invalid_scope&error_description=Scope+must+contain+%27openid%27"
              (state_suffix state)))))
        [],
      audit_authorize_error w client_id "invalid_scope" None [("scope", py.PyStrs scope)]))
  /\ (py.mem "openid" scope = true ->
      prompt ∉ valid_prompts ->
      authentication_code_flow a w request scope client_id redirect_uri client_secret state
        prompt login_parameters
      = (HTTPFound
           (py.cat redirect_uri (py.cat "?" (py.cat (query_prefix parsed)
              (py.cat "error=invalid_request&error_description="
                 (py.cat (urllib.quote_plus
                            (py.cat "Invalid parameter value for prompt: "
                               (default "None" prompt)))
                    (state_suffix state))))))
           [],
         audit_authorize_error w client_id "invalid_request" None
           [("prompt", prompt_value prompt)])).
Proof.
  intros Hcheck Hparse. split.
  - intros Hopenid. unfold authentication_code_flow. rewrite Hopenid. cbn [negb].
    rewrite (reply_error_at _ _ _ _ _ _ Hparse).
    destruct (authorize_client a client_id client_secret redirect_uri scope) eqn:Hc;
      try (exfalso; eapply Hcheck; reflexivity); reflexivity.
  - intros Hopenid Hprompt. unfold authentication_code_flow. rewrite Hopenid. cbn [negb].
    rewrite (bool_decide_eq_false_2 _ Hprompt). cbn [negb].
    rewrite (reply_error_at _ _ _ _ _ _ Hparse).
    destruct (authorize_client a client_id client_secret redirect_uri scope) eqn:Hc;
      try (exfalso; eapply Hcheck; reflexivity); reflexivity.
Qed.

Lemma scope_and_prompt_witness :
  sample.flow sample.the_app (Some sample.alice) ["profile"] "app1" "https://app1/cb" None
  = (HTTPFound (Y := yarl.basic)
       "https://app1/cb?error=invalid_scope&error_description=Scope+must+contain+%27openid%27&state=s1"
       [],
     audit_authorize_error (sample.world_of sample.alice) "app1" "invalid_scope" None
       [("scope", py.PyStrs ["profile"])])
  /\ sample.flow sample.the_app (Some sample.alice) ["openid"] "app1" "https://app1/cb"
       (Some "consent")
     = (HTTPFound (Y := yarl.basic)
          "https://app1/cb?error=invalid_request&error_description=Invalid+parameter+value+for+prompt%3A+consent&state=s1"
          [],
        audit_authorize_error (sample.world_of sample.alice) "app1" "invalid_request" None
          [("prompt", py.PyStr "consent")]).
Proof.
  split.
  - refine (proj1 (scope_and_prompt_are_validated (U := urllib.basic) (Y := yarl.basic) sample.the_app
                     (sample.world_of sample.alice) (sample.request_of (Some sample.alice))
                     ["profile"] "app1" "https://app1/cb" None (Some "s1") None []
                     {| urllib.scheme := "https"; urllib.netloc := "app1";
                        urllib.path := "/cb"; urllib.params := ""; urllib.query := "";
                        urllib.fragment := "" |} _ eq_refl) eq_refl).
    intros msg. discriminate.
  - refine (proj2 (scope_and_prompt_are_validated (U := urllib.basic) (Y := yarl.basic) sample.the_app
                     (sample.world_of sample.alice) (sample.request_of (Some sample.alice))
                     ["openid"] "app1" "https://app1/cb" None (Some "s1") (Some "consent") []
                     {| urllib.scheme := "https"; urllib.netloc := "app1";
                        urllib.path := "/cb"; urllib.params := ""; urllib.query := "";
                        urllib.fragment := "" |} _ eq_refl) eq_refl _).
    + intros msg. discriminate.
    + apply (bool_decide_unpack _). vm_compute. exact I.
Defined.

(** X13.  A valid request is answered with the redirect to the login
    page (404 with [Location] and [Refresh] to the login URL, which carries
    the login parameters and the URL that re-enters the endpoint; the
    session cookie is deleted) in three cases: the caller has no root
    session and did not ask for [prompt=none]; the caller asks for
    [prompt=select_account]; the caller asks for [prompt=login].  Only in
    the last case does anything change: the caller's root session, if any,
    is deleted first.  No session is created and no code is issued. *)
Theorem who_is_sent_to_the_login_page {U : urllib.UrlParser} {Y : yarl.Url} (a : App) (w : World)
    (request : Request) (scope : list string) (client_id redirect_uri : string)
    (client_secret state prompt : option string) (login_parameters : py.dict string) :
  not_rejected (authorize_client a client_id client_secret redirect_uri scope) ->
  py.mem "openid" scope = true ->
  prompt = Some "login" \/ prompt = Some "select_account"
  \/ (prompt = None /\ root_session_of request = None) ->
  let login_url :=
    py.cat (AuthWebuiBaseUrl a)
      (py.cat "/#/login?"
         (urllib.urlencode
            (str_items
               (login_parameters ++
                [("redirect_uri",
                  authorize_redirect_uri a [] "code" scope client_id redirect_uri state)])))) in
  authentication_code_flow a w request scope client_id redirect_uri client_secret state
    prompt login_parameters
  = (py.Ok {| status := 404;
              headers := [("Location", login_url); ("Refresh", py.cat "0;url=" login_url)];
              cookies := [DeleteSessionCookie] |},
     match prompt, root_session_of request with
     | Some "login", Some root_session => SessionService_delete w (SessionId root_session)
     | _, _ => w
     end).
Proof.
  intros Hcheck Hopenid Hcase. cbv zeta. unfold authentication_code_flow.
  rewrite Hopenid. cbn [negb].
  assert (Hvalid : bool_decide (prompt ∈ valid_prompts) = true).
  { apply bool_decide_eq_true.
    destruct Hcase as [-> | [-> | [-> _]]]; apply (bool_decide_unpack _); vm_compute; exact I. }
  rewrite Hvalid. cbn [negb].
  destruct (authorize_client a client_id client_secret redirect_uri scope) eqn:Hc;
    try (exfalso; eapply Hcheck; reflexivity);
    (destruct Hcase as [-> | [-> | [-> Hnone]]];
     [ destruct (root_session_of request); reflexivity
     | destruct (root_session_of request); reflexivity
     | rewrite Hnone; reflexivity ]).
Qed.

Lemma who_is_sent_to_the_login_page_witness :
  let login_url :=
    py.cat (AuthWebuiBaseUrl sample.the_app)
      (py.cat "/#/login?"
         (urllib.urlencode
            (str_items
               ([] ++
                [("redirect_uri",
                  authorize_redirect_uri sample.the_app [] "code" ["openid"] "app1"
                    "https://app1/cb" (Some "s1"))])))) in
  sample.flow sample.the_app (Some sample.alice) ["openid"] "app1" "https://app1/cb"
    (Some "login")
  = (py.Ok {| status := 404;
              headers := [("Location", login_url); ("Refresh", py.cat "0;url=" login_url)];
              cookies := [DeleteSessionCookie] |},
     SessionService_delete (sample.world_of sample.alice) (SessionId sample.alice))
  /\ login_url
     = "https://auth.test/ui/#/login?redirect_uri=https%3A%2F%2Fauth.test%2Fapi%2Fopenidconnect%2Fauthorize%3Fresponse_type%3Dcode%26scope%3Dopenid%26client_id%3Dapp1%26redirect_uri%3Dhttps%253A%252F%252Fapp1%252Fcb%26state%3Ds1"
  /\ sessions (SessionService_delete (sample.world_of sample.alice) (SessionId sample.alice))
     = ∅.
Proof.
  cbv zeta. split; [|split; vm_compute; reflexivity].
  apply (who_is_sent_to_the_login_page (U := urllib.basic) (Y := yarl.basic) sample.the_app
           (sample.world_of sample.alice) (sample.request_of (Some sample.alice))
           ["openid"] "app1" "https://app1/cb" None (Some "s1") (Some "login") []).
  - intros msg. discriminate.
  - reflexivity.
  - now left.
Defined.

End authorize_validation.

(** ** Percent-encoding and the query of a URL *)

Section query_strings.
Import urllib authorize.

(** A case for each of the 256 characters. *)
Ltac each_char c := destruct c as [[] [] [] [] [] [] [] []].

Lemma unquote_plus_percent (c : ascii) (t : string) :
  unquote_plus (py.cat (percent c) t) = String c (unquote_plus t).
Proof. each_char c; reflexivity. Qed.

Lemma unquote_plus_safe (c : ascii) (t : string) :
  always_safe c = true -> unquote_plus (String c t) = String c (unquote_plus t).
Proof. each_char c; intros H; try discriminate H; reflexivity. Qed.

Lemma space_to_plus_percent (c : ascii) (t : string) :
  space_to_plus (py.cat (percent c) t) = py.cat (percent c) (space_to_plus t).
Proof. each_char c; reflexivity. Qed.

Lemma unquote_plus_quote_with_nothing (s : string) :
  unquote_plus (quote_with (fun _ => false) s) = s.
Proof.
  induction s as [|c s IH]; [reflexivity|]. cbn [quote_with].
  rewrite orb_false_r. destruct (always_safe c) eqn:Hc.
  - rewrite unquote_plus_safe by assumption. now rewrite IH.
  - rewrite unquote_plus_percent. now rewrite IH.
Qed.

Lemma unquote_plus_quote_with_space (s : string) :
  unquote_plus (space_to_plus (quote_with (fun c => Ascii.eqb c " "%char) s)) = s.
Proof.
  induction s as [|c s IH]; [reflexivity|]. cbn [quote_with].
  destruct (always_safe c) eqn:Hc; cbn [orb].
  - cbn [space_to_plus]. destruct (Ascii.eqb_spec c " ") as [-> | Hsp]; [discriminate Hc|].
    rewrite unquote_plus_safe by assumption. now rewrite IH.
  - destruct (Ascii.eqb_spec c " ") as [-> | Hsp].
    + cbn [space_to_plus]. cbn. now rewrite IH.
    + rewrite space_to_plus_percent, unquote_plus_percent. now rewrite IH.
Qed.

Lemma unquote_plus_quote_plus (s : string) : unquote_plus (quote_plus s) = s.
Proof.
  unfold quote_plus. destruct (has_space s);
    [apply unquote_plus_quote_with_space | apply unquote_plus_quote_with_nothing].
Qed.

Lemma quote_plus_has_no_separator (d : ascii) (s : string) :
  d = "&"%char \/ d = "="%char -> has_char d (quote_plus s) = false.
Proof.
  intros Hd.
  assert (Hsafe : forall c, always_safe c = true -> Ascii.eqb c d = false)
    by (intros c; destruct Hd as [-> | ->]; each_char c; intros H; try discriminate H;
        reflexivity).
  assert (Hpercent : forall c t, has_char d (py.cat (percent c) t) = has_char d t)
    by (intros c t; destruct Hd as [-> | ->]; each_char c; reflexivity).
  assert (Hplus : Ascii.eqb "+" d = false) by (destruct Hd as [-> | ->]; reflexivity).
  assert (Hcons : forall a t, has_char d (String a t) = Ascii.eqb a d || has_char d t)
    by reflexivity.
  assert (Hspace : forall a t,
            space_to_plus (String a t)
            = String (if Ascii.eqb a " " then "+"%char else a) (space_to_plus t))
    by reflexivity.
  unfold quote_plus. destruct (has_space s).
  - induction s as [|c s IH]; [reflexivity|]. cbn [quote_with].
    destruct (always_safe c) eqn:Hc; cbn [orb].
    + rewrite Hspace, Hcons, IH. destruct (Ascii.eqb c " "); [now rewrite Hplus|].
      now rewrite (Hsafe c Hc).
    + destruct (Ascii.eqb c " ") eqn:Hsp.
      * rewrite Hspace, Hcons, IH, Hsp. now rewrite Hplus.
      * now rewrite space_to_plus_percent, Hpercent.
  - induction s as [|c s IH]; [reflexivity|]. cbn [quote_with]. rewrite orb_false_r.
    destruct (always_safe c) eqn:Hc.
    + rewrite Hcons, IH. now rewrite (Hsafe c Hc).
    + now rewrite Hpercent.
Qed.

Lemma quote_plus_nonempty (s : string) : nonempty (quote_plus s) = nonempty s.
Proof.
  destruct s as [|c s]; [reflexivity|]. unfold quote_plus.
  destruct (has_space (String c s)); cbn [quote_with];
    destruct (always_safe c || _); reflexivity.
Qed.

Lemma split_aux_last (c : ascii) (x cur : string) :
  has_char c x = false -> py.split_aux c x cur = [py.cat cur x].
Proof.
  revert cur. induction x as [|a x IH]; intros cur Hx.
  - cbn. now rewrite cat_empty_r.
  - cbn [has_char] in Hx. apply orb_false_iff in Hx as [Ha Hx].
    cbn [py.split_aux]. rewrite Ha, IH by assumption. now rewrite cat_assoc.
Qed.

Lemma split_aux_piece (c : ascii) (x rest cur : string) :
  has_char c x = false ->
  py.split_aux c (py.cat x (String c rest)) cur
  = py.cat cur x :: py.split_aux c rest EmptyString.
Proof.
  revert cur. induction x as [|a x IH]; intros cur Hx.
  - change (py.cat EmptyString (String c rest)) with (String c rest).
    cbn [py.split_aux]. now rewrite Ascii.eqb_refl, cat_empty_r.
  - cbn [has_char] in Hx. apply orb_false_iff in Hx as [Ha Hx].
    change (py.cat (String a x) (String c rest)) with (String a (py.cat x (String c rest))).
    cbn [py.split_aux]. rewrite Ha, IH by assumption. now rewrite cat_assoc.
Qed.

(** [sep.join(l).split(sep) == l] when no element holds the separator. *)
Lemma split_join (c : ascii) (l : list string) :
  l <> [] ->
  Forall (fun y => has_char c y = false) l ->
  py.split c (py.join (String c EmptyString) l) = l.
Proof.
  destruct l as [|x l]; [congruence|]. intros _.
  unfold py.split. revert x. induction l as [|y l IH]; intros x Hall.
  - apply Forall_cons in Hall as [Hx _]. cbn [py.join String.concat].
    now rewrite split_aux_last.
  - apply Forall_cons in Hall as [Hx Hall].
    change (py.join (String c EmptyString) (x :: y :: l))
      with (py.cat x (String c (py.join (String c EmptyString) (y :: l)))).
    rewrite split_aux_piece by assumption. cbn [py.cat String.append]. f_equal.
    now apply IH.
Qed.

Lemma split_first_piece (c : ascii) (x y : string) :
  has_char c x = false -> split_first c (py.cat x (String c y)) = Some (x, y).
Proof.
  induction x as [|a x IH]; intros Hx.
  - change (py.cat EmptyString (String c y)) with (String c y).
    cbn [split_first]. now rewrite Ascii.eqb_refl.
  - cbn [has_char] in Hx. apply orb_false_iff in Hx as [Ha Hx].
    change (py.cat (String a x) (String c y)) with (String a (py.cat x (String c y))).
    cbn [split_first]. now rewrite Ha, IH.
Qed.

Lemma dict_set_new {V : Type} (d : py.dict V) (k : string) (v : V) :
  py.dict_get d k = None -> py.dict_set d k v = (d ++ [(k, v)])%list.
Proof.
  induction d as [|[k0 v0] d IH]; [reflexivity|]. cbn [py.dict_get py.dict_set].
  destruct (String.eqb k0 k); [discriminate|]. intros Hd. cbn. f_equal. now apply IH.
Qed.

(** [parse_qs(urlencode(pairs))] gives every pair back, as long as the
    names are distinct and no value is empty. *)
Lemma parse_qs_urlencode (pairs : list (string * string)) :
  NoDup pairs.*1 ->
  Forall (fun kv => nonempty kv.2 = true) pairs ->
  basic_parse_qs (urlencode (str_items pairs))
  = map (fun kv => (kv.1, [kv.2])) pairs.
Proof.
  intros Hnd Hvalues. unfold basic_parse_qs, urlencode.
  destruct pairs as [|kv pairs]; [reflexivity|].
  set (step := fun acc field => _).
  assert (Hstep : forall (l : list (string * string)) (acc : py.dict (list string)),
            NoDup l.*1 ->
            Forall (fun kv => nonempty kv.2 = true) l ->
            (forall k, k ∈ l.*1 -> py.dict_get acc k = None) ->
            foldl step acc
              (map (fun kv => pair_text kv.1 (str_of kv.2)) (str_items l))
            = (acc ++ map (fun kv => (kv.1, [kv.2])) l)%list).
  { induction l as [|[k v] l IH]; intros acc Hl Hv Hacc; [cbn; now rewrite app_nil_r|].
    cbn in Hl. apply NoDup_cons in Hl as [Hk Hl]. apply Forall_cons in Hv as [Hv Hvs].
    cbn [str_items map foldl fst snd str_of]. unfold step at 2.
    unfold pair_text. change (py.cat "=" ?x) with (String "=" x).
    rewrite split_first_piece by (apply quote_plus_has_no_separator; now right).
    rewrite quote_plus_nonempty. cbn [snd] in Hv. rewrite Hv.
    rewrite !unquote_plus_quote_plus, Hacc by (cbn; apply elem_of_cons; now left).
    rewrite dict_set_new by (apply Hacc; cbn; apply elem_of_cons; now left).
    rewrite (IH _ Hl Hvs).
    - now rewrite <- app_assoc.
    - intros k' Hk'. assert (k' <> k) by (intros ->; contradiction).
      rewrite <- dict_set_new by (apply Hacc; cbn; apply elem_of_cons; now left).
      rewrite dict_get_set_ne by congruence. apply Hacc. cbn. apply elem_of_cons. now right. }
  assert (Hpieces : Forall (fun y => has_char "&" y = false)
                      (map (fun kv => pair_text kv.1 (str_of kv.2))
                           (str_items (kv :: pairs)))).
  { apply Forall_forall. intros y Hy. apply list_elem_of_fmap in Hy as [[k' v'] [-> _]].
    unfold pair_text. rewrite !has_char_cat.
    now rewrite !quote_plus_has_no_separator by now left. }
  rewrite split_join by (exact Hpieces || discriminate).
  now rewrite (Hstep (kv :: pairs) [] Hnd Hvalues).
Qed.

Lemma authorize_path_query (q : string) :
  py.cat AuthorizePath (py.cat "?" q) = py.cat "/openidconnect/authorize?" q.
Proof. reflexivity. Qed.

(** X14.  The URL that [reply_with_redirect_to_login] tells the login
    page to come back to is the endpoint's own authorize URL with a query
    that [parse_qs] reads back as exactly [response_type=code], the scope,
    the client id, the redirect URI and the state of the request; and a
    request with exactly these parameters enters [authentication_code_flow]
    with the same scope list, client id, redirect URI and state, and with no
    prompt, no client secret and no login parameters. *)
Theorem login_return_url_reenters_the_request {U : UrlParser} {Y : yarl.Url} (a : app.App)
    (scope : list string) (client_id redirect_uri : string) (state : option string) :
  scope <> [] ->
  Forall (fun resource => has_char " " resource = false) scope ->
  nonempty (py.join " " scope) = true ->
  nonempty client_id = true ->
  nonempty redirect_uri = true ->
  state <> Some EmptyString ->
  let parameters :=
    ([("response_type", "code"); ("scope", py.join " " scope);
      ("client_id", client_id); ("redirect_uri", redirect_uri)]
     ++ match state with Some st => [("state", st)] | None => [] end)%list in
  exists query : string,
    authorize_redirect_uri a [] "code" scope client_id redirect_uri state
    = py.cat (PublicApiBaseUrl a) (py.cat "/openidconnect/authorize?" query)
    /\ basic_parse_qs query = map (fun kv => (kv.1, [kv.2])) parameters
    /\ forall (w : app.World) (order : list string) (request : web.Request) (text : string),
         order ⊆ required_parameters ->
         authorize a w order request {| items := parameters; parameters_repr := text |}
         = authentication_code_flow a w request scope client_id redirect_uri None state
             None [].
Proof.
  intros Hscope Hblanks Hscope_text Hclient Huri Hstate parameters.
  exists (urlencode (str_items parameters)). split; [|split].
  - unfold authorize_redirect_uri, parameters.
    destruct state; cbn [app]; now rewrite authorize_path_query.
  - apply parse_qs_urlencode.
    + unfold parameters. destruct state; apply (bool_decide_unpack _); vm_compute; exact I.
    + unfold parameters. destruct state as [[|c st]|]; [congruence | |];
        repeat (apply Forall_cons; split; [assumption || reflexivity|]); apply Forall_nil_2.
  - intros w order request text Horder.
    rewrite (authorize_code_request a w order request _ (py.join " " scope) client_id
               redirect_uri).
    + rewrite split_join by assumption. unfold parameters. now destruct state.
    + apply Forall_forall. intros p Hp. apply Horder in Hp. unfold required_parameters in Hp.
      unfold missing, parameters. cbn [items].
      repeat (apply elem_of_cons in Hp as [-> | Hp];
              [cbn; now rewrite ?Hscope_text, ?Hclient, ?Huri|]).
      now apply elem_of_nil in Hp.
    + reflexivity.
    + reflexivity.
    + reflexivity.
    + reflexivity.
Qed.

Lemma login_return_url_witness :
  exists query : string,
    authorize_redirect_uri sample.the_app [] "code" ["openid"; "profile"] "app1"
      "https://app1/cb?x=1" (Some "a b&c")
    = py.cat (PublicApiBaseUrl sample.the_app) (py.cat "/openidconnect/authorize?" query)
    /\ query
       = "response_type=code&scope=openid+profile&client_id=app1&redirect_uri=https%3A%2F%2Fapp1%2Fcb%3Fx%3D1&state=a+b%26c"
    /\ basic_parse_qs query
       = [("response_type", ["code"]); ("scope", ["openid profile"]); ("client_id", ["app1"]);
          ("redirect_uri", ["https://app1/cb?x=1"]); ("state", ["a b&c"])].
Proof.
  destruct (login_return_url_reenters_the_request (U := basic) (Y := yarl.basic) sample.the_app
              ["openid"; "profile"] "app1" "https://app1/cb?x=1" (Some "a b&c"))
    as (query & Hurl & Hparse & _); try reflexivity; try discriminate.
  - repeat constructor.
  - exists query. split; [exact Hurl|]. split; [|exact Hparse].
    apply (f_equal (py.drop (String.length
             (py.cat (PublicApiBaseUrl sample.the_app) "/openidconnect/authorize?")))) in Hurl.
    rewrite <- cat_assoc, drop_prefix in Hurl. rewrite <- Hurl. vm_compute. reflexivity.
Defined.

End query_strings.

(** ** Minting and redeeming tokens *)

Section token_round_trips.
Import session app oidc oidc_tokens.

(** A token that was just created is found under its bytes and its
    type, and under no other type. *)
Lemma TokenService_create_get (a : App) (w w' : World) (ty : token_type)
    (session_id raw : string) (expiration : Z) (algorithmic : bool)
    (code_challenge code_challenge_method : option string) :
  TokenService_create a w ty session_id expiration algorithmic code_challenge
    code_challenge_method = (raw, w') ->
  (0 < expiration)%Z ->
  sessions w' = sessions w
  /\ raw = entropy a (minted w)
  /\ TokenService_get w' raw ty
     = py.Ok {| tk_type := ty; tk_sid := session_id;
                tk_expires_at := (now w + expiration)%Z;
                tk_cc := code_challenge; tk_ccm := code_challenge_method;
                tk_sa := algorithmic |}
  /\ forall other, other <> ty -> TokenService_get w' raw other = py.Raise (py.KeyError raw).
Proof.
  unfold TokenService_create. intros [= <- <-] Hpositive.
  split; [reflexivity|]. split; [reflexivity|].
  unfold TokenService_get. cbn [tokens with_minted with_tokens now].
  rewrite lookup_insert_eq. cbn [tk_type tk_expires_at]. split.
  - assert (Hty : token_type_eqb ty ty = true) by now destruct ty.
    rewrite Hty. cbn [andb].
    now rewrite (proj2 (Z.ltb_lt (now w) (now w + expiration)) ltac:(lia)).
  - intros other Hother.
    assert (Hty : token_type_eqb ty other = false) by (destruct ty, other; try reflexivity; congruence).
    now rewrite Hty.
Qed.

(** X15.  An authorization code from [create_authorization_code],
    presented as it is to [get_session_by_authorization_code], leads to the
    session it was made for: always when no PKCE challenge was bound to it,
    and exactly when the PKCE check of the presented verifier against the
    bound challenge passes otherwise. *)
Theorem authorization_code_leads_to_its_session (a : App) (c : Collaborators) (w : World)
    (session_id : string) (s : SessionAdapter)
    (code_challenge code_challenge_method code_verifier : option string) :
  sessions w !! session_id = Some s ->
  (0 < authorization_code_expiration a)%Z ->
  get_session_by_authorization_code c
    (create_authorization_code a w session_id code_challenge code_challenge_method).2
    (create_authorization_code a w session_id code_challenge code_challenge_method).1
    code_verifier
  = match code_challenge with
    | Some challenge =>
        _ <-? evaluate_code_challenge c code_challenge_method challenge code_verifier ;;
        py.Ok s
    | None => py.Ok s
    end.
Proof.
  intros Hsession Hpositive. unfold create_authorization_code.
  destruct (TokenService_create _ _ _ _ _ _ _ _) as [raw w'] eqn:Hcreate.
  destruct (TokenService_create_get _ _ _ _ _ _ _ _ _ _ Hcreate Hpositive)
    as (Hsessions & _ & Hget & _).
  cbn [fst snd]. unfold get_session_by_authorization_code.
  rewrite urlsafe_b64_round_trip. cbn [py.bind]. rewrite Hget.
  cbn [py.bind tk_cc tk_ccm tk_sa tk_sid].
  assert (Hfound : SessionService_get w' session_id = py.Ok s)
    by (unfold SessionService_get; now rewrite Hsessions, Hsession).
  destruct code_challenge as [challenge|]; [|exact Hfound].
  destruct (evaluate_code_challenge _ _ _ _); [exact Hfound | reflexivity].
Qed.


Lemma authorization_code_witness :
  (get_session_by_authorization_code sample_tokens.collaborators
     (create_authorization_code sample.the_app sample_tokens.alice_world "rnd0"
        (Some "challenge") (Some "plain")).2
     (create_authorization_code sample.the_app sample_tokens.alice_world "rnd0"
        (Some "challenge") (Some "plain")).1
     (Some "challenge")
   = py.Ok sample_tokens.alice_child)
  /\ (get_session_by_authorization_code sample_tokens.collaborators
        (create_authorization_code sample.the_app sample_tokens.alice_world "rnd0"
           (Some "challenge") (Some "plain")).2
        (create_authorization_code sample.the_app sample_tokens.alice_world "rnd0"
           (Some "challenge") (Some "plain")).1
        None
      = py.Raise (py.ValueError "Code challenge failed")).
Proof.
  split.
  - now rewrite (authorization_code_leads_to_its_session sample.the_app
                   sample_tokens.collaborators sample_tokens.alice_world "rnd0"
                   sample_tokens.alice_child (Some "challenge") (Some "plain")
                   (Some "challenge") eq_refl eq_refl).
  - now rewrite (authorization_code_leads_to_its_session sample.the_app
                   sample_tokens.collaborators sample_tokens.alice_world "rnd0"
                   sample_tokens.alice_child (Some "challenge") (Some "plain")
                   None eq_refl eq_refl).
Defined.

(** X16.  When the client lookup succeeds and the resulting lifetime (the
    client's [session_expiration], or the configured default when that is
    unset or zero) is positive, [create_access_token] returns a token that
    [get_session_by_access_token] resolves to the stored session it was
    made for, without changing the state, and that
    [get_session_by_refresh_token] refuses. *)
Theorem access_token_leads_to_its_session (a : App) (c : Collaborators) (w : World)
    (s : SessionAdapter) (session_expiration : option Z) :
  sessions w !! SessionId s = Some s ->
  client_session_expiration c (ClientId (OAuth2 s)) = py.Ok session_expiration ->
  (0 < or_default session_expiration (access_token_expiration c))%Z ->
  exists token w',
    create_access_token a c w s = py.Ok (token, w')
    /\ get_session_by_access_token w' token = (py.Ok s, w')
    /\ get_session_by_refresh_token w' token
       = (py.Raise (py.SessionNotFoundError "Invalid or expired access token"), w').
Proof.
  intros Hsession Hclient Hpositive. unfold create_access_token.
  rewrite Hclient. cbn [py.bind].
  destruct (TokenService_create _ _ _ _ _ _ _ _) as [raw w'] eqn:Hcreate.
  destruct (TokenService_create_get _ _ _ _ _ _ _ _ _ _ Hcreate Hpositive)
    as (Hsessions & _ & Hget & Hother).
  eexists _, _. split; [reflexivity|]. split.
  - unfold get_session_by_access_token.
    rewrite urlsafe_b64_round_trip, Hget. cbn [tk_sid].
    unfold SessionService_get. now rewrite Hsessions, Hsession.
  - unfold get_session_by_refresh_token.
    now rewrite urlsafe_b64_round_trip, (Hother ort ltac:(discriminate)).
Qed.

Lemma access_token_witness :
  exists token w',
    create_access_token sample.the_app sample_tokens.collaborators
      sample_tokens.alice_world sample_tokens.alice_child = py.Ok (token, w')
    /\ get_session_by_access_token w' token = (py.Ok sample_tokens.alice_child, w')
    /\ get_session_by_refresh_token w' token
       = (py.Raise (py.SessionNotFoundError "Invalid or expired access token"), w').
Proof.
  apply (access_token_leads_to_its_session sample.the_app sample_tokens.collaborators
           sample_tokens.alice_world sample_tokens.alice_child (Some 600%Z)).
  - vm_compute; reflexivity.
  - vm_compute; reflexivity.
  - vm_compute; reflexivity.
Defined.

(** X17.  [create_refresh_token] refuses an algorithmic session with an
    [AssertionError]; for any other stored session, when the configured
    refresh-token lifetime is positive, it returns a token that
    [get_session_by_refresh_token] resolves to that session and that
    [get_session_by_access_token] refuses. *)
Theorem refresh_token_leads_to_its_session (a : App) (c : Collaborators) (w : World)
    (s : SessionAdapter) :
  sessions w !! SessionId s = Some s ->
  (0 < refresh_token_expiration c)%Z ->
  if is_algorithmic c s
  then create_refresh_token a c w s = py.Raise py.AssertionError
  else exists token w',
      create_refresh_token a c w s = py.Ok (token, w')
      /\ get_session_by_refresh_token w' token = (py.Ok s, w')
      /\ get_session_by_access_token w' token
         = (py.Raise (py.SessionNotFoundError "Invalid or expired access token"), w').
Proof.
  intros Hsession Hpositive. unfold create_refresh_token.
  destruct (is_algorithmic c s); [reflexivity|].
  destruct (TokenService_create _ _ _ _ _ _ _ _) as [raw w'] eqn:Hcreate.
  destruct (TokenService_create_get _ _ _ _ _ _ _ _ _ _ Hcreate Hpositive)
    as (Hsessions & _ & Hget & Hother).
  eexists _, _. split; [reflexivity|]. split.
  - unfold get_session_by_refresh_token.
    rewrite urlsafe_b64_round_trip, Hget. cbn [tk_sid].
    unfold SessionService_get. now rewrite Hsessions, Hsession.
  - unfold get_session_by_access_token.
    now rewrite urlsafe_b64_round_trip, (Hother oat ltac:(discriminate)).
Qed.

Lemma refresh_token_witness :
  exists token w',
    create_refresh_token sample.the_app sample_tokens.collaborators
      sample_tokens.alice_world sample_tokens.alice_child = py.Ok (token, w')
    /\ get_session_by_refresh_token w' token = (py.Ok sample_tokens.alice_child, w')
    /\ get_session_by_access_token w' token
       = (py.Raise (py.SessionNotFoundError "Invalid or expired access token"), w').
Proof.
  apply (refresh_token_leads_to_its_session sample.the_app sample_tokens.collaborators
           sample_tokens.alice_world sample_tokens.alice_child).
  - vm_compute; reflexivity.
  - vm_compute; reflexivity.
Defined.


(** X18.  A live refresh token whose session is gone is answered with
    [SessionNotFoundError] (nonexistent session) and deleted by that very
    lookup: the next lookup of the same token finds no token at all, and
    no session is added or removed. *)
Theorem dangling_refresh_token_is_deleted (w : World) (token_bytes : string) (t : Token) :
  tokens w !! token_bytes = Some t ->
  tk_type t = ort ->
  (now w < tk_expires_at t)%Z ->
  sessions w !! tk_sid t = None ->
  refresh_lookups 2 w (base64.urlsafe_b64encode token_bytes)
  = [py.Raise (py.SessionNotFoundError "Refresh token points to a nonexistent session");
     py.Raise (py.SessionNotFoundError "Invalid or expired access token")]
  /\ tokens (get_session_by_refresh_token w (base64.urlsafe_b64encode token_bytes)).2
     = delete token_bytes (tokens w)
  /\ sessions (get_session_by_refresh_token w (base64.urlsafe_b64encode token_bytes)).2
     = sessions w.
Proof.
  intros Htoken Htype Hlive Hgone.
  assert (Hfirst : get_session_by_refresh_token w (base64.urlsafe_b64encode token_bytes)
                   = (py.Raise (py.SessionNotFoundError
                                  "Refresh token points to a nonexistent session"),
                      TokenService_delete_token w token_bytes)).
  { unfold get_session_by_refresh_token. rewrite urlsafe_b64_round_trip.
    unfold TokenService_get. rewrite Htoken, Htype. cbn [token_type_eqb andb].
    rewrite (proj2 (Z.ltb_lt _ _) Hlive).
    unfold SessionService_get. now rewrite Hgone. }
  cbn [refresh_lookups]. rewrite Hfirst. cbn [snd]. split; [|split; reflexivity].
  do 2 f_equal.
  unfold get_session_by_refresh_token. rewrite urlsafe_b64_round_trip.
  unfold TokenService_get, TokenService_delete_token. cbn [tokens with_tokens].
  now rewrite lookup_delete_eq.
Qed.

Lemma dangling_refresh_token_witness :
  refresh_lookups 2 sample_tokens.dangling_refresh_world (base64.urlsafe_b64encode "tok")
  = [py.Raise (py.SessionNotFoundError "Refresh token points to a nonexistent session");
     py.Raise (py.SessionNotFoundError "Invalid or expired access token")]
  /\ tokens (get_session_by_refresh_token sample_tokens.dangling_refresh_world
               (base64.urlsafe_b64encode "tok")).2
     = delete "tok" (tokens sample_tokens.dangling_refresh_world)
  /\ sessions (get_session_by_refresh_token sample_tokens.dangling_refresh_world
                 (base64.urlsafe_b64encode "tok")).2
     = sessions sample_tokens.dangling_refresh_world.
Proof.
  apply (dangling_refresh_token_is_deleted sample_tokens.dangling_refresh_world "tok"
           {| tk_type := ort; tk_sid := "gone"; tk_expires_at := 100; tk_cc := None;
              tk_ccm := None; tk_sa := false |}).
  - vm_compute; reflexivity.
  - reflexivity.
  - reflexivity.
  - vm_compute; reflexivity.
Defined.

End token_round_trips.

(** ** Revoking tokens and refreshing sessions *)

Section revocation_and_refresh.
Import session app oidc oidc_tokens.

Lemma deleted_session_is_gone (w : World) (sid : string) :
  (forall s, sessions w !! sid = Some s -> SessionId s = sid) ->
  sessions (SessionService_delete w sid) !! sid = None.
Proof.
  intros Hfiled. unfold SessionService_delete. cbn [sessions with_tokens with_sessions].
  destruct (filter _ (sessions w) !! sid) as [s'|] eqn:Hkept; [|reflexivity].
  apply map_lookup_filter_Some in Hkept as [Hstored Hnot]. cbn [snd] in Hnot.
  now rewrite (Hfiled _ Hstored), String.eqb_refl in Hnot.
Qed.

(** X19.  In a store that files every session under its own id,
    [revoke_token] of a token that resolves to a session returns [None]
    and deletes that session, after which the same token resolves to no
    session; a token that resolves to none ([SessionNotFoundError]) is
    answered [None] as well, with every session kept; any other exception
    of the lookup, such as that of a token that is not base64, is raised
    to the caller. *)
Theorem revoke_token_outcomes (w : World) (token : string) :
  (forall sid s, sessions w !! sid = Some s -> SessionId s = sid) ->
  match (get_session_by_access_token w token).1 with
  | py.Ok s =>
      revoke_token w token = (py.Ok tt, SessionService_delete w (SessionId s))
      /\ sessions (revoke_token w token).2 !! SessionId s = None
      /\ exists message,
           (get_session_by_access_token (revoke_token w token).2 token).1
           = py.Raise (py.SessionNotFoundError message)
  | py.Raise (py.SessionNotFoundError _) =>
      (revoke_token w token).1 = py.Ok tt
      /\ sessions (revoke_token w token).2 = sessions w
  | py.Raise e => (revoke_token w token).1 = py.Raise e
  end.
Proof.
  intros Hfiled. unfold revoke_token.
  destruct (get_session_by_access_token w token) as [r w1] eqn:Hlookup. cbn [fst].
  unfold get_session_by_access_token in Hlookup.
  destruct (base64.urlsafe_b64decode token) as [token_bytes|e] eqn:Hdecode.
  2:{ injection Hlookup as <- <-. now destruct e. }
  destruct (TokenService_get w token_bytes oat) as [t|e] eqn:Hget.
  2:{ destruct e; injection Hlookup as <- <-; cbn [fst snd]; auto. }
  unfold SessionService_get in Hlookup.
  destruct (sessions w !! tk_sid t) as [s|] eqn:Hsession.
  2:{ injection Hlookup as <- <-. cbn [fst snd]. split; reflexivity. }
  injection Hlookup as <- <-. cbn [fst snd].
  assert (Hid : SessionId s = tk_sid t) by now apply Hfiled.
  assert (Hgone : sessions (SessionService_delete w (SessionId s)) !! SessionId s = None)
    by (apply deleted_session_is_gone; intros s0; apply Hfiled).
  split; [reflexivity|]. split; [exact Hgone|].
  assert (Hgone' : sessions (SessionService_delete w (SessionId s)) !! tk_sid t = None)
    by (rewrite <- Hid; exact Hgone).
  unfold get_session_by_access_token. rewrite Hdecode.
  destruct (TokenService_get (SessionService_delete w (SessionId s)) token_bytes oat)
    as [t'|e] eqn:Hget'.
  - assert (t' = t) as ->.
    { unfold TokenService_get in Hget, Hget'.
      unfold SessionService_delete in Hget'. cbn [tokens with_tokens with_sessions now] in Hget'.
      destruct (filter _ (tokens w) !! token_bytes) as [t0|] eqn:Hkept; [|discriminate].
      apply map_lookup_filter_Some in Hkept as [Hkept _]. rewrite Hkept in Hget.
      destruct (_ && _) in Hget, Hget'; congruence. }
    unfold SessionService_get. rewrite Hgone'. cbn [fst]. eauto.
  - unfold TokenService_get in Hget'.
    destruct (tokens _ !! token_bytes) as [t0|]; [destruct (_ && _)|];
      try discriminate; injection Hget' as <-; cbn [fst]; eauto.
Qed.


Lemma revoke_token_witness :
  revoke_token sample_tokens.alice_token.2 sample_tokens.alice_token.1
  = (py.Ok tt,
     SessionService_delete sample_tokens.alice_token.2 (SessionId sample_tokens.alice_child))
  /\ sessions (revoke_token sample_tokens.alice_token.2 sample_tokens.alice_token.1).2
       !! SessionId sample_tokens.alice_child = None
  /\ exists message,
       (get_session_by_access_token
          (revoke_token sample_tokens.alice_token.2 sample_tokens.alice_token.1).2
          sample_tokens.alice_token.1).1
       = py.Raise (py.SessionNotFoundError message).
Proof.
  assert (Hfiled : forall sid s,
             sessions sample_tokens.alice_token.2 !! sid = Some s -> SessionId s = sid).
  { apply map_Forall_lookup, (bool_decide_unpack _). vm_compute. exact I. }
  assert (Hfound : (get_session_by_access_token sample_tokens.alice_token.2
                      sample_tokens.alice_token.1).1
                   = py.Ok sample_tokens.alice_child)
    by (vm_compute; reflexivity).
  pose proof (revoke_token_outcomes sample_tokens.alice_token.2
                sample_tokens.alice_token.1 Hfiled) as Houtcome.
  rewrite Hfound in Houtcome. exact Houtcome.
Defined.

Lemma subtract_nil (resources granted : list string) :
  subtract resources granted = [] -> forall x, x ∈ resources -> x ∈ granted.
Proof.
  unfold subtract. intros Hnone x Hx.
  destruct (decide (x ∈ granted)) as [|Hout]; [assumption|].
  assert (Hin : x ∈ filter (fun r => py.mem r granted = false) resources).
  { apply list_elem_of_filter. split; [|assumption]. now apply mem_false. }
  rewrite Hnone in Hin. now apply elem_of_nil in Hin.
Qed.

Lemma scope_after_builders (s0 : SessionAdapter) (builders : list (list builder_item))
    (scope : list string) :
  Scope (OAuth2 (apply_builders s0 (builders ++ [[FN_OAuth2_Scope scope]]))) = scope.
Proof.
  unfold apply_builders. rewrite concat_app, foldl_app. reflexivity.
Qed.

(** X20.  [refresh_session] never widens the scope: whenever it
    returns, every item of the returned session's scope was in the scope
    of the session that was refreshed; the new scope has exactly the
    requested items when a scope was requested, and is the old scope when
    none was.  The returned session is the one now stored under the
    session's id, and no token is touched. *)
Theorem refresh_never_widens_the_scope (a : App) (w w' : World) (s s' : SessionAdapter)
    (requested_scope : option (list string)) :
  refresh_session a w s requested_scope = py.Ok (s', w') ->
  (forall x, x ∈ Scope (OAuth2 s') -> x ∈ Scope (OAuth2 s))
  /\ match requested_scope with
     | Some requested => forall x, x ∈ Scope (OAuth2 s') <-> x ∈ requested
     | None => Scope (OAuth2 s') = Scope (OAuth2 s)
     end
  /\ sessions w' = <[SessionId s := s']> (sessions w)
  /\ tokens w' = tokens w.
Proof.
  intros Hrefresh. unfold refresh_session in Hrefresh.
  destruct (match ParentSessionId s with Some _ => _ | None => _ end)
    as [root_session|]; [|discriminate].
  cbn [py.bind] in Hrefresh.
  destruct (match requested_scope with Some _ => _ | None => _ end)
    as [granted_scope|] eqn:Hgranted; [|discriminate].
  cbn [py.bind] in Hrefresh.
  destruct (get_accessible_tenant_from_scope a _ _ _) as [authorized_tenant|];
    [|discriminate].
  cbn [py.bind] in Hrefresh.
  destruct (credentials_session_builder a _ _) as [b_cred|]; [|discriminate].
  cbn [py.bind] in Hrefresh.
  destruct (authz_session_builder a _ _ _) as [b_authz|]; [|discriminate].
  cbn [py.bind] in Hrefresh.
  destruct (if py.mem "batman" granted_scope then _ else _) as [builders|];
    [|discriminate].
  cbn [py.bind] in Hrefresh.
  unfold SessionService_update_session in Hrefresh.
  destruct (sessions w !! SessionId s) as [s0|]; [|discriminate].
  injection Hrefresh as <- <-. rewrite scope_after_builders.
  cbn [sessions tokens with_sessions].
  assert (Hscope : (forall x, x ∈ granted_scope -> x ∈ Scope (OAuth2 s))
                   /\ match requested_scope with
                      | Some requested => forall x, x ∈ granted_scope <-> x ∈ requested
                      | None => granted_scope = Scope (OAuth2 s)
                      end).
  { destruct requested_scope as [requested|].
    - destruct (subtract (py.set_of requested) (Scope (OAuth2 s))) eqn:Hextra;
        [|discriminate].
      injection Hgranted as <-. split.
      + now apply subtract_nil.
      + intros x. apply set_of_elem.
    - injection Hgranted as <-. split; [auto | reflexivity]. }
  destruct Hscope as [Hsub Hexact]. repeat split; assumption || reflexivity.
Qed.

Lemma refresh_never_widens_witness :
  exists s' w',
    refresh_session sample.the_app sample_tokens.alice_world sample_tokens.alice_child
      (Some ["openid"; "openid"]) = py.Ok (s', w')
    /\ Scope (OAuth2 sample_tokens.alice_child) = ["openid"; "profile"]
    /\ Scope (OAuth2 s') = ["openid"]
    /\ (forall x, x ∈ Scope (OAuth2 s') -> x ∈ Scope (OAuth2 sample_tokens.alice_child))
    /\ (forall x, x ∈ Scope (OAuth2 s') <-> x ∈ ["openid"; "openid"])
    /\ sessions w' = <[SessionId sample_tokens.alice_child := s']>
                       (sessions sample_tokens.alice_world)
    /\ tokens w' = tokens sample_tokens.alice_world.
Proof.
  eexists _, _. split; [vm_compute; reflexivity|].
  split; [vm_compute; reflexivity|]. split; [vm_compute; reflexivity|].
  refine (refresh_never_widens_the_scope sample.the_app sample_tokens.alice_world _
            sample_tokens.alice_child _ (Some ["openid"; "openid"]) _).
  vm_compute; reflexivity.
Defined.

(** X21.  A refresh that asks for a scope item outside the scope of the
    session is refused with [AccessDeniedError] for the session's client,
    whatever else is requested, as soon as the parent session exists; when
    the parent session is missing, the lookup's [KeyError] comes first. *)
Theorem refresh_outside_the_granted_scope_is_denied (a : App) (w : World)
    (s : SessionAdapter) (requested : list string) (item : string) :
  item ∈ requested ->
  item ∉ Scope (OAuth2 s) ->
  refresh_session a w s (Some requested)
  = match ParentSessionId s with
    | Some parent =>
        match sessions w !! parent with
        | Some _ => py.Raise (py.AccessDeniedError (default "None" (ClientId (OAuth2 s))))
        | None => py.Raise (py.KeyError parent)
        end
    | None => py.Raise (py.KeyError "None")
    end.
Proof.
  intros Hitem Houtside. unfold refresh_session.
  destruct (ParentSessionId s) as [parent|]; [|reflexivity].
  unfold SessionService_get.
  destruct (sessions w !! parent) as [root_session|]; [|reflexivity].
  cbn [py.bind].
  destruct (subtract (py.set_of requested) (Scope (OAuth2 s))) eqn:Hextra; [|reflexivity].
  exfalso. apply Houtside.
  now apply (subtract_nil _ _ Hextra), set_of_elem.
Qed.

Lemma refresh_outside_the_granted_scope_witness :
  refresh_session sample.the_app sample_tokens.alice_world sample_tokens.alice_child
    (Some ["openid"; "batman"])
  = py.Raise (py.AccessDeniedError "app1").
Proof.
  rewrite (refresh_outside_the_granted_scope_is_denied sample.the_app
             sample_tokens.alice_world sample_tokens.alice_child
             ["openid"; "batman"] "batman").
  - vm_compute; reflexivity.
  - apply (bool_decide_unpack _). vm_compute. exact I.
  - apply (bool_decide_unpack _). vm_compute. exact I.
Defined.

End revocation_and_refresh.

(** ** Tenants *)

Section tenant_names.
Import tenants.

Lemma at_end_spec (s : string) :
  at_end s = true <-> s = EmptyString \/ s = newline.
Proof.
  destruct s as [|c [|c' t]]; cbn [at_end].
  - split; auto.
  - split.
    + intros H%Nat.eqb_eq. right. unfold newline.
      now rewrite <- H, ascii_nat_embedding.
    + intros [H|H]; [discriminate|]. now injection H as ->.
  - split; [discriminate|]. intros [H|H]; discriminate.
Qed.

Lemma at_end_no_name_char (c : ascii) (t : string) :
  at_end (String c t) = true -> is_name_char c = false.
Proof.
  intros [H|H]%at_end_spec; [discriminate|]. now injection H as -> ->.
Qed.

(** The greedy repetition with its give-back finds a match exactly when
    the text is a block of [lo] to [hi] name characters followed by the
    end. *)
Lemma name_chars_then_end_spec (hi lo : nat) (s : string) :
  name_chars_then_end lo hi s = true
  <-> exists body rest,
        s = py.cat body rest /\ lo <= String.length body <= hi
        /\ urllib.all_chars is_name_char body = true /\ at_end rest = true.
Proof.
  revert lo s. induction hi as [|hi IH]; intros lo s.
  - cbn [name_chars_then_end]. rewrite andb_true_iff, Nat.eqb_eq. split.
    + intros [-> Hend]. exists EmptyString, s. repeat split; auto.
    + intros (body & rest & -> & [Hlo Hhi] & _ & Hend).
      destruct body; [|cbn in Hhi; lia]. cbn in Hlo. split; [lia | exact Hend].
  - assert (Hstop : Nat.eqb lo 0 && at_end s = true
                    <-> exists rest, s = rest /\ lo = 0 /\ at_end rest = true).
    { rewrite andb_true_iff, Nat.eqb_eq. split; [intros []; eauto|].
      now intros (rest & -> & ? & ?). }
    cbn [name_chars_then_end]. destruct s as [|c t].
    + rewrite Hstop. split.
      * intros (rest & <- & -> & Hend). exists EmptyString, EmptyString.
        repeat split; auto; cbn; lia.
      * intros (body & rest & Hs & [Hlo _] & _ & Hend).
        destruct body; [|discriminate]. change (py.cat EmptyString rest) with rest in Hs. cbn in Hlo. subst rest.
        exists EmptyString. repeat split; auto. lia.
    + destruct (is_name_char c) eqn:Hc.
      * rewrite orb_true_iff, IH, Hstop. split.
        -- intros [(body & rest & -> & [Hlo Hhi] & Hbody & Hend)
                  | (rest & <- & -> & Hend)].
           ++ exists (String c body), rest. cbn [String.length urllib.all_chars].
              rewrite Hc, Hbody. repeat split; auto; lia.
           ++ apply at_end_no_name_char in Hend. congruence.
        -- intros (body & rest & Hs & [Hlo Hhi] & Hbody & Hend).
           destruct body as [|c' body].
           ++ change (py.cat EmptyString rest) with rest in Hs. subst rest. apply at_end_no_name_char in Hend. congruence.
           ++ change (py.cat (String c' body) rest) with (String c' (py.cat body rest)) in Hs.
              injection Hs as <- ->. left. exists body, rest.
              cbn [String.length urllib.all_chars] in Hlo, Hhi, Hbody.
              rewrite Hc in Hbody. repeat split; auto; lia.
      * rewrite Hstop. split.
        -- intros (rest & <- & -> & Hend). exists EmptyString, (String c t).
           repeat split; auto; cbn; lia.
        -- intros (body & rest & Hs & [Hlo _] & Hbody & Hend).
           destruct body as [|c' body].
           ++ change (py.cat EmptyString rest) with rest in Hs. cbn in Hlo. subst rest. exists (String c t). repeat split; auto. lia.
           ++ change (py.cat (String c' body) rest) with (String c' (py.cat body rest)) in Hs.
              injection Hs as <- ->. cbn [urllib.all_chars] in Hbody.
              now rewrite Hc in Hbody.
Qed.

Lemma all_chars_cat (f : ascii -> bool) (s1 s2 : string) :
  urllib.all_chars f (py.cat s1 s2) = urllib.all_chars f s1 && urllib.all_chars f s2.
Proof.
  induction s1 as [|c s1 IH]; [reflexivity|].
  change (py.cat (String c s1) s2) with (String c (py.cat s1 s2)).
  cbn [urllib.all_chars]. rewrite IH. now destruct (f c).
Qed.

Lemma TenantNameRegex_match_spec (tenant_id : string) :
  TenantNameRegex_match tenant_id = true
  <-> is_tenant_name tenant_id
      \/ exists name, is_tenant_name name /\ tenant_id = py.cat name newline.
Proof.
  unfold TenantNameRegex_match, is_tenant_name. destruct tenant_id as [|c t].
  - split; [discriminate|].
    intros [(c & body & H & _) | (name & (c & body & -> & _) & H)]; discriminate.
  - rewrite andb_true_iff, name_chars_then_end_spec. split.
    + intros (Hc & body & rest & -> & Hlen & Hbody & [-> | ->]%at_end_spec).
      * left. exists c, body. now rewrite cat_empty_r.
      * right. exists (String c body). split; [|reflexivity]. now exists c, body.
    + intros [(c' & body & H & Hc & Hlen & Hbody)
             | (name & (c' & body & -> & Hc & Hlen & Hbody) & H)].
      * injection H as -> ->. split; [exact Hc|].
        exists body, EmptyString. rewrite cat_empty_r. repeat split; auto; lia.
      * change (py.cat (String c' body) newline) with (String c' (py.cat body newline)) in H.
        injection H as -> ->. split; [exact Hc|].
        exists body, newline. repeat split; auto; lia.
Qed.

(** X22.  [create_tenant] lets an id through to the provider exactly
    when it is a tenant name (a letter followed by 2 to 31 letters, digits,
    dots, underscores or hyphens) or such a name followed by one newline,
    which [$] lets pass; the reply then follows the provider's answer.  For
    any other id the reply is [INVALID-VALUE] and the provider is not
    called. *)
Theorem create_tenant_guards_the_provider {P : Type} (prov : Provider P) (p : P)
    (euid tenant_id : string) (creator_id : option string) :
  (is_tenant_name tenant_id
   \/ (exists name, is_tenant_name name /\ tenant_id = py.cat name newline) ->
   create_tenant prov p euid tenant_id creator_id
   = match create prov p tenant_id creator_id with
     | (DuplicateError, p') =>
         (py.Ok [("result", Text "CONFLICT"); ("uuid", UUID euid);
                 ("message",
                  Text (py.cat "A tenant with the name '"
                          (py.cat tenant_id "' already exists.")))], p')
     | (CreateRaised e, p') => (py.Raise e, p')
     | (Created None, p') => (py.Ok [("result", Text "FAILED"); ("uuid", UUID euid)], p')
     | (Created (Some new_id), p') =>
         (py.Ok [("result", Text "OK"); ("id", Text new_id)], p')
     end)
  /\ (~ (is_tenant_name tenant_id
         \/ exists name, is_tenant_name name /\ tenant_id = py.cat name newline) ->
      create_tenant prov p euid tenant_id creator_id
      = (py.Ok [("result", Text "INVALID-VALUE"); ("uuid", UUID euid);
                ("message",
                 Text "Tenant ID must match the pattern '^[a-zA-Z][a-zA-Z0-9._-]{2,31}$'")],
         p)).
Proof.
  unfold create_tenant. split.
  - intros Hname%TenantNameRegex_match_spec. now rewrite Hname.
  - intros Hname. destruct (TenantNameRegex_match tenant_id) eqn:Hmatch; [|reflexivity].
    now apply TenantNameRegex_match_spec in Hmatch.
Qed.


Lemma create_tenant_witness :
  create_tenant sample_tenants.provider sample_tenants.two_tenants "euid" "initech" None
  = (py.Ok [("result", Text "OK"); ("id", Text "initech")],
     {| sample_tenants.names := ["acme"; "globex"; "initech"];
        sample_tenants.assignments := [("alice", "acme")] |})
  /\ create_tenant sample_tenants.provider sample_tenants.two_tenants "euid"
       (py.cat "acme" newline) None
     = (py.Ok [("result", Text "OK"); ("id", Text (py.cat "acme" newline))],
        {| sample_tenants.names := ["acme"; "globex"; py.cat "acme" newline];
           sample_tenants.assignments := [("alice", "acme")] |})
  /\ create_tenant sample_tenants.provider sample_tenants.two_tenants "euid" "a/b" None
     = (py.Ok [("result", Text "INVALID-VALUE"); ("uuid", UUID "euid");
               ("message",
                Text "Tenant ID must match the pattern '^[a-zA-Z][a-zA-Z0-9._-]{2,31}$'")],
        sample_tenants.two_tenants).
Proof.
  split; [|split].
  - rewrite (proj1 (create_tenant_guards_the_provider sample_tenants.provider
                      sample_tenants.two_tenants "euid" "initech" None)); [reflexivity|].
    left. exists "i"%char, "nitech". repeat split; cbn; lia.
  - rewrite (proj1 (create_tenant_guards_the_provider sample_tenants.provider
                      sample_tenants.two_tenants "euid" (py.cat "acme" newline) None));
      [reflexivity|].
    right. exists "acme". split; [|reflexivity].
    exists "a"%char, "cme". repeat split; cbn; lia.
  - apply (proj2 (create_tenant_guards_the_provider sample_tenants.provider
                    sample_tenants.two_tenants "euid" "a/b" None)).
    intros [(c & body & H & _ & _ & Hbody) | (name & (c & body & -> & _ & _ & Hbody) & H)].
    + injection H as <- <-. discriminate.
    + destruct body as [|c1 [|c2 [|c3 body]]]; discriminate.
Defined.

End tenant_names.

Section tenant_assignment.
Import tenants.
Context {P S : Type}.

(** A tenant that does not pass the checks of [set_tenants]: the
    provider does not know it (or fails), the session has no [Authz], or
    the access check answers something other than [OK]. *)
Lemma check_tenant_refuses (svc : Service P S) (prov : Provider P) (p : P) (session : S)
    (tenant : string) :
  (exists e, get prov p tenant = py.Raise e)
  \/ (exists e, Authz svc session = py.Raise e)
  \/ (exists authz, Authz svc session = py.Ok authz
                    /\ has_resource_access svc authz tenant ["authz:tenant:admin"] <> "OK") ->
  check_tenant svc prov p session tenant <> py.Ok None.
Proof.
  unfold check_tenant. intros [[e He] | [[e He] | (authz & Hauthz & Hdenied)]].
  - rewrite He. now destruct e.
  - rewrite He. destruct (get prov p tenant) as [|[]]; discriminate.
  - rewrite Hauthz. destruct (get prov p tenant) as [|[]]; try discriminate.
    cbn [py.bind].
    destruct (String.eqb_spec (has_resource_access svc authz tenant ["authz:tenant:admin"])
                "OK") as [|_]; [contradiction|].
    cbn [negb]. destruct (CredentialsId svc session); discriminate.
Qed.

Lemma check_tenants_refuse (svc : Service P S) (prov : Provider P) (p : P) (session : S)
    (checked : list string) (tenant : string) :
  tenant ∈ checked ->
  check_tenant svc prov p session tenant <> py.Ok None ->
  check_tenants svc prov p session checked <> py.Ok None.
Proof.
  intros Hin Hrefused. induction checked as [|t checked IH]; [now apply elem_of_nil in Hin|].
  cbn [check_tenants].
  destruct (check_tenant svc prov p session t) as [[answer|]|e] eqn:Ht; try discriminate.
  apply elem_of_cons in Hin as [-> | Hin]; [contradiction | now apply IH].
Qed.

Lemma check_tenants_answer (svc : Service P S) (prov : Provider P) (p : P) (session : S)
    (checked : list string) (answer : reply) :
  check_tenants svc prov p session checked = py.Ok (Some answer) ->
  answer <> [("result", Text "OK")].
Proof.
  induction checked as [|t checked IH]; [discriminate|].
  cbn [check_tenants].
  destruct (check_tenant svc prov p session t) as [[answer'|]|e] eqn:Ht;
    [|exact IH|discriminate].
  intros [= <-]. unfold check_tenant in Ht.
  destruct (get prov p t) as [|[]]; try discriminate.
  - destruct (Authz svc session); [|discriminate]. cbn [py.bind] in Ht.
    destruct (negb _); [|discriminate].
    destruct (CredentialsId svc session); [|discriminate].
    now injection Ht as <-.
  - now injection Ht as <-.
Qed.

Lemma set_update_elem (s l : list string) (x : string) :
  x ∈ py.set_update s l <-> x ∈ s \/ x ∈ l.
Proof.
  unfold py.set_update. revert s.
  induction l as [|y l IH]; intros s; cbn [foldl].
  - rewrite elem_of_nil. tauto.
  - rewrite IH, set_add_elem, elem_of_cons. tauto.
Qed.

Lemma subtract_elem (l exclude : list string) (x : string) :
  x ∈ oidc.subtract l exclude <-> x ∈ l /\ x ∉ exclude.
Proof.
  unfold oidc.subtract. rewrite list_elem_of_filter, mem_false. tauto.
Qed.

(** X23.  [set_tenants] checks before it changes anything: if one of
    the tenants that would be assigned or unassigned (requested but not
    assigned, or assigned but not requested) is unknown to the provider or
    is not administered by the session, then no assignment is changed and
    the answer is not [OK]. *)
Theorem set_tenants_is_all_or_nothing (svc : Service P S) (prov : Provider P) (p : P)
    (session : S) (credentials_id : string) (requested : list string) (tenant : string) :
  TenantsProvider svc = Some prov ->
  (forall l, iteration svc l ≡ₚ l) ->
  (tenant ∈ requested /\ tenant ∉ iterate_assigned prov p credentials_id)
  \/ (tenant ∈ iterate_assigned prov p credentials_id /\ tenant ∉ requested) ->
  (exists e, get prov p tenant = py.Raise e)
  \/ (exists e, Authz svc session = py.Raise e)
  \/ (exists authz, Authz svc session = py.Ok authz
                    /\ has_resource_access svc authz tenant ["authz:tenant:admin"] <> "OK") ->
  (set_tenants svc p session credentials_id requested).2 = p
  /\ (set_tenants svc p session credentials_id requested).1
     <> py.Ok [("result", Text "OK")].
Proof.
  intros Hprov Horder Hchange Hrefused. unfold set_tenants. rewrite Hprov.
  destruct (detail svc credentials_id) as [|[]]; cbn [fst snd]; try (split; [reflexivity | discriminate]).
  assert (Hchecked : check_tenants svc prov p session
                       (iteration svc
                          (py.set_update
                             (oidc.subtract (py.set_of requested)
                                (py.set_of (iterate_assigned prov p credentials_id)))
                             (oidc.subtract (py.set_of (iterate_assigned prov p credentials_id))
                                (py.set_of requested))))
                     <> py.Ok None).
  { apply (check_tenants_refuse _ _ _ _ _ tenant); [|now apply check_tenant_refuses].
    rewrite Horder, set_update_elem, !subtract_elem, !set_of_elem. tauto. }
  destruct (check_tenants _ _ _ _ _) as [[answer|]|e] eqn:Hcheck; cbn [fst snd].
  - split; [reflexivity|]. intros Heq. injection Heq as ->. now apply check_tenants_answer in Hcheck.
  - contradiction.
  - split; [reflexivity | discriminate].
Qed.


Lemma subtract_all (l exclude : list string) :
  (forall x, x ∈ l -> x ∈ exclude) -> oidc.subtract l exclude = [].
Proof.
  intros Hall. destruct (oidc.subtract l exclude) as [|x rest] eqn:Hrest; [reflexivity|].
  assert (Hx : x ∈ oidc.subtract l exclude) by (rewrite Hrest; apply elem_of_cons; now left).
  apply subtract_elem in Hx as [Hx Hout]. now apply Hall in Hx.
Qed.

(** X24.  When the requested tenants are the assigned ones (in any
    order, with or without repetitions), [set_tenants] answers [OK] and
    changes nothing, without checking anything about these tenants:
    neither that they still exist nor that the session administers
    them. *)
Theorem set_tenants_with_nothing_to_change (svc : Service P S) (prov : Provider P) (p : P)
    (session : S) (credentials_id : string) (requested : list string) :
  TenantsProvider svc = Some prov ->
  (forall l, iteration svc l ≡ₚ l) ->
  detail svc credentials_id = py.Ok tt ->
  (forall tenant, tenant ∈ requested <-> tenant ∈ iterate_assigned prov p credentials_id) ->
  set_tenants svc p session credentials_id requested = (py.Ok [("result", Text "OK")], p).
Proof.
  intros Hprov Horder Hdetail Hsame. unfold set_tenants. rewrite Hprov, Hdetail.
  assert (Hnone : iteration svc [] = []) by (apply Permutation_nil_r, Horder).
  rewrite !subtract_all.
  - change (py.set_update [] []) with (@nil string). now rewrite Hnone.
  - intros x. rewrite !set_of_elem. apply Hsame.
  - intros x. rewrite !set_of_elem. apply Hsame.
Qed.

End tenant_assignment.

Section tenant_assignment_samples.
Import tenants.

Lemma set_tenants_is_all_or_nothing_witness :
  (set_tenants sample_tenants.service sample_tenants.two_tenants
     sample_tenants.acme_admin "alice" ["globex"]).2 = sample_tenants.two_tenants
  /\ (set_tenants sample_tenants.service sample_tenants.two_tenants
        sample_tenants.acme_admin "alice" ["globex"]).1
     <> py.Ok [("result", Text "OK")].
Proof.
  apply (set_tenants_is_all_or_nothing sample_tenants.service sample_tenants.provider
           sample_tenants.two_tenants sample_tenants.acme_admin "alice" ["globex"]
           "globex").
  - reflexivity.
  - intros l. reflexivity.
  - left. split; apply (bool_decide_unpack _); vm_compute; exact I.
  - right. right. eexists. split; [reflexivity|]. vm_compute. discriminate.
Defined.

Lemma set_tenants_with_nothing_to_change_witness :
  set_tenants sample_tenants.service sample_tenants.two_tenants sample.alice "alice"
    ["acme"; "acme"]
  = (py.Ok [("result", Text "OK")], sample_tenants.two_tenants).
Proof.
  apply (set_tenants_with_nothing_to_change sample_tenants.service sample_tenants.provider).
  - reflexivity.
  - intros l. reflexivity.
  - reflexivity.
  - intros tenant. change (iterate_assigned sample_tenants.provider
                             sample_tenants.two_tenants "alice") with ["acme"].
    rewrite !elem_of_cons, elem_of_nil. tauto.
Defined.

End tenant_assignment_samples.

(** ** Registration tokens *)

Section registration_tokens.
Import registration.

Lemma get_provider_allows_registration (svc : Service) (provider_id : option string)
    (provider : Provider) :
  get_provider svc provider_id = py.Ok (Some provider) ->
  registration_enabled provider = true
  /\ match provider_id with
     | Some id => py.dict_get (Providers svc) id = Some provider
     | None => provider ∈ map snd (CredentialProviders svc)
     end.
Proof.
  unfold get_provider. destruct provider_id as [id|].
  - destruct (py.dict_get (Providers svc) id) as [found|]; [|discriminate].
    destruct (registration_enabled found) eqn:Hallowed; [|discriminate].
    now intros [= <-].
  - intros [= Hhead]. apply head_Some_elem_of in Hhead.
    now apply list_elem_of_filter in Hhead.
Qed.

(** X25.  A registration token made at time [now] for an id that is
    free can be read back with the provider, features, key, tenant and
    issuer it was made with, and it outlives
    [delete_expired_registration_tokens] exactly as long as the clock of
    the clean-up is not past [now + InviteExpiration]: at that very
    instant it is still there, later it is gone.  The other tokens of the
    collection are not touched by its creation. *)
Theorem registration_token_lives_until_it_expires (svc : Service)
    (rg : gmap string RegistrationToken) (now : Z) (registration_token key : string) (features : py.dict py.value)
    (provider_id tenant issued_by : option string) (provider : Provider) :
  rg !! registration_token = None ->
  get_provider svc provider_id = py.Ok (Some provider) ->
  exists rg',
    create_registration_token svc rg now registration_token key features provider_id
      tenant issued_by = inr (registration_token, rg')
    /\ (forall other, other <> registration_token -> rg' !! other = rg !! other)
    /\ forall later,
         get_registration_token (delete_expired_registration_tokens rg' later)
           registration_token
         = if (later <=? now + InviteExpiration svc)%Z
           then py.Ok {| rt_p := ProviderID provider; rt_f := features; rt_k := key;
                         rt_t := tenant; rt_i := issued_by;
                         rt_exp := (now + InviteExpiration svc)%Z |}
           else py.Raise (py.KeyError registration_token).
Proof.
  intros Hfree Hprovider. unfold create_registration_token, upsertor_execute.
  rewrite Hprovider. cbv beta iota zeta. rewrite Hfree. eexists. split; [reflexivity|]. split.
  - intros other Hother. now rewrite lookup_insert_ne.
  - intros later. unfold get_registration_token, delete_expired_registration_tokens.
    destruct (Z.leb_spec later (now + InviteExpiration svc)) as [Hlive | Hdead].
    + match goal with
      | |- match filter ?f ?m !! ?k with _ => _ end = py.Ok ?doc =>
          assert (Hkept : filter f m !! k = Some doc)
      end.
      { apply map_lookup_filter_Some. split; [apply lookup_insert_eq|].
        cbn [snd rt_exp]. lia. }
      now rewrite Hkept.
    + match goal with
      | |- match filter ?f ?m !! ?k with _ => _ end = _ =>
          assert (Hgone : filter f m !! k = None)
      end.
      { apply map_lookup_filter_None. right. intros doc.
        rewrite lookup_insert_eq. intros [= <-]. cbn [snd rt_exp]. lia. }
      now rewrite Hgone.
Qed.

Lemma registration_token_witness :
  exists rg',
    create_registration_token sample_registration.service ∅ 1000 "token" "key"
      [("email", py.PyStr "a@b.c")] None (Some "acme") None = inr ("token", rg')
    /\ (forall other, other <> "token" -> rg' !! other = (∅ : gmap string RegistrationToken) !! other)
    /\ forall later,
         get_registration_token (delete_expired_registration_tokens rg' later) "token"
         = if (later <=? 1000 + 3600)%Z
           then py.Ok {| rt_p := "mongo"; rt_f := [("email", py.PyStr "a@b.c")];
                         rt_k := "key"; rt_t := Some "acme"; rt_i := None;
                         rt_exp := (1000 + 3600)%Z |}
           else py.Raise (py.KeyError "token").
Proof.
  apply (registration_token_lives_until_it_expires sample_registration.service ∅ 1000
           "token" "key" [("email", py.PyStr "a@b.c")] None (Some "acme") None
           {| ProviderID := "mongo"; registration_enabled := true |}).
  - apply lookup_empty.
  - reflexivity.
Defined.

(** X26.  Whenever [create_registration_token] returns, the provider
    written into the token allows registration: it is the provider of the
    given id, or, when no id was given, one of the credential providers.
    A given id is never replaced: if that provider does not allow
    registration the call ends in [AssertionError] although another
    provider would allow it, and an id that names no provider ends in
    [AttributeError]; in both cases nothing is stored. *)
Theorem registration_token_names_a_registering_provider (svc : Service)
    (rg : gmap string RegistrationToken) (now : Z) (registration_token key : string) (features : py.dict py.value)
    (provider_id tenant issued_by : option string) :
  match create_registration_token svc rg now registration_token key features provider_id
          tenant issued_by with
  | inr (token, rg') =>
      exists provider doc,
        rg' !! token = Some doc /\ rt_p doc = ProviderID provider
        /\ registration_enabled provider = true
        /\ match provider_id with
           | Some id => py.dict_get (Providers svc) id = Some provider
           | None => provider ∈ map snd (CredentialProviders svc)
           end
  | inl (Python py.AssertionError) =>
      match provider_id with
      | Some id => exists provider, py.dict_get (Providers svc) id = Some provider
                                    /\ registration_enabled provider = false
      | None => forall provider, provider ∈ map snd (CredentialProviders svc) ->
                                 registration_enabled provider = false
      end
  | inl (Python _) => exists id, provider_id = Some id /\ py.dict_get (Providers svc) id = None
  | inl (DuplicateError obj_id) => obj_id = registration_token /\ is_Some (rg !! obj_id)
  end.
Proof.
  unfold create_registration_token, upsertor_execute.
  destruct (get_provider svc provider_id) as [[provider|]|e] eqn:Hprovider.
  - destruct (rg !! registration_token) eqn:Htaken; [split; eauto|].
    apply get_provider_allows_registration in Hprovider as [Hallowed Hfound].
    eexists provider, _. split; [apply lookup_insert_eq|]. auto.
  - unfold get_provider in Hprovider. destruct provider_id as [id|].
    + destruct (py.dict_get (Providers svc) id) as [found|]; [|discriminate].
      destruct (registration_enabled found) eqn:Hallowed; [discriminate|]. eauto.
    + injection Hprovider as Hhead. apply head_None in Hhead.
      intros provider Hin. destruct (registration_enabled provider) eqn:Hallowed; [|reflexivity].
      assert (Hfiltered : provider ∈ filter (fun provider => registration_enabled provider = true)
                                        (map snd (CredentialProviders svc)))
        by now apply list_elem_of_filter.
      rewrite Hhead in Hfiltered. now apply elem_of_nil in Hfiltered.
  - unfold get_provider in Hprovider. destruct provider_id as [id|]; [|discriminate].
    destruct (py.dict_get (Providers svc) id) as [found|] eqn:Hfound.
    + now destruct (registration_enabled found).
    + injection Hprovider as <-. eauto.
Qed.

End registration_tokens.

